(** * thrawns-gambit: the signed-request Comlink client

    A shallow embedding of [utils/comlink/__init__.py] (the [SwgohComlink]
    client, its payload builders and the localisation pipeline) and of
    [ThrawnsGambit.on_ready] from [bot.py], together with the parts of the
    Python runtime the client relies on: [str] methods, [json.dumps],
    [hashlib.md5], [hmac] with SHA-256, and the way the HTTP session turns a
    [json=] argument into body bytes.

    Conventions.
    - A Python [str] is a [string] whose characters are the code points
      0..255; [bytes] is [list byte].
    - A Python [int] is a [Z]; [None] is [None] of an [option].
    - A [dict] that is serialised keeps its insertion order: it is an
      association list with distinct keys.  The localisation map, which is
      only looked up and written out sorted, is a [gmap string string].
    - Code that raises returns [Raise e]; code that talks to the outside
      (the HTTP session, the clock, the log, the file system) runs in the
      state-and-exception monad [M] over [World]; how the outside answers is
      a [Runtime], a parameter of every operation.

    The definitions come first, the statements about them after; the
    theorems named C1 to C10 are the properties of the specification, in the
    form in which the code has them. *)

From Stdlib Require Import ZArith Ascii String List DecimalString DecimalZ.
From Stdlib.Strings Require Import Byte.
From stdpp Require Import base list strings gmap sorting.

Local Open Scope Z_scope.

(** ** Python strings and bytes *)

Module Py.

Definition ord (c : ascii) : Z := Z.of_N (N_of_ascii c).
Definition chr (z : Z) : ascii := ascii_of_N (Z.to_N z).

Definition byte_of_Z (z : Z) : byte :=
  match Byte.of_N (Z.to_N (z mod 256)) with
  | Some b => b
  | None => x00
  end.
Definition Z_of_byte (b : byte) : Z := Z.of_N (Byte.to_N b).

(** The double quote, the backslash and the line feed. *)
Definition dquote : ascii := chr 34.
Definition backslash : ascii := chr 92.
Definition newline : ascii := chr 10.

(** [quoted s] reads a literal written with single quotes in place of
    double quotes. *)
Fixpoint quoted (s : string) : string :=
  match s with
  | EmptyString => EmptyString
  | String c s' =>
      String (if Ascii.eqb c "'"%char then dquote else c) (quoted s')
  end.

(** [str.lower] on code points below 256: A-Z and the upper-case letters of
    Latin-1 (U+00C0..U+00DE but the multiplication sign) move up by 32. *)
Definition lower_char (c : ascii) : ascii :=
  let n := ord c in
  if ((65 <=? n) && (n <=? 90))
     || ((192 <=? n) && (n <=? 222) && negb (n =? 215))
  then chr (n + 32) else c.

Fixpoint lower (s : string) : string :=
  match s with
  | EmptyString => EmptyString
  | String c s' => String (lower_char c) (lower s')
  end.

(** [s.startswith(p)] *)
Fixpoint startswith (s p : string) : bool :=
  match p, s with
  | EmptyString, _ => true
  | String _ _, EmptyString => false
  | String a p', String b s' => Ascii.eqb a b && startswith s' p'
  end.

(** [s.endswith(p)] *)
Definition endswith (s p : string) : bool :=
  let n := String.length s in
  let k := String.length p in
  (k <=? n)%nat && String.eqb (String.substring (n - k) k s) p.

(** [c in s] for a one-character [c] *)
Fixpoint contains (c : ascii) (s : string) : bool :=
  match s with
  | EmptyString => false
  | String a s' => Ascii.eqb a c || contains c s'
  end.

(** [s.split(sep)] for a one-character separator: always at least one
    piece. *)
Fixpoint split (sep : ascii) (s : string) : list string :=
  match s with
  | EmptyString => [EmptyString]
  | String c s' =>
      if Ascii.eqb c sep then EmptyString :: split sep s'
      else match split sep s' with
           | h :: t => String c h :: t
           | [] => [String c EmptyString]
           end
  end.

(** [s.partition(sep)] for a one-character separator that occurs in [s]:
    what stands before its first occurrence and what stands after it. *)
Fixpoint partition (sep : ascii) (s : string) : string * string :=
  match s with
  | EmptyString => (EmptyString, EmptyString)
  | String c s' =>
      if Ascii.eqb c sep then (EmptyString, s')
      else (String c (fst (partition sep s')), snd (partition sep s'))
  end.

(** [s.rstrip(c)] for a one-character [c] *)
Fixpoint rstrip (c : ascii) (s : string) : string :=
  match s with
  | EmptyString => EmptyString
  | String a s' =>
      match rstrip c s' with
      | EmptyString => if Ascii.eqb a c then EmptyString else String a EmptyString
      | r => String a r
      end
  end.

(** [sep.join(l)] *)
Fixpoint join (sep : string) (l : list string) : string :=
  match l with
  | [] => EmptyString
  | [x] => x
  | x :: rest => x +:+ sep +:+ join sep rest
  end.

(** [str(n)] for an [int] *)
Definition str_of_int (z : Z) : string := NilZero.string_of_int (Z.to_int z).

(** [s.encode()]: UTF-8, one byte below 128 and two bytes from 128 to 255. *)
Definition encode_char (c : ascii) : list byte :=
  let n := ord c in
  if n <? 128 then [byte_of_Z n]
  else [byte_of_Z (Z.lor 192 (Z.shiftr n 6)); byte_of_Z (Z.lor 128 (Z.land n 63))].

Fixpoint encode (s : string) : list byte :=
  match s with
  | EmptyString => []
  | String c s' => encode_char c ++ encode s'
  end.

(** [b.decode()] on the image of [encode]: [None] stands for everything
    else (an invalid sequence, or a code point from 256 on). *)
Fixpoint decode (bs : list byte) : option string :=
  match bs with
  | [] => Some EmptyString
  | b :: rest =>
      let n := Z_of_byte b in
      if n <? 128 then option_map (String (chr n)) (decode rest)
      else
        match rest with
        | b2 :: rest' =>
            let n2 := Z_of_byte b2 in
            if ((n =? 194) || (n =? 195)) && (128 <=? n2) && (n2 <? 192)
            then option_map (String (chr ((n - 192) * 64 + (n2 - 128)))) (decode rest')
            else None
        | [] => None
        end
  end.

Definition hex_digit (z : Z) : ascii :=
  if z <? 10 then chr (48 + z) else chr (87 + z).

(** Two lower-case hexadecimal digits per byte, as [hexdigest] prints. *)
Fixpoint hex (bs : list byte) : string :=
  match bs with
  | [] => EmptyString
  | b :: rest =>
      let n := Z_of_byte b in
      String (hex_digit (n / 16)) (String (hex_digit (n mod 16)) (hex rest))
  end.

(** Truth value of an optional string: [None] and [''] are false. *)
Definition truthy_str (s : option string) : bool :=
  match s with
  | Some (String _ _) => true
  | _ => false
  end.

End Py.

(** ** hashlib and hmac *)

Module Hashlib.
Import Py.

Definition add32 (x y : Z) : Z := (x + y) mod 2 ^ 32.
Definition not32 (x : Z) : Z := Z.lxor x (2 ^ 32 - 1).
Definition rotl32 (x n : Z) : Z :=
  Z.lor (Z.shiftl x n mod 2 ^ 32) (Z.shiftr x (32 - n)).
Definition rotr32 (x n : Z) : Z :=
  Z.lor (Z.shiftr x n) (Z.shiftl x (32 - n) mod 2 ^ 32).

Definition hex_value (c : ascii) : Z :=
  let n := ord c in
  if n <? 58 then n - 48 else n - 87.

(** Reads a table of 32-bit words written as blank-separated hexadecimal
    numbers. *)
Fixpoint words_of_hex_go (s : string) (cur : option Z) : list Z :=
  match s with
  | EmptyString => match cur with Some w => [w] | None => [] end
  | String c s' =>
      if Ascii.eqb c " "%char
      then match cur with
           | Some w => w :: words_of_hex_go s' None
           | None => words_of_hex_go s' None
           end
      else words_of_hex_go s'
             (Some (16 * (match cur with Some w => w | None => 0 end) + hex_value c))
  end.
Definition words_of_hex (s : string) : list Z := words_of_hex_go s None.

(** Message padding shared by MD5 and SHA-256: a 1 bit, zeros up to 56
    modulo 64 bytes, then the bit length on 8 bytes. *)
Definition pad_zeros (len : nat) : nat := ((119 - len mod 64) mod 64)%nat.

Definition le_bytes (k : nat) (x : Z) : list Z :=
  map (fun i => Z.shiftr x (8 * Z.of_nat i) mod 256) (seq 0 k).
Definition be_bytes (k : nat) (x : Z) : list Z := rev (le_bytes k x).

Definition le_word (bs : list Z) : Z :=
  fold_right (fun b acc => b + 256 * acc) 0 bs.
Definition be_word (bs : list Z) : Z :=
  fold_left (fun acc b => 256 * acc + b) bs 0.

Definition padded (len_bytes : nat -> Z -> list Z) (msg : list Z) : list Z :=
  let n := length msg in
  msg ++ [128] ++ repeat 0 (pad_zeros n)
      ++ len_bytes 8%nat ((8 * Z.of_nat n) mod 2 ^ 64).

Fixpoint chunks (fuel : nat) (k : nat) (l : list Z) : list (list Z) :=
  match fuel with
  | O => []
  | S fuel' =>
      match l with
      | [] => []
      | _ => firstn k l :: chunks fuel' k (skipn k l)
      end
  end.
Definition blocks (k : nat) (l : list Z) : list (list Z) :=
  chunks (length l) k l.

(** *** MD5 (RFC 1321) *)

Definition md5_K : list Z := words_of_hex
  ("d76aa478 e8c7b756 242070db c1bdceee f57c0faf 4787c62a a8304613 fd469501 " +:+
   "698098d8 8b44f7af ffff5bb1 895cd7be 6b901122 fd987193 a679438e 49b40821 " +:+
   "f61e2562 c040b340 265e5a51 e9b6c7aa d62f105d 02441453 d8a1e681 e7d3fbc8 " +:+
   "21e1cde6 c33707d6 f4d50d87 455a14ed a9e3e905 fcefa3f8 676f02d9 8d2a4c8a " +:+
   "fffa3942 8771f681 6d9d6122 fde5380c a4beea44 4bdecfa9 f6bb4b60 bebfbc70 " +:+
   "289b7ec6 eaa127fa d4ef3085 04881d05 d9d4d039 e6db99e5 1fa27cf8 c4ac5665 " +:+
   "f4292244 432aff97 ab9423a7 fc93a039 655b59c3 8f0ccc92 ffeff47d 85845dd1 " +:+
   "6fa87e4f fe2ce6e0 a3014314 4e0811a1 f7537e82 bd3af235 2ad7d2bb eb86d391").

Definition md5_shift (i : Z) : Z :=
  let r := i mod 4 in
  if i <? 16 then nth (Z.to_nat r) [7; 12; 17; 22] 0
  else if i <? 32 then nth (Z.to_nat r) [5; 9; 14; 20] 0
  else if i <? 48 then nth (Z.to_nat r) [4; 11; 16; 23] 0
  else nth (Z.to_nat r) [6; 10; 15; 21] 0.

Definition md5_step (M : list Z) (st : Z * Z * Z * Z) (i : nat) : Z * Z * Z * Z :=
  let '(a, b, c, d) := st in
  let j := Z.of_nat i in
  let '(f, g) :=
    if j <? 16 then (Z.lor (Z.land b c) (Z.land (not32 b) d), j)
    else if j <? 32 then (Z.lor (Z.land d b) (Z.land (not32 d) c), (5 * j + 1) mod 16)
    else if j <? 48 then (Z.lxor (Z.lxor b c) d, (3 * j + 5) mod 16)
    else (Z.lxor c (Z.lor b (not32 d)), (7 * j) mod 16) in
  let f' := add32 (add32 (add32 f a) (nth i md5_K 0)) (nth (Z.to_nat g) M 0) in
  (d, add32 b (rotl32 f' (md5_shift j)), b, c).

Definition md5_block (st : Z * Z * Z * Z) (blk : list Z) : Z * Z * Z * Z :=
  let M := map le_word (blocks 4 blk) in
  let '(a, b, c, d) := st in
  let '(a', b', c', d') := fold_left (md5_step M) (seq 0 64) st in
  (add32 a a', add32 b b', add32 c c', add32 d d').

Definition md5_init : Z * Z * Z * Z :=
  (le_word [1; 35; 69; 103], le_word [137; 171; 205; 239],
   le_word [254; 220; 186; 152], le_word [118; 84; 50; 16]).

Definition md5 (msg : list byte) : list byte :=
  let '(a, b, c, d) :=
    fold_left md5_block (blocks 64 (padded le_bytes (map Z_of_byte msg))) md5_init in
  map byte_of_Z (le_bytes 4 a ++ le_bytes 4 b ++ le_bytes 4 c ++ le_bytes 4 d).

(** *** SHA-256 (FIPS 180-4) *)

Definition sha256_K : list Z := words_of_hex
  ("428a2f98 71374491 b5c0fbcf e9b5dba5 3956c25b 59f111f1 923f82a4 ab1c5ed5 " +:+
   "d807aa98 12835b01 243185be 550c7dc3 72be5d74 80deb1fe 9bdc06a7 c19bf174 " +:+
   "e49b69c1 efbe4786 0fc19dc6 240ca1cc 2de92c6f 4a7484aa 5cb0a9dc 76f988da " +:+
   "983e5152 a831c66d b00327c8 bf597fc7 c6e00bf3 d5a79147 06ca6351 14292967 " +:+
   "27b70a85 2e1b2138 4d2c6dfc 53380d13 650a7354 766a0abb 81c2c92e 92722c85 " +:+
   "a2bfe8a1 a81a664b c24b8b70 c76c51a3 d192e819 d6990624 f40e3585 106aa070 " +:+
   "19a4c116 1e376c08 2748774c 34b0bcb5 391c0cb3 4ed8aa4a 5b9cca4f 682e6ff3 " +:+
   "748f82ee 78a5636f 84c87814 8cc70208 90befffa a4506ceb bef9a3f7 c67178f2").

Definition sha256_init : list Z := words_of_hex
  "6a09e667 bb67ae85 3c6ef372 a54ff53a 510e527f 9b05688c 1f83d9ab 5be0cd19".

Definition sha256_schedule (blk : list Z) : list Z :=
  fold_left
    (fun W t =>
       let s0 := let x := nth (t - 15) W 0 in
                 Z.lxor (Z.lxor (rotr32 x 7) (rotr32 x 18)) (Z.shiftr x 3) in
       let s1 := let x := nth (t - 2) W 0 in
                 Z.lxor (Z.lxor (rotr32 x 17) (rotr32 x 19)) (Z.shiftr x 10) in
       W ++ [add32 (add32 (add32 s1 (nth (t - 7) W 0)) s0) (nth (t - 16) W 0)])
    (seq 16 48) (map be_word (blocks 4 blk)).

Definition sha256_step (W : list Z) (st : list Z) (t : nat) : list Z :=
  match st with
  | [a; b; c; d; e; f; g; h] =>
      let S1 := Z.lxor (Z.lxor (rotr32 e 6) (rotr32 e 11)) (rotr32 e 25) in
      let ch := Z.lxor (Z.land e f) (Z.land (not32 e) g) in
      let t1 := add32 (add32 (add32 (add32 h S1) ch) (nth t sha256_K 0)) (nth t W 0) in
      let S0 := Z.lxor (Z.lxor (rotr32 a 2) (rotr32 a 13)) (rotr32 a 22) in
      let maj := Z.lxor (Z.lxor (Z.land a b) (Z.land a c)) (Z.land b c) in
      let t2 := add32 S0 maj in
      [add32 t1 t2; a; b; c; add32 d t1; e; f; g]
  | _ => st
  end.

Definition sha256_block (st : list Z) (blk : list Z) : list Z :=
  let W := sha256_schedule blk in
  let st' := fold_left (sha256_step W) (seq 0 64) st in
  map (fun p => add32 (fst p) (snd p)) (combine st st').

Definition sha256_Z (msg : list Z) : list Z :=
  concat (map (be_bytes 4)
            (fold_left sha256_block (blocks 64 (padded be_bytes msg)) sha256_init)).

Definition sha256 (msg : list byte) : list byte :=
  map byte_of_Z (sha256_Z (map Z_of_byte msg)).

(** *** HMAC (RFC 2104) with SHA-256, block size 64 *)

Definition hmac_sha256 (key msg : list byte) : list byte :=
  let k := map Z_of_byte key in
  let k0 := if (64 <? length k)%nat then sha256_Z k else k in
  let kb := k0 ++ repeat 0 (64 - length k0) in
  let inner := sha256_Z (map (Z.lxor 54) kb ++ map Z_of_byte msg) in
  map byte_of_Z (sha256_Z (map (Z.lxor 92) kb ++ inner)).

(** The object returned by [hmac.new(key=..., digestmod=hashlib.sha256)]:
    [update] feeds more bytes, [hexdigest] prints the MAC of all the bytes
    fed so far. *)
Record HMAC : Type := mkHMAC { hm_key : list byte; hm_fed : list byte }.

Definition new (key : list byte) : HMAC := mkHMAC key [].
Definition update (h : HMAC) (m : list byte) : HMAC :=
  mkHMAC (hm_key h) (hm_fed h ++ m).
Definition hexdigest (h : HMAC) : string := hex (hmac_sha256 (hm_key h) (hm_fed h)).

(** [hashlib.md5(m).hexdigest()] *)
Definition md5_hexdigest (m : list byte) : string := hex (md5 m).

End Hashlib.

(** ** JSON values and json.dumps *)

(** The values the client sends and receives: [None], [bool], [int], [str],
    [list] and [dict] with string keys in insertion order. *)
#[warnings="-register-all"]
Inductive json : Type :=
| JNull
| JBool (b : bool)
| JInt (n : Z)
| JStr (s : string)
| JList (l : list json)
| JDict (d : list (string * json)).

(** A Python [dict] with string keys. *)
Abbreviation pydict := (list (string * json)).

Module Dict.

Fixpoint get {A} (d : list (string * A)) (k : string) : option A :=
  match d with
  | [] => None
  | (k', v) :: rest => if String.eqb k' k then Some v else get rest k
  end.

(** [k in d] *)
Definition mem {A} (d : list (string * A)) (k : string) : bool :=
  match get d k with Some _ => true | None => false end.

(** [d[k] = v]: an existing key keeps its place, a new key goes last. *)
Fixpoint set {A} (d : list (string * A)) (k : string) (v : A) : list (string * A) :=
  match d with
  | [] => [(k, v)]
  | (k', v') :: rest =>
      if String.eqb k' k then (k', v) :: rest else (k', v') :: set rest k v
  end.

(** A dict display [{k1: v1, k2: v2, ...}]. *)
Definition literal {A} (items : list (string * A)) : list (string * A) :=
  fold_left (fun d kv => set d (fst kv) (snd kv)) items [].

Definition keys {A} (d : list (string * A)) : list string := map fst d.

End Dict.

Module Json.
Import Py.

(** Truth value of a Python object. *)
Definition truthy (v : json) : bool :=
  match v with
  | JNull => false
  | JBool b => b
  | JInt n => negb (n =? 0)
  | JStr s => negb (String.eqb s EmptyString)
  | JList l => match l with [] => false | _ => true end
  | JDict d => match d with [] => false | _ => true end
  end.

(** [json.encoder.py_encode_basestring_ascii]: everything outside
    space..tilde, the double quote and the backslash are escaped. *)
Definition hex4 (n : Z) : string :=
  String (hex_digit (n / 4096 mod 16)) (String (hex_digit (n / 256 mod 16))
    (String (hex_digit (n / 16 mod 16)) (String (hex_digit (n mod 16)) EmptyString))).

Definition escape_char (c : ascii) : string :=
  let n := ord c in
  if n =? 34 then String backslash (String dquote EmptyString)
  else if n =? 92 then String backslash (String backslash EmptyString)
  else if n =? 10 then String backslash "n"
  else if n =? 13 then String backslash "r"
  else if n =? 9 then String backslash "t"
  else if n =? 8 then String backslash "b"
  else if n =? 12 then String backslash "f"
  else if (n <? 32) || (126 <? n) then String backslash ("u" +:+ hex4 n)
  else String c EmptyString.

Fixpoint escape (s : string) : string :=
  match s with
  | EmptyString => EmptyString
  | String c s' => escape_char c +:+ escape s'
  end.

Definition encode_basestring_ascii (s : string) : string :=
  String dquote (escape s +:+ String dquote EmptyString).

(** [json.dumps(v, separators=(item_sep, key_sep))] *)
Fixpoint dumps_with (item_sep key_sep : string) (v : json) : string :=
  match v with
  | JNull => "null"
  | JBool true => "true"
  | JBool false => "false"
  | JInt n => str_of_int n
  | JStr s => encode_basestring_ascii s
  | JList l =>
      "[" +:+ join item_sep (map (dumps_with item_sep key_sep) l) +:+ "]"
  | JDict d =>
      "{" +:+ join item_sep
                (map (fun kv => encode_basestring_ascii (fst kv) +:+ key_sep
                                +:+ dumps_with item_sep key_sep (snd kv)) d)
          +:+ "}"
  end.

(** [json.dumps(v)]: the default separators. *)
Definition dumps (v : json) : string := dumps_with ", " ": " v.

(** [json.dumps(v, separators=(",", ":"))] *)
Definition dumps_compact (v : json) : string := dumps_with "," ":" v.

(** [json.dumps(m, indent=4, sort_keys=True)] for a flat map from strings
    to strings: one item per line, keys in code-point order. *)
Definition key_le (p q : string * string) : Prop := String.le (fst p) (fst q).

#[global] Instance key_le_dec : RelDecision key_le.
Proof. intros p q. unfold key_le. apply _. Defined.

Definition dumps_sorted_indent4 (m : gmap string string) : string :=
  match merge_sort key_le (map_to_list m) with
  | [] => "{}"
  | items =>
      "{" +:+ String newline
        (join ("," +:+ String newline EmptyString)
           (map (fun kv => "    " +:+ encode_basestring_ascii (fst kv) +:+ ": "
                           +:+ encode_basestring_ascii (snd kv)) items))
        +:+ String newline "}"
  end.

End Json.

(** ** Exceptions, the outside world and the monad of effects *)

(** The exceptions the client's own statements raise, and [External] for
    those raised inside a library it calls (the HTTP session, base64,
    zipfile, the UTF-8 codec, [open]), by the name of their class. *)
Inductive exn : Type :=
| KeyError (key : string)
| ValueError (msg : string)
| TypeError (msg : string)
| AttributeError (msg : string)
| AssertionError
| External (name : string).

Inductive Result (A : Type) : Type :=
| Ok (a : A)
| Raise (e : exn).
Arguments Ok {A} a.
Arguments Raise {A} e.

Inductive Method : Type := GET | POST.

(** What the client hands to the HTTP session: [session.post(url,
    json=..., headers=...)] or [session.get(url)]. *)
Record Request : Type := mkRequest {
  rq_method : Method;
  rq_url : string;
  rq_json : option pydict;
  rq_headers : list (string * string)
}.

(** The body the session puts on the wire for a [json=] argument: nothing
    for [None], otherwise the UTF-8 bytes of [json.dumps] with its default
    separators (the session's default serialiser). *)
Definition transmitted_body (r : Request) : option (list byte) :=
  match rq_json r with
  | None => None
  | Some d => Some (Py.encode (Json.dumps (JDict d)))
  end.

Inductive Level : Type := LDebug | LInfo | LWarning | LError | LCritical.

(** An opened [zipfile.ZipFile]: [read(name)]. *)
Definition ZipFile : Type := string -> Result (list byte).

(** How the surroundings answer.  [rt_remote n r] is what awaiting the
    response to request [r], sent after [n] earlier ones, gives once decoded
    with [r.json()] (or the exception raised on the way). *)
Record Runtime : Type := mkRuntime {
  rt_time_ms : nat -> Z;
    (** [int(time.time() * 1000)] at the n-th reading of the clock *)
  rt_remote : nat -> Request -> Result json;
  rt_b64decode : json -> Result (list byte);
  rt_zip_open : list byte -> Result ZipFile;
  rt_utf8_decode : list byte -> Result string;
  rt_open_w : string -> Result unit;
    (** [open(path, 'w+')] *)
  rt_coroutine_repr : string
    (** [str] of a coroutine object that was never awaited *)
}.

Record World : Type := mkWorld {
  w_sent : list Request;
    (** requests handed to the HTTP session, oldest first *)
  w_clock_reads : nat;
  w_log : list (string * Level * string);
    (** logger name, level, message; oldest first *)
  w_files : gmap string string;
  w_is_ready : bool;
    (** [bot._is_ready] *)
  w_unit_name_map : option (gmap string string)
    (** [comlink.unit_name_map]; [None] while the attribute is not set *)
}.

Definition M (A : Type) : Type := World -> Result A * World.

Definition ret {A} (a : A) : M A := fun w => (Ok a, w).
Definition raise {A} (e : exn) : M A := fun w => (Raise e, w).
Definition bind {A B} (m : M A) (k : A -> M B) : M B :=
  fun w =>
    match m w with
    | (Ok a, w') => k a w'
    | (Raise e, w') => (Raise e, w')
    end.
Definition lift {A} (r : Result A) : M A := fun w => (r, w).

Notation "'do' x <- m ; k" := (bind m (fun x => k))
  (at level 10, x name, m at level 100, k at level 200).

(** [Logger.debug], [Logger.info], [Logger.warn], [Logger.error] and
    [Logger.critical] of the logger called [name]: the formatted line is
    appended to the log file of the day (and printed when the logger has a
    console); here the entry is appended to [w_log]. *)
Definition log (name : string) (lvl : Level) (msg : string) : M unit :=
  fun w => (Ok tt,
            mkWorld (w_sent w) (w_clock_reads w) (w_log w ++ [(name, lvl, msg)])
                    (w_files w) (w_is_ready w) (w_unit_name_map w)).

Definition set_is_ready (b : bool) : M unit :=
  fun w => (Ok tt,
            mkWorld (w_sent w) (w_clock_reads w) (w_log w) (w_files w) b
                    (w_unit_name_map w)).

Definition set_unit_name_map (m : gmap string string) : M unit :=
  fun w => (Ok tt,
            mkWorld (w_sent w) (w_clock_reads w) (w_log w) (w_files w)
                    (w_is_ready w) (Some m)).

Definition get_is_ready : M bool := fun w => (Ok (w_is_ready w), w).

(** [d[k]] on a decoded JSON value. *)
Definition subscript (v : json) (k : string) : Result json :=
  match v with
  | JDict d =>
      match Dict.get d k with
      | Some x => Ok x
      | None => Raise (KeyError k)
      end
  | JList _ => Raise (TypeError "list indices must be integers or slices, not str")
  | JStr _ => Raise (TypeError "string indices must be integers, not 'str'")
  | _ => Raise (TypeError "object is not subscriptable")
  end.

(** ** Configuration ([utils/env.py]) *)

Record Env : Type := mkEnv {
  ACCESS_KEY : string;
  SECRET_KEY : string;
  COMLINK_URL : string;
  STATS_URL : string;
  ENVIRONMENT_MODE : string
}.

Definition nonempty (s : string) : bool := negb (String.eqb s EmptyString).

(** ** Payload builders *)

(** An argument typed [str | int]. *)
Inductive StrOrInt : Type :=
| AStr (s : string)
| AInt (n : Z).

Definition truthy_arg (a : option StrOrInt) : bool :=
  match a with
  | None => false
  | Some (AStr s) => nonempty s
  | Some (AInt n) => negb (n =? 0)
  end.

(** [f'{a}'] *)
Definition format_arg (a : option StrOrInt) : string :=
  match a with
  | None => "None"
  | Some (AStr s) => s
  | Some (AInt n) => Py.str_of_int n
  end.

Definition format_opt (a : option string) : string :=
  match a with
  | None => "None"
  | Some s => s
  end.

Definition json_of_arg (a : option StrOrInt) : json :=
  match a with
  | None => JNull
  | Some (AStr s) => JStr s
  | Some (AInt n) => JInt n
  end.

Definition json_of_opt (a : option string) : json :=
  match a with
  | None => JNull
  | Some s => JStr s
  end.

(** [payload[outer][k] = v] *)
Definition set_inner (payload : pydict) (outer k : string) (v : json) : pydict :=
  match Dict.get payload outer with
  | Some (JDict inner) => Dict.set payload outer (JDict (Dict.set inner k v))
  | _ => payload
  end.

Definition _get_player_payload
    (allycode : option StrOrInt) (player_id : option string) (enums : bool) : pydict :=
  let payload := Dict.literal [("payload", JDict []); ("enums", JBool enums)] in
  if negb (truthy_arg allycode) && Py.truthy_str player_id
  then set_inner payload "payload" "playerId" (JStr (format_opt player_id))
  else set_inner payload "payload" "allyCode" (JStr (format_arg allycode)).

Definition leagues : list (string * Z) :=
  Dict.literal [("kyber", 100); ("aurodium", 80); ("chromium", 60);
                ("bronzium", 40); ("carbonite", 20)].

Definition divisions : list (string * Z) :=
  Dict.literal [("1", 25); ("2", 20); ("3", 15); ("4", 10); ("5", 5)].

(** [table[k]] *)
Definition table_lookup (table : list (string * Z)) (k : string) : Result Z :=
  match Dict.get table k with
  | Some c => Ok c
  | None => Raise (KeyError k)
  end.

(** [if isinstance(league, str): league = leagues[league.lower()]] *)
Definition translate_league (league : option StrOrInt) : Result (option StrOrInt) :=
  match league with
  | Some (AStr s) =>
      match table_lookup leagues (Py.lower s) with
      | Ok c => Ok (Some (AInt c))
      | Raise e => Raise e
      end
  | other => Ok other
  end.

(** The two [division] statements, in order: a one-digit [int] is looked up
    through its decimal string, then a [str] is looked up in lower case. *)
Definition translate_division (division : option StrOrInt) : Result (option StrOrInt) :=
  let step1 :=
    match division with
    | Some (AInt n) =>
        if (String.length (Py.str_of_int n) =? 1)%nat
        then match table_lookup divisions (Py.lower (Py.str_of_int n)) with
             | Ok c => Ok (Some (AInt c))
             | Raise e => Raise e
             end
        else Ok division
    | other => Ok other
    end in
  match step1 with
  | Ok (Some (AStr s)) =>
      match table_lookup divisions (Py.lower s) with
      | Ok c => Ok (Some (AInt c))
      | Raise e => Raise e
      end
  | other => other
  end.

(** The envelope [get_leaderboard] builds once league and division are
    translated. *)
Definition leaderboard_payload
    (leaderboard_type : Z) (league division : option StrOrInt)
    (event_instance_id group_id : option string) (enums : bool) : pydict :=
  let payload :=
    Dict.literal [("payload", JDict (Dict.literal [("leaderboardType", JInt leaderboard_type)]));
                  ("enums", JBool enums)] in
  if leaderboard_type =? 4 then
    set_inner (set_inner payload "payload" "eventInstanceId" (json_of_opt event_instance_id))
              "payload" "groupId" (json_of_opt group_id)
  else if leaderboard_type =? 6 then
    set_inner (set_inner payload "payload" "league" (json_of_arg league))
              "payload" "division" (json_of_arg division)
  else payload.

(** ** The client ([SwgohComlink]) *)

Record SwgohComlink : Type := mkComlink {
  config : Env;
    (** [self.bot.config] *)
  hmac : bool;
  url_base : string;
  stats_url_base : string
}.

(** [SwgohComlink.__init__] *)
Definition SwgohComlink_init (cfg : Env) : SwgohComlink :=
  mkComlink cfg
    (if nonempty (ACCESS_KEY cfg) && nonempty (SECRET_KEY cfg) then true else false)
    (COMLINK_URL cfg) (STATS_URL cfg).

(** The string whose MD5 digest is signed. *)
Definition payload_string (payload : option pydict) : string :=
  match payload with
  | Some (item :: rest) => Json.dumps_compact (JDict (item :: rest))
  | _ => Json.dumps (JDict [])
  end.

(** The HMAC computation of [_post]: the hexadecimal MAC of the request. *)
Definition hmac_digest
    (secret_key req_time : string) (endpoint : option string)
    (payload : option pydict) : string :=
  let hmac_obj := Hashlib.new (Py.encode secret_key) in
  let hmac_obj := Hashlib.update hmac_obj (Py.encode req_time) in
  let hmac_obj := Hashlib.update hmac_obj (Py.encode "POST") in
  let hmac_obj := Hashlib.update hmac_obj (Py.encode ("/" +:+ format_opt endpoint)) in
  let payload_hash_digest := Hashlib.md5_hexdigest (Py.encode (payload_string payload)) in
  let hmac_obj := Hashlib.update hmac_obj (Py.encode payload_hash_digest) in
  Hashlib.hexdigest hmac_obj.

Section Client.

Context (rt : Runtime).

Definition now_ms : M Z :=
  fun w => (Ok (rt_time_ms rt (w_clock_reads w)),
            mkWorld (w_sent w) (S (w_clock_reads w)) (w_log w) (w_files w)
                    (w_is_ready w) (w_unit_name_map w)).

(** Hands a request to the session and awaits the decoded answer. *)
Definition session_send (r : Request) : M json :=
  fun w => (rt_remote rt (length (w_sent w)) r,
            mkWorld (w_sent w ++ [r]) (w_clock_reads w) (w_log w) (w_files w)
                    (w_is_ready w) (w_unit_name_map w)).

Definition write_file (path content : string) : M unit :=
  fun w =>
    match rt_open_w rt path with
    | Ok _ => (Ok tt,
               mkWorld (w_sent w) (w_clock_reads w) (w_log w)
                       (<[path := content]> (w_files w))
                       (w_is_ready w) (w_unit_name_map w))
    | Raise e => (Raise e, w)
    end.

Definition _post (self : SwgohComlink) (url_base0 : option string)
    (endpoint : option string) (payload : option pydict) : M json :=
  let url_base1 :=
    match url_base0 with
    | Some (String c s) => String c s
    | _ => url_base self
    end in
  let post_url := url_base1 +:+ "/" +:+ format_opt endpoint in
  do req_headers <-
    (if hmac self then
       if nonempty (SECRET_KEY (config self)) && nonempty (ACCESS_KEY (config self)) then
         do t <- now_ms;
         let req_time := Py.str_of_int t in
         ret [("X-Date", req_time);
              ("Authorization",
               "HMAC-SHA256 Credential=" +:+ ACCESS_KEY (config self)
               +:+ ",Signature="
               +:+ hmac_digest (SECRET_KEY (config self)) req_time endpoint payload)]
       else raise AssertionError
     else ret []);
  session_send (mkRequest POST post_url payload req_headers).

Definition get_unit_stats (self : SwgohComlink) (request_payload : pydict)
    (flags : option (list string)) (language : option string) : M json :=
  let flags_str :=
    match flags with
    | Some (f :: fs) => "flags=" +:+ Py.join "," (f :: fs)
    | _ => EmptyString
    end in
  let language1 :=
    match language with
    | Some (String c s) => Some ("language=" +:+ String c s)
    | other => other
    end in
  let query_string :=
    if nonempty flags_str || Py.truthy_str language1
    then Some ("?" +:+ Py.join "&"
                 (filter (fun s => nonempty s = true)
                    (flags_str :: match language1 with Some l => [l] | None => [] end)))
    else None in
  let endpoint_string :=
    match query_string with
    | Some (String c s) => "api" +:+ String c s
    | _ => "api"
    end in
  _post self (Some (stats_url_base self)) (Some endpoint_string) (Some request_payload).

Definition get_enums (self : SwgohComlink) : M json :=
  session_send (mkRequest GET (url_base self +:+ "/enums") None []).

Definition get_events (self : SwgohComlink) (enums : bool) : M json :=
  _post self None (Some "getEvents")
    (Some (Dict.literal [("payload", JDict []); ("enums", JBool enums)])).

(** With [version == ''] the coroutine [_get_game_version()] is formatted
    into the payload without being awaited. *)
Definition get_game_data (self : SwgohComlink) (version : string)
    (include_pve_units : bool) (request_segment : Z) (enums : bool) : M json :=
  let game_version :=
    if String.eqb version EmptyString then rt_coroutine_repr rt else version in
  _post self None (Some "data")
    (Some (Dict.literal
       [("payload", JDict (Dict.literal
            [("version", JStr game_version);
             ("includePveUnits", JBool include_pve_units);
             ("requestSegment", JInt request_segment)]));
        ("enums", JBool enums)])).

Definition get_game_metadata (self : SwgohComlink) (client_specs : pydict)
    (enums : bool) : M json :=
  let payload :=
    match client_specs with
    | _ :: _ =>
        Dict.literal [("payload", JDict (Dict.literal [("client_specs", JDict client_specs)]));
                      ("enums", JBool enums)]
    | [] => []
    end in
  _post self None (Some "metadata") (Some payload).

Definition get_latest_game_data_version (self : SwgohComlink) : M pydict :=
  do current_metadata <- get_game_metadata self [] false;
  do game <- lift (subscript current_metadata "latestGamedataVersion");
  do language <- lift (subscript current_metadata "latestLocalizationBundleVersion");
  ret (Dict.literal [("game", game); ("language", language)]).

(** [id] is [JNull] when the argument is left out. *)
Definition get_localization (self : SwgohComlink) (id : json) (unzip enums : bool)
    : M json :=
  do id1 <-
    (if negb (Json.truthy id) then
       do current_game_version <- get_latest_game_data_version self;
       lift (subscript (JDict current_game_version) "language")
     else ret id);
  _post self None (Some "localization")
    (Some (Dict.literal [("unzip", JBool unzip); ("enums", JBool enums);
                         ("payload", JDict (Dict.literal [("id", id1)]))])).

(** [Player] called with the items of [data] as keyword arguments:
    [Player] is a [TypedDict], so the call builds a plain [dict] from
    them; [data] has to be a mapping to be unpacked. *)
Definition Player (data : json) : Result pydict :=
  match data with
  | JDict d => Ok d
  | _ => Raise (TypeError "argument after ** must be a mapping")
  end.

Definition get_player (self : SwgohComlink) (allycode : option StrOrInt)
    (player_id : option string) (enums : bool) : M pydict :=
  let payload := _get_player_payload allycode player_id enums in
  do data <- _post self None (Some "player") (Some payload);
  lift (Player data).

(** The [param_alias] decorator for a call that passes the parameter by
    keyword or leaves it out: a true alias value replaces the parameter and
    the alias is deleted; an alias that is passed but false stays in
    [kwargs] and the wrapped function refuses it. *)
Definition param_alias {A} (alias : string) (param_value : bool)
    (alias_value : option bool) (func : bool -> M A) : M A :=
  match alias_value with
  | Some true => func true
  | Some false => raise (TypeError ("got an unexpected keyword argument " +:+ alias))
  | None => func param_value
  end.

Definition get_player_arena (self : SwgohComlink) (allycode : option StrOrInt)
    (player_id : option string) (player_details_only : bool)
    (playerDetailsOnly : option bool) (enums : bool) : M json :=
  param_alias "playerDetailsOnly" player_details_only playerDetailsOnly
    (fun player_details_only =>
       let payload := _get_player_payload allycode player_id enums in
       let payload := set_inner payload "payload" "playerDetailsOnly"
                                (JBool player_details_only) in
       _post self None (Some "playerArena") (Some payload)).

(** [guild.keys()] *)
Definition keys_of (v : json) : Result (list string) :=
  match v with
  | JDict d => Ok (Dict.keys d)
  | _ => Raise (AttributeError "object has no attribute 'keys'")
  end.

Definition get_guild (self : SwgohComlink) (guild_id : string)
    (include_recent_guild_activity_info : bool) (includeRecent : option bool)
    (enums : bool) : M json :=
  param_alias "includeRecent" include_recent_guild_activity_info includeRecent
    (fun include_recent_guild_activity_info =>
       let payload :=
         Dict.literal
           [("payload", JDict (Dict.literal
                [("guildId", JStr guild_id);
                 ("includeRecentGuildActivityInfo",
                  JBool include_recent_guild_activity_info)]));
            ("enums", JBool enums)] in
       do guild <- _post self None (Some "guild") (Some payload);
       do ks <- lift (keys_of guild);
       if existsb (String.eqb "guild") ks
       then lift (subscript guild "guild")
       else ret guild).

Definition get_guilds_by_name (self : SwgohComlink) (name : string)
    (start_index count : Z) (enums : bool) : M json :=
  _post self None (Some "getGuilds")
    (Some (Dict.literal
       [("payload", JDict (Dict.literal
            [("name", JStr name); ("filterType", JInt 4);
             ("startIndex", JInt start_index); ("count", JInt count)]));
        ("enums", JBool enums)])).

Definition get_guilds_by_criteria (self : SwgohComlink) (search_criteria : pydict)
    (start_index count : Z) (enums : bool) : M json :=
  _post self None (Some "getGuilds")
    (Some (Dict.literal
       [("payload", JDict (Dict.literal
            [("searchCriteria", JDict search_criteria); ("filterType", JInt 5);
             ("startIndex", JInt start_index); ("count", JInt count)]));
        ("enums", JBool enums)])).

Definition get_leaderboard (self : SwgohComlink) (leaderboard_type : Z)
    (league division : option StrOrInt)
    (event_instance_id group_id : option string) (enums : bool) : M json :=
  do league1 <- lift (translate_league league);
  do division1 <- lift (translate_division division);
  let payload :=
    leaderboard_payload leaderboard_type league1 division1
                        event_instance_id group_id enums in
  do leaderboard <- _post self None (Some "getLeaderboard") (Some payload);
  ret leaderboard.

Definition get_guild_leaderboard (self : SwgohComlink) (leaderboard_id : list json)
    (count : Z) (enums : bool) : M json :=
  _post self None (Some "getGuildLeaderboard")
    (Some (Dict.literal
       [("payload", JDict (Dict.literal
            [("leaderboardId", JList leaderboard_id); ("count", JInt count)]));
        ("enums", JBool enums)])).

End Client.

(** ** The localisation pipeline *)

(** One turn of the loop over the lines of [Loc_ENG_US.txt].
    [name_key, desc = line.split('|')] needs exactly two pieces. *)
Definition parse_line (unit_name_map : gmap string string) (line0 : string)
    : Result (gmap string string) :=
  let line := Py.rstrip Py.newline line0 in
  if Py.startswith line "#" then Ok unit_name_map
  else if negb (Py.contains "|" line) then Ok unit_name_map
  else if Py.startswith line "UNIT_" then
    match Py.split "|" line with
    | [name_key; desc] =>
        if Py.endswith name_key "_NAME"
        then Ok (<[name_key := desc]> unit_name_map)
        else Ok unit_name_map
    | _ :: _ :: _ :: _ => Raise (ValueError "too many values to unpack (expected 2)")
    | _ => Raise (ValueError "not enough values to unpack (expected 2)")
    end
  else Ok unit_name_map.

Fixpoint parse_lines (unit_name_map : gmap string string) (lines : list string)
    : Result (gmap string string) :=
  match lines with
  | [] => Ok unit_name_map
  | line :: rest =>
      match parse_line unit_name_map line with
      | Ok m => parse_lines m rest
      | Raise e => Raise e
      end
  end.

(** Lines 574-587: the map built from the decoded text. *)
Definition parse_locale (locale : string) : Result (gmap string string) :=
  parse_lines ∅ (Py.split Py.newline locale).

Definition asset_path : string := "assets/localisation/en-US.json".

Section Pipeline.

Context (rt : Runtime).

Definition create_localised_unit_name_dictionary (self : SwgohComlink) : M unit :=
  do _ <- log "Comlink" LDebug "Creating localisation dictionary...";
  do game_data_versions <- get_latest_game_data_version rt self;
  do language <- lift (subscript (JDict game_data_versions) "language");
  do bundle <- get_localization rt self language false false;
  do _ <- log "Comlink" LDebug "Localisation bundle retrieved.";
  do encoded <- lift (subscript bundle "localizationBundle");
  do decoded_bundle <- lift (rt_b64decode rt encoded);
  do _ <- log "Comlink" LDebug "Localisation bundle decoded.";
  do zip_obj <- lift (rt_zip_open rt decoded_bundle);
  do _ <- log "Comlink" LDebug "Localisation bundle unzipped.";
  do eng_obj <- lift (zip_obj "Loc_ENG_US.txt");
  do _ <- log "Comlink" LDebug "Localisation bundle read.";
  do locale <- lift (rt_utf8_decode rt eng_obj);
  do _ <- log "Comlink" LDebug "Localisation bundle decoded to utf-8.";
  do unit_name_map <- lift (parse_locale locale);
  do _ <- log "Comlink" LDebug "Localisation dictionary created.";
  do _ <- set_unit_name_map unit_name_map;
  do _ <- write_file rt asset_path (Json.dumps_sorted_indent4 unit_name_map);
  log "Comlink" LInfo "Localisation dictionary created and saved to file.".

(** [bot.py] *)
Record ThrawnsGambit : Type := mkBot {
  user : string;
  comlink : SwgohComlink
}.

Definition on_ready (self : ThrawnsGambit) : M unit :=
  do ready <- get_is_ready;
  if ready then log "bot" LCritical "Bot reconnected to discord gateway"
  else
    do _ <- set_is_ready true;
    do _ <- log "bot" LInfo (user self +:+ " is now online!");
    create_localised_unit_name_dictionary (comlink self).

End Pipeline.

(** ** Concrete surroundings used to run the client on examples *)

Module Demo.

Definition cfg : Env :=
  mkEnv "access" "secret" "http://localhost:3000" "http://localhost:3223" "DEV".

Definition client : SwgohComlink := SwgohComlink_init cfg.

Definition world0 : World := mkWorld [] 0 [] ∅ false None.

(** A remote that answers every request with [answer]; the clock always
    reads [1700000000123]; no archive is ever readable. *)
Definition runtime (answer : Result json) : Runtime :=
  mkRuntime (fun _ => 1700000000123) (fun _ _ => answer)
            (fun _ => Raise (External "binascii.Error"))
            (fun _ => Raise (External "zipfile.BadZipFile"))
            (fun _ => Raise (External "UnicodeDecodeError"))
            (fun _ => Ok tt)
            "<coroutine object SwgohComlink._get_game_version>".

Definition metadata : json :=
  JDict (Dict.literal [("latestGamedataVersion", JStr "1.2.3");
                       ("latestLocalizationBundleVersion", JStr "en_v9")]).

Definition locale_text : string :=
  "# names" +:+ String Py.newline
    ("UNIT_REYNOLDS_NAME|Rey" +:+ String Py.newline
       ("UNIT_FOO_TITLE|Bar" +:+ String Py.newline
          ("no separator" +:+ String Py.newline "UNIT_BB8_NAME|BB-8"))).

(** Surroundings in which the pipeline goes through: the remote answers the
    metadata request with [metadata] and any other with a bundle, whose
    archive holds [locale_text] under the name of the English file. *)
Definition runtime_ok : Runtime :=
  mkRuntime (fun n => 1700000000123 + Z.of_nat n)
            (fun _ r =>
               if Py.endswith (rq_url r) "/metadata" then Ok metadata
               else Ok (JDict [("localizationBundle", JStr "UEsDBA==")]))
            (fun _ => Ok [])
            (fun _ => Ok (fun name =>
                            if String.eqb name "Loc_ENG_US.txt"
                            then Ok (Py.encode locale_text)
                            else Raise (KeyError name)))
            (fun bs => match Py.decode bs with
                       | Some s => Ok s
                       | None => Raise (External "UnicodeDecodeError")
                       end)
            (fun _ => Ok tt)
            "<coroutine object SwgohComlink._get_game_version>".

End Demo.

(** ** Vocabulary of the statements *)

(** [type(e).__name__]: the class of an exception. *)
Definition class_name (e : exn) : string :=
  match e with
  | KeyError _ => "KeyError"
  | ValueError _ => "ValueError"
  | TypeError _ => "TypeError"
  | AttributeError _ => "AttributeError"
  | AssertionError => "AssertionError"
  | External name => name
  end.

(** The requests a computation hands to the HTTP session, oldest first. *)
Definition new_requests {A} (m : M A) (w : World) : list Request :=
  drop (length (w_sent w)) (w_sent (snd (m w))).


(** The envelope of a request has the key [k] at its top level. *)
Definition envelope_has_key (k : string) (r : Request) : bool :=
  match rq_json r with
  | Some d => Dict.mem d k
  | None => false
  end.

(** The keys of the inner mapping [envelope['payload']]. *)
Definition inner_keys (envelope : pydict) : list string :=
  match Dict.get envelope "payload" with
  | Some (JDict inner) => Dict.keys inner
  | _ => []
  end.

(** The keys [types/player/__init__.py] declares for [Player]. *)
Definition Player_keys : list string :=
  ["rosterUnit"; "profileStat"; "pvpProfile"; "unlockedPlayerTitle";
   "unlockedPlayerPortrait"; "seasonStatus"; "datacron"; "name"; "level";
   "allyCode"; "playerId"; "guildId"; "guildName"; "guildLogoBackground";
   "guildBannerColor"; "guildBannerLogo"; "selectedPlayerTitle"; "guildTypeId";
   "localTimeZoneOffsetMinutes"; "lastActivityTime"; "selectedPlayerPortrait";
   "lifetimeSeasonScore"; "playerRating"].

(** [s] occurs in [t]. *)
Definition occurs_in (s t : string) : Prop :=
  exists pre post, t = pre +:+ s +:+ post.

(** A log entry that is no warning. *)
Definition not_warning (entry : string * Level * string) : Prop :=
  snd (fst entry) <> LWarning.

(** [w'] is [w] after some requests, clock readings and log entries that are
    no warnings: the files and the localisation map are the same. *)
Definition quiet (w w' : World) : Prop :=
  w_files w' = w_files w
  /\ w_unit_name_map w' = w_unit_name_map w
  /\ exists l, w_log w' = w_log w ++ l /\ Forall not_warning l.

Definition Quiet {A} (m : M A) : Prop := forall w, quiet w (snd (m w)).


(** The parser as the specification words it, for comparison with
    [parse_line]: comment lines and lines without a separator are skipped;
    a line is split on its first separator into (key, description) and kept
    when the key begins with UNIT_ and ends with _NAME. *)
Definition spec_parse_line (unit_name_map : gmap string string) (line : string)
    : gmap string string :=
  if Py.startswith line "#" then unit_name_map
  else if negb (Py.contains "|" line) then unit_name_map
  else
    let key := fst (Py.partition "|" line) in
    let desc := snd (Py.partition "|" line) in
    if Py.startswith key "UNIT_" && Py.endswith key "_NAME"
    then <[key := desc]> unit_name_map
    else unit_name_map.

(** Every request [m] sends satisfies [P]. *)
Definition Sends {A} (P : Request -> Prop) (m : M A) : Prop :=
  forall w, exists l, w_sent (snd (m w)) = w_sent w ++ l /\ Forall P l.

(** The envelope of [r] has the key [payload], and the body put on the wire
    for it contains that key in quotes. *)
Definition carries_payload_key (r : Request) : Prop :=
  envelope_has_key "payload" r = true
  /\ exists body,
       transmitted_body r = Some (Py.encode body)
       /\ occurs_in (Json.encode_basestring_ascii "payload") body.

(** * Further code of the repository *)

(** ** The environment ([utils/env.py]) *)

(** The names annotated in class [Env], in the order of the class body. *)
Definition Env_annotations : list string :=
  ["ACCESS_KEY"; "BOT_TOKEN"; "COMLINK_URL"; "ENVIRONMENT_MODE"; "JISHAKU_HIDE";
   "JISHAKU_NO_DM_TRACEBACK"; "JISHAKU_NO_UNDERSCORE"; "SECRET_KEY"; "STATS_URL"].

(** The loop of [Env._verify_env_variables] over the names still to check:
    [getenv] is [os.getenv], [attrs] the attributes set so far. *)
Fixpoint _verify_env_variables (getenv : string -> option string)
    (vars : list string) (attrs : list (string * string))
    : Result (list (string * string)) :=
  match vars with
  | [] => Ok attrs
  | var :: rest =>
      if negb (Py.truthy_str (getenv var))
      then Raise (ValueError ("Environment variable " +:+ var +:+ " is not set."))
      else _verify_env_variables getenv rest
             (Dict.set attrs var (default EmptyString (getenv var)))
  end.

(** [self.<name>] on an [Env] whose attributes are [attrs]. *)
Definition attribute (attrs : list (string * string)) (name : string) : string :=
  default EmptyString (Dict.get attrs name).

(** [Env()]: the attributes the client reads, once all names are verified. *)
Definition Env_init (getenv : string -> option string) : Result Env :=
  match _verify_env_variables getenv Env_annotations [] with
  | Ok attrs =>
      Ok (mkEnv (attribute attrs "ACCESS_KEY") (attribute attrs "SECRET_KEY")
                (attribute attrs "COMLINK_URL") (attribute attrs "STATS_URL")
                (attribute attrs "ENVIRONMENT_MODE"))
  | Raise e => Raise e
  end.

(** ** Regular expressions ([re]) *)

Module Re.

(** The constructs the patterns of the bot use. [Group i r] is the i-th
    parenthesis, [Start] is the caret and [End_] the dollar. *)
Inductive regex : Type :=
| Eps
| Lit (c : ascii)
| Digit
| Seq (r1 r2 : regex)
| Alt (r1 r2 : regex)
| Opt (r : regex)
| Group (i : nat) (r : regex)
| Start
| End_.

(** The decimal digits among the code points below 256. *)
Definition is_digit (c : ascii) : bool := (48 <=? Py.ord c) && (Py.ord c <=? 57).

(** [r{n}] *)
Fixpoint times (n : nat) (r : regex) : regex :=
  match n with
  | O => Eps
  | S n' => Seq r (times n' r)
  end.

(** A run of literal characters. *)
Fixpoint lit (s : string) : regex :=
  match s with
  | EmptyString => Eps
  | String c s' => Seq (Lit c) (lit s')
  end.

(** What was read between the position with [s] left and the later position
    with [s'] left. *)
Definition consumed (s s' : string) : string :=
  String.substring 0 (String.length s - String.length s') s.

(** The backtracking matcher: [run whole r s caps k] tries the ways [r] reads
    a prefix of [s], in the order of the engine (left alternative first, an
    optional part taken first), and gives the first for which the
    continuation [k] succeeds on what is left and the groups captured.
    [whole] is the subject string, which tells the start position. *)
Fixpoint run {A} (whole : string) (r : regex) (s : string)
    (caps : list (nat * string)) (k : string -> list (nat * string) -> option A)
    : option A :=
  match r with
  | Eps => k s caps
  | Lit c =>
      match s with
      | String a s' => if Ascii.eqb a c then k s' caps else None
      | EmptyString => None
      end
  | Digit =>
      match s with
      | String a s' => if is_digit a then k s' caps else None
      | EmptyString => None
      end
  | Seq r1 r2 => run whole r1 s caps (fun s1 caps1 => run whole r2 s1 caps1 k)
  | Alt r1 r2 =>
      match run whole r1 s caps k with
      | Some x => Some x
      | None => run whole r2 s caps k
      end
  | Opt r1 =>
      match run whole r1 s caps k with
      | Some x => Some x
      | None => k s caps
      end
  | Group i r1 =>
      run whole r1 s caps (fun s1 caps1 => k s1 ((i, consumed s s1) :: caps1))
  | Start =>
      if (String.length s =? String.length whole)%nat then k s caps else None
  | End_ =>
      match s with
      | EmptyString => k s caps
      | String a EmptyString => if Ascii.eqb a Py.newline then k s caps else None
      | _ => None
      end
  end.

(** [re.match(r, s)]: the groups of the match at the start of [s]. *)
Definition re_match (r : regex) (s : string) : option (list (nat * string)) :=
  run s r s [] (fun _ caps => Some caps).

(** [re.search(r, s)]: the groups of the leftmost match. *)
Fixpoint search_from (whole : string) (r : regex) (s : string)
    : option (list (nat * string)) :=
  match run whole r s [] (fun _ caps => Some caps) with
  | Some caps => Some caps
  | None =>
      match s with
      | EmptyString => None
      | String _ s' => search_from whole r s'
      end
  end.

Definition search (r : regex) (s : string) : option (list (nat * string)) :=
  search_from s r s.

(** [m.group(i)] *)
Fixpoint group (caps : list (nat * string)) (i : nat) : option string :=
  match caps with
  | [] => None
  | (j, text) :: rest => if (j =? i)%nat then Some text else group rest i
  end.

End Re.

(** ** Ally codes and profile links ([utils/regex.py], [bot.py]) *)

(** [^(\d{9}|(\d{3}-){2}\d{3})$] *)
Definition ally_code_regex : Re.regex :=
  Re.Seq Re.Start
    (Re.Seq
       (Re.Group 1
          (Re.Alt (Re.times 9 Re.Digit)
                  (Re.Seq (Re.times 2 (Re.Group 2 (Re.Seq (Re.times 3 Re.Digit) (Re.Lit "-"))))
                          (Re.times 3 Re.Digit))))
       Re.End_).

(** [https:\/\/swgoh\.gg\/p\/\d{9}\/?] *)
Definition swgoh_gg_regex : Re.regex :=
  Re.Seq (Re.lit "https://swgoh.gg/p/")
         (Re.Seq (Re.times 9 Re.Digit) (Re.Opt (Re.Lit "/"))).

(** The pattern [/p/(\d{9})/?] of [get_ally_code_from_url]. *)
Definition ally_code_in_url_regex : Re.regex :=
  Re.Seq (Re.lit "/p/")
         (Re.Seq (Re.Group 1 (Re.times 9 Re.Digit)) (Re.Opt (Re.Lit "/"))).

Definition is_valid_ally_code (ally_code : string) : bool :=
  match Re.re_match ally_code_regex ally_code with
  | Some _ => true
  | None => false
  end.

Definition is_swgoh_gg_link (url : string) : bool :=
  match Re.re_match swgoh_gg_regex url with
  | Some _ => true
  | None => false
  end.

Definition build_swgoh_gg_link (ally_code : string) : string :=
  "https://swgoh.gg/p/" +:+ ally_code +:+ "/".

Definition get_ally_code_from_url (url : string) : Result string :=
  match Re.search ally_code_in_url_regex url with
  | Some caps => Ok (default EmptyString (Re.group caps 1))
  | None => Raise (ValueError "The provided URL does not contain a valid ally code.")
  end.

(** Nine digits, as a list of characters and as the two texts the ally-code
    pattern reads them from. *)
Fixpoint text (cs : list ascii) : string :=
  match cs with
  | [] => EmptyString
  | c :: rest => String c (text rest)
  end.

Definition nine_digits (ds : list ascii) : Prop :=
  length ds = 9%nat /\ forallb Re.is_digit ds = true.

Definition dashed (ds : list ascii) : string :=
  text (take 3 ds) +:+ "-" +:+ text (take 3 (drop 3 ds)) +:+ "-" +:+ text (drop 6 ds).

(** ** The keyword arguments under [param_alias] *)

(** [del d[k]] *)
Fixpoint dict_del {A} (d : list (string * A)) (k : string) : list (string * A) :=
  match d with
  | [] => []
  | (k', v) :: rest =>
      if String.eqb k' k then dict_del rest k else (k', v) :: dict_del rest k
  end.

(** What [wrapper] of [param_alias(param, alias)] does to [kwargs] before it
    calls the decorated function with them. *)
Definition wrapper (param alias : string) (kwargs : pydict) : pydict :=
  match Dict.get kwargs alias with
  | Some alias_param_value =>
      if Json.truthy alias_param_value
      then dict_del (Dict.set kwargs param alias_param_value) alias
      else kwargs
  | None => kwargs
  end.

(** ** Submitting an ally code ([cogs/onboarding/views.py]) *)

(** [s.replace(old, new)] for an [old] of one character *)
Fixpoint replace_char (s : string) (old : ascii) (new : string) : string :=
  match s with
  | EmptyString => EmptyString
  | String c s' =>
      if Ascii.eqb c old then new +:+ replace_char s' old new
      else String c (replace_char s' old new)
  end.

Definition invalid_response : string :=
  "Invalid response. Please enter a valid Ally Code or SWGOH.GG profile url.".

Section Onboarding.

(** [int] on a text, and the status of the response of the session to a GET
    of a link. *)
Variable int_ : string -> Result Z.
Variable session_get : string -> Result Z.

(** [AllyCodeModal.on_submit] for the text [value] of the input: the links
    fetched, and the content and the [ephemeral] flag of the message handed to
    [itr.response.send_message], or what was raised before it. [None] is the
    initial [ally_code]; zero and [None] are the false values of
    [if ally_code]. *)
Definition on_submit (value : string) : list string * Result (string * bool) :=
  let converted : Result (option Z) :=
    if is_valid_ally_code value then
      match int_ (replace_char value "-" EmptyString) with
      | Ok n => Ok (Some n)
      | Raise e => Raise e
      end
    else if is_swgoh_gg_link value then
      match get_ally_code_from_url value with
      | Ok code =>
          match int_ code with
          | Ok n => Ok (Some n)
          | Raise e => Raise e
          end
      | Raise e => Raise e
      end
    else Ok None in
  let invalid := ([], Ok (invalid_response, true)) in
  match converted with
  | Raise e => ([], Raise e)
  | Ok None => invalid
  | Ok (Some ally_code) =>
      if ally_code =? 0 then invalid
      else
        let swgoh_link := build_swgoh_gg_link (Py.str_of_int ally_code) in
        match session_get swgoh_link with
        | Raise e => ([swgoh_link], Raise e)
        | Ok status =>
            let gg_profile := if status =? 200 then swgoh_link else "`No Profile Found`" in
            ([swgoh_link],
             Ok ("- Ally Code: `" +:+ Py.str_of_int ally_code +:+ "`" +:+ String Py.newline
                   ("- SWGOH.GG Profile: `" +:+ gg_profile +:+ "`"), true))
        end
  end.

End Onboarding.

(** ** Vocabulary of the further statements *)

(** How the world [w'] left by a pipeline run that returned relates to the
    world [w] it started in: the map is the parse of some text, the asset
    file holds the sorted document of that same map, and the log ends with
    the closing entry, after entries that are no warnings. *)
Definition pipeline_done (w w' : World) : Prop :=
  exists (locale : string) (m : gmap string string) l,
    parse_locale locale = Ok m
    /\ w_unit_name_map w' = Some m
    /\ w_files w' = <[asset_path := Json.dumps_sorted_indent4 m]> (w_files w)
    /\ w_log w'
       = w_log w ++ l
         ++ [("Comlink", LInfo, "Localisation dictionary created and saved to file.")]
    /\ Forall not_warning l.

(** [m] leaves [bot._is_ready] as it is. *)
Definition KeepsReady {A} (m : M A) : Prop :=
  forall w, w_is_ready (snd (m w)) = w_is_ready w.

(** The number nine digits are read as. *)
Definition digit_value (c : ascii) : Z := Py.ord c - 48.

Definition decimal (ds : list ascii) : Z :=
  fold_left (fun n c => 10 * n + digit_value c) ds 0.

(** The texts the modal accepts, with the nine digits they hold: an ally code,
    plain or dashed, with the line end the dollar allows, or a text that starts
    with a profile link. *)
Definition holds_digits (value : string) (ds : list ascii) : Prop :=
  nine_digits ds
  /\ ((exists nl : string,
         (nl = EmptyString \/ nl = String Py.newline EmptyString)
         /\ (value = text ds +:+ nl \/ value = dashed ds +:+ nl))
      \/ exists tail : string, value = "https://swgoh.gg/p/" +:+ text ds +:+ tail).

(** What [int] does on the texts that reach it from the modal. *)
Definition reads_nine_digits (int_ : string -> Result Z) : Prop :=
  forall (ds : list ascii) (nl : string),
    nine_digits ds -> nl = EmptyString \/ nl = String Py.newline EmptyString ->
    int_ (text ds +:+ nl) = Ok (decimal ds).

(** What [on_submit] does once the input is converted. *)
Definition answer (session_get : string -> Result Z) (ally_code : Z)
    : list string * Result (string * bool) :=
  if ally_code =? 0 then ([], Ok (invalid_response, true))
  else
    let swgoh_link := build_swgoh_gg_link (Py.str_of_int ally_code) in
    match session_get swgoh_link with
    | Raise e => ([swgoh_link], Raise e)
    | Ok status =>
        ([swgoh_link],
         Ok ("- Ally Code: `" +:+ Py.str_of_int ally_code +:+ "`" +:+ String Py.newline
               ("- SWGOH.GG Profile: `"
                  +:+ (if status =? 200 then swgoh_link else "`No Profile Found`") +:+ "`"),
             true))
    end.

(** A reader of decimal digits followed by line ends, which stands for [int]
    where a statement is evaluated. *)
Fixpoint read_digits (s : string) (n : Z) (seen : bool) : option Z :=
  match s with
  | EmptyString => if seen then Some n else None
  | String c s' =>
      if Re.is_digit c then read_digits s' (10 * n + digit_value c) true
      else if seen && Ascii.eqb c Py.newline
           then match s' with EmptyString => Some n | _ => None end
           else None
  end.

Definition read_int (s : string) : Result Z :=
  match read_digits s 0 false with
  | Some n => Ok n
  | None => Raise (ValueError ("invalid literal for int() with base 10: " +:+ s))
  end.

(** * Theorems *)

(** ** The embedded Python runtime on known values *)

Example md5_empty :
  Hashlib.md5_hexdigest [] = "d41d8cd98f00b204e9800998ecf8427e".
Proof. vm_compute. reflexivity. Qed.

Example md5_abc :
  Hashlib.md5_hexdigest (Py.encode "abc") = "900150983cd24fb0d6963f7d28e17f72".
Proof. vm_compute. reflexivity. Qed.

Example sha256_abc :
  Py.hex (Hashlib.sha256 (Py.encode "abc"))
  = "ba7816bf8f01cfea414140de5dae2223b00361a396177a9cb410ff61f20015ad".
Proof. vm_compute. reflexivity. Qed.

Example hmac_fox :
  Hashlib.hexdigest
    (Hashlib.update (Hashlib.new (Py.encode "key"))
       (Py.encode "The quick brown fox jumps over the lazy dog"))
  = "f7bc83f430538424b13298e6aa6fb143ef4d59a14946175997479dbc2d1a3cd8".
Proof. vm_compute. reflexivity. Qed.

Example str_of_int_examples :
  Py.str_of_int 0 = "0" /\ Py.str_of_int 1700000000123 = "1700000000123"
  /\ Py.str_of_int (-42) = "-42".
Proof. vm_compute. auto. Qed.

Example split_examples :
  Py.split "|" "a|b" = ["a"; "b"] /\ Py.split "|" "" = [""]
  /\ Py.split "|" "a|" = ["a"; ""] /\ Py.split "|" "x|y|z" = ["x"; "y"; "z"].
Proof. vm_compute. auto. Qed.

Example dumps_envelope :
  Json.dumps_compact
    (JDict (Dict.literal [("payload", JDict (Dict.literal [("allyCode", JStr "123456789")]));
                          ("enums", JBool false)]))
  = Py.quoted "{'payload':{'allyCode':'123456789'},'enums':false}"
  /\
  Json.dumps
    (JDict (Dict.literal [("payload", JDict (Dict.literal [("allyCode", JStr "123456789")]));
                          ("enums", JBool false)]))
  = Py.quoted "{'payload': {'allyCode': '123456789'}, 'enums': false}".
Proof. vm_compute. auto. Qed.

Example dumps_misc :
  Json.dumps (JList [JInt 1; JNull; JStr (String Py.newline (String (Py.chr 233) "|")); JDict []])
  = Py.quoted "[1, null, '\n\u00e9|', {}]".
Proof. vm_compute. reflexivity. Qed.


(** ** The dispatch [_post] *)

Lemma payload_string_compact (payload : option pydict) :
  payload_string payload = Json.dumps_compact (JDict (default [] payload)).
Proof. destruct payload as [[|item rest]|]; reflexivity. Qed.

Lemma hmac_digest_one_shot secret req_time endpoint payload :
  hmac_digest secret req_time endpoint payload
  = Py.hex (Hashlib.hmac_sha256 (Py.encode secret)
      (Py.encode req_time ++ Py.encode "POST"
       ++ Py.encode ("/" +:+ format_opt endpoint)
       ++ Py.encode (Py.hex (Hashlib.md5 (Py.encode (payload_string payload)))))).
Proof.
  unfold hmac_digest, Hashlib.hexdigest, Hashlib.update, Hashlib.new,
    Hashlib.md5_hexdigest.
  cbn [Hashlib.hm_key Hashlib.hm_fed].
  rewrite app_nil_l, <- !app_assoc. reflexivity.
Qed.

Lemma init_hmac_keys cfg :
  hmac (SwgohComlink_init cfg) = true ->
  nonempty (SECRET_KEY cfg) = true /\ nonempty (ACCESS_KEY cfg) = true.
Proof.
  unfold SwgohComlink_init; cbn [hmac].
  destruct (nonempty (ACCESS_KEY cfg)), (nonempty (SECRET_KEY cfg)); cbn; auto.
Qed.

(** What a signed dispatch does, for a client built by the constructor. *)
Lemma post_signed rt cfg ub endpoint payload w :
  hmac (SwgohComlink_init cfg) = true ->
  let req_time := Py.str_of_int (rt_time_ms rt (w_clock_reads w)) in
  let r :=
    mkRequest POST
      ((match ub with Some (String c s) => String c s | _ => COMLINK_URL cfg end)
       +:+ "/" +:+ format_opt endpoint)
      payload
      [("X-Date", req_time);
       ("Authorization",
        "HMAC-SHA256 Credential=" +:+ ACCESS_KEY cfg +:+ ",Signature="
        +:+ hmac_digest (SECRET_KEY cfg) req_time endpoint payload)] in
  _post rt (SwgohComlink_init cfg) ub endpoint payload w
  = (rt_remote rt (length (w_sent w)) r,
     mkWorld (w_sent w ++ [r]) (S (w_clock_reads w)) (w_log w) (w_files w)
             (w_is_ready w) (w_unit_name_map w)).
Proof.
  intros Hh. pose proof (init_hmac_keys _ Hh) as [Hs Ha].
  unfold _post. rewrite Hh. cbn [config SwgohComlink_init url_base].
  rewrite Hs, Ha. reflexivity.
Qed.

(** What an unsigned dispatch does. *)
Lemma post_unsigned rt self ub endpoint payload w :
  hmac self = false ->
  let r :=
    mkRequest POST
      ((match ub with Some (String c s) => String c s | _ => url_base self end)
       +:+ "/" +:+ format_opt endpoint)
      payload [] in
  _post rt self ub endpoint payload w
  = (rt_remote rt (length (w_sent w)) r,
     mkWorld (w_sent w ++ [r]) (w_clock_reads w) (w_log w) (w_files w)
             (w_is_ready w) (w_unit_name_map w)).
Proof. intros Hh. unfold _post. rewrite Hh. reflexivity. Qed.

(** C1. With signing enabled, the one request [_post] sends carries
    [X-Date] equal to the decimal millisecond timestamp and [Authorization]
    equal to [HMAC-SHA256 Credential=<accessKey>,Signature=<hex>], where
    <hex> is the hexadecimal HMAC-SHA256, keyed with the secret key, of the
    timestamp bytes, the bytes of POST, the bytes of the path with its
    leading slash and the hexadecimal MD5 digest of the compactly serialised
    envelope, in this order.  The header value is a function of these inputs
    only: two dispatches with the same keys, timestamp, endpoint and payload
    carry the same headers, whatever the rest of the surroundings. *)
Theorem C1_signed_headers :
  forall (rt : Runtime) (cfg : Env) (ub endpoint : option string)
         (payload : option pydict) (w : World),
    hmac (SwgohComlink_init cfg) = true ->
    let req_time := Py.str_of_int (rt_time_ms rt (w_clock_reads w)) in
    let body := Json.dumps_compact (JDict (default [] payload)) in
    let mac :=
      Py.hex (Hashlib.hmac_sha256 (Py.encode (SECRET_KEY cfg))
                (Py.encode req_time ++ Py.encode "POST"
                 ++ Py.encode ("/" +:+ format_opt endpoint)
                 ++ Py.encode (Py.hex (Hashlib.md5 (Py.encode body))))) in
    (exists r,
        new_requests (_post rt (SwgohComlink_init cfg) ub endpoint payload) w = [r]
        /\ rq_method r = POST
        /\ rq_json r = payload
        /\ rq_headers r
           = [("X-Date", req_time);
              ("Authorization",
               "HMAC-SHA256 Credential=" +:+ ACCESS_KEY cfg +:+ ",Signature=" +:+ mac)])
    /\ (forall (rt' : Runtime) (ub' : option string) (w' : World),
           rt_time_ms rt' (w_clock_reads w') = rt_time_ms rt (w_clock_reads w) ->
           map rq_headers
               (new_requests (_post rt' (SwgohComlink_init cfg) ub' endpoint payload) w')
           = map rq_headers
               (new_requests (_post rt (SwgohComlink_init cfg) ub endpoint payload) w)).
Proof.
  intros rt cfg ub endpoint payload w Hh req_time body mac.
  assert (Hnew : forall rt0 ub0 w0,
             exists u,
               new_requests (_post rt0 (SwgohComlink_init cfg) ub0 endpoint payload) w0
               = [mkRequest POST u payload
                    [("X-Date", Py.str_of_int (rt_time_ms rt0 (w_clock_reads w0)));
                     ("Authorization",
                      "HMAC-SHA256 Credential=" +:+ ACCESS_KEY cfg +:+ ",Signature="
                      +:+ hmac_digest (SECRET_KEY cfg)
                            (Py.str_of_int (rt_time_ms rt0 (w_clock_reads w0)))
                            endpoint payload)]]).
  { intros rt0 ub0 w0. eexists. unfold new_requests.
    rewrite (post_signed rt0 cfg ub0 endpoint payload w0 Hh). cbn [snd w_sent].
    rewrite drop_app_length. reflexivity. }
  split.
  - destruct (Hnew rt ub w) as [u Hu]. eexists. split; [exact Hu|].
    cbn [rq_method rq_json rq_headers]. repeat split.
    rewrite hmac_digest_one_shot, payload_string_compact. reflexivity.
  - intros rt' ub' w' Ht.
    destruct (Hnew rt ub w) as [u Hu]. destruct (Hnew rt' ub' w') as [u' Hu'].
    rewrite Hu, Hu', Ht. reflexivity.
Qed.

Lemma C1_signed_headers_witness :
  exists r,
    new_requests
      (_post (Demo.runtime (Ok (JDict []))) (SwgohComlink_init Demo.cfg) None
             (Some "player")
             (Some (_get_player_payload (Some (AInt 123456789)) None false)))
      Demo.world0 = [r]
    /\ rq_headers r
       = [("X-Date", "1700000000123");
          ("Authorization",
           "HMAC-SHA256 Credential=access,Signature="
           +:+ "1694163113ac72d66f824cfdbd9df19ce3cec121d9e34da1fd744b11ef289a08")].
Proof.
  destruct (C1_signed_headers (Demo.runtime (Ok (JDict []))) Demo.cfg None
              (Some "player")
              (Some (_get_player_payload (Some (AInt 123456789)) None false))
              Demo.world0 eq_refl) as [[r (Hr & _ & _ & Hh)] _].
  exists r. split; [exact Hr|]. rewrite Hh. vm_compute. reflexivity.
Defined.

(** ** Strings, bytes and the two serialisations *)

Lemma str_app_cons c s t : String c s +:+ t = String c (s +:+ t).
Proof. reflexivity. Qed.

Lemma str_app_nil_l t : EmptyString +:+ t = t.
Proof. reflexivity. Qed.

Lemma str_app_assoc a b c : (a +:+ b) +:+ c = a +:+ (b +:+ c).
Proof.
  induction a as [|x a IH]; [reflexivity|].
  rewrite !str_app_cons, IH. reflexivity.
Qed.

Lemma encode_app a b : Py.encode (a +:+ b) = Py.encode a ++ Py.encode b.
Proof.
  induction a as [|x a IH]; [reflexivity|].
  rewrite str_app_cons. cbn [Py.encode]. rewrite IH, app_assoc. reflexivity.
Qed.

Lemma decode_encode_char c rest :
  Py.decode (Py.encode_char c ++ rest) = option_map (String c) (Py.decode rest).
Proof.
  destruct c as [[] [] [] [] [] [] [] []]; reflexivity.
Qed.

Lemma decode_encode s : Py.decode (Py.encode s) = Some s.
Proof.
  induction s as [|c s IH]; [reflexivity|].
  cbn [Py.encode]. rewrite decode_encode_char, IH. reflexivity.
Qed.

Lemma encode_inj a b : Py.encode a = Py.encode b -> a = b.
Proof.
  intros H. apply (f_equal Py.decode) in H.
  rewrite !decode_encode in H. congruence.
Qed.

(** A serialised value is never empty and never starts with a blank. *)
Lemma str_of_int_head n :
  exists c rest, Py.str_of_int n = String c rest /\ c <> " "%char.
Proof.
  unfold Py.str_of_int.
  destruct (Z.to_int n) as [u|u]; cbn [NilZero.string_of_int].
  - destruct u; cbn; eexists _, _; (split; [reflexivity|discriminate]).
  - eexists _, _; (split; [reflexivity|discriminate]).
Qed.

Lemma dumps_with_head item_sep key_sep v :
  exists c rest, Json.dumps_with item_sep key_sep v = String c rest /\ c <> " "%char.
Proof.
  destruct v as [|[]|n|s|l|d]; cbn [Json.dumps_with];
    try (eexists _, _; (split; [reflexivity|discriminate])).
  apply str_of_int_head.
Qed.

Lemma join_cons_head sep x l : exists t, Py.join sep (x :: l) = x +:+ t.
Proof.
  destruct l as [|y l].
  - exists EmptyString. cbn. induction x as [|c x IH]; [reflexivity|].
    rewrite str_app_cons, <- IH. reflexivity.
  - eexists. reflexivity.
Qed.

(** A non-empty mapping is serialised differently with the default and with
    the compact separators: they part right after the first key. *)
Lemma dumps_differs (d : pydict) :
  d <> [] -> Json.dumps (JDict d) <> Json.dumps_compact (JDict d).
Proof.
  destruct d as [|[k v] rest]; [congruence|]. intros _.
  unfold Json.dumps, Json.dumps_compact. cbn [Json.dumps_with map fst snd].
  destruct (join_cons_head ", "
              (Json.encode_basestring_ascii k +:+ ": " +:+ Json.dumps_with ", " ": " v)
              (map (fun kv => Json.encode_basestring_ascii (fst kv) +:+ ": "
                              +:+ Json.dumps_with ", " ": " (snd kv)) rest)) as [t1 ->].
  destruct (join_cons_head ","
              (Json.encode_basestring_ascii k +:+ ":" +:+ Json.dumps_with "," ":" v)
              (map (fun kv => Json.encode_basestring_ascii (fst kv) +:+ ":"
                              +:+ Json.dumps_with "," ":" (snd kv)) rest)) as [t2 ->].
  destruct (dumps_with_head "," ":" v) as (c & r & -> & Hc).
  rewrite !str_app_assoc. rewrite !str_app_cons, !str_app_nil_l.
  intros H. injection H as H.
  apply (inj (String.append _)) in H.
  injection H as H _. apply Hc. subst c. reflexivity.
Qed.

Lemma dumps_empty_same :
  Json.dumps (JDict []) = Json.dumps_compact (JDict []).
Proof. reflexivity. Qed.

(** C2 (as stated) fails: for the player lookup of ally code 123456789 the
    request is signed over the MD5 digest of the compact text, while the body
    on the wire is the same envelope written with the default separators. *)
Lemma C2_counterexample :
  let envelope := _get_player_payload (Some (AInt 123456789)) None false in
  exists r,
    new_requests
      (_post (Demo.runtime (Ok (JDict []))) (SwgohComlink_init Demo.cfg) None
             (Some "player") (Some envelope))
      Demo.world0 = [r]
    /\ rq_json r = Some envelope
    /\ payload_string (Some envelope)
       = Py.quoted "{'payload':{'allyCode':'123456789'},'enums':false}"
    /\ Dict.get (rq_headers r) "Authorization"
       = Some ("HMAC-SHA256 Credential=access,Signature="
               +:+ hmac_digest "secret" "1700000000123" (Some "player") (Some envelope))
    /\ transmitted_body r
       = Some (Py.encode
                 (Py.quoted "{'payload': {'allyCode': '123456789'}, 'enums': false}"))
    /\ transmitted_body r <> Some (Py.encode (payload_string (Some envelope))).
Proof.
  intros envelope. unfold new_requests.
  rewrite (post_signed (Demo.runtime (Ok (JDict []))) Demo.cfg None (Some "player")
             (Some envelope) Demo.world0 eq_refl).
  cbn [snd w_sent Demo.world0 length drop app]. eexists. split; [reflexivity|].
  unfold transmitted_body. cbn [rq_json rq_headers].
  split; [reflexivity|]. split; [vm_compute; reflexivity|].
  split; [vm_compute; reflexivity|]. split; [vm_compute; reflexivity|].
  intros H. apply (inj Some), encode_inj in H. revert H.
  rewrite payload_string_compact. apply dumps_differs. discriminate.
Qed.

(** C2 (amended). For every signed request with envelope [d], the text whose
    MD5 digest enters the signature is the compact serialisation of [d], the
    envelope handed to the session is [d] itself, and the body on the wire is
    the serialisation of [d] with the default separators: the same bytes when
    [d] is empty, different bytes as soon as [d] has a key. *)
Theorem C2_signed_text_and_wire_body :
  forall (rt : Runtime) (cfg : Env) (ub endpoint : option string)
         (d : pydict) (w : World),
    hmac (SwgohComlink_init cfg) = true ->
    let req_time := Py.str_of_int (rt_time_ms rt (w_clock_reads w)) in
    let signed := Json.dumps_compact (JDict d) in
    exists r,
      new_requests (_post rt (SwgohComlink_init cfg) ub endpoint (Some d)) w = [r]
      /\ rq_json r = Some d
      /\ Dict.get (rq_headers r) "Authorization"
         = Some ("HMAC-SHA256 Credential=" +:+ ACCESS_KEY cfg +:+ ",Signature="
                 +:+ Py.hex (Hashlib.hmac_sha256 (Py.encode (SECRET_KEY cfg))
                       (Py.encode req_time ++ Py.encode "POST"
                        ++ Py.encode ("/" +:+ format_opt endpoint)
                        ++ Py.encode (Py.hex (Hashlib.md5 (Py.encode signed))))))
      /\ transmitted_body r = Some (Py.encode (Json.dumps (JDict d)))
      /\ (d = [] -> transmitted_body r = Some (Py.encode signed))
      /\ (d <> [] -> transmitted_body r <> Some (Py.encode signed)).
Proof.
  intros rt cfg ub endpoint d w Hh req_time signed.
  eexists. split.
  { unfold new_requests. rewrite (post_signed rt cfg ub endpoint (Some d) w Hh).
    cbn [snd w_sent]. rewrite drop_app_length. reflexivity. }
  unfold transmitted_body. cbn [rq_json rq_headers].
  split; [reflexivity|]. split.
  { rewrite hmac_digest_one_shot, payload_string_compact. reflexivity. }
  split; [reflexivity|]. split.
  - intros ->. reflexivity.
  - intros Hd H. apply (inj Some), encode_inj in H.
    exact (dumps_differs d Hd H).
Qed.

Lemma C2_signed_text_and_wire_body_witness :
  exists r,
    new_requests
      (_post (Demo.runtime (Ok (JDict []))) (SwgohComlink_init Demo.cfg) None
             (Some "getEvents")
             (Some (Dict.literal [("payload", JDict []); ("enums", JBool true)])))
      Demo.world0 = [r]
    /\ transmitted_body r
       = Some (Py.encode (Py.quoted "{'payload': {}, 'enums': true}")).
Proof.
  destruct (C2_signed_text_and_wire_body (Demo.runtime (Ok (JDict []))) Demo.cfg None
              (Some "getEvents")
              (Dict.literal [("payload", JDict []); ("enums", JBool true)])
              Demo.world0 eq_refl) as (r & Hr & _ & _ & Hb & _).
  exists r. split; [exact Hr|]. rewrite Hb. vm_compute. reflexivity.
Defined.

(** ** The player-lookup payload *)

Lemma get_player_payload_allycode allycode player_id enums :
  truthy_arg allycode = true ->
  _get_player_payload allycode player_id enums
  = [("payload", JDict [("allyCode", JStr (format_arg allycode))]);
     ("enums", JBool enums)].
Proof. intros H. unfold _get_player_payload. rewrite H. reflexivity. Qed.

Lemma get_player_payload_player_id allycode player_id enums :
  truthy_arg allycode = false ->
  Py.truthy_str (Some player_id) = true ->
  _get_player_payload allycode (Some player_id) enums
  = [("payload", JDict [("playerId", JStr player_id)]); ("enums", JBool enums)].
Proof. intros H1 H2. unfold _get_player_payload. rewrite H1, H2. reflexivity. Qed.

(** Whatever the arguments, exactly one of the two identifying keys is in
    the inner mapping. *)
Lemma get_player_payload_one_key allycode player_id enums :
  inner_keys (_get_player_payload allycode player_id enums) = ["playerId"]
  \/ inner_keys (_get_player_payload allycode player_id enums) = ["allyCode"].
Proof.
  unfold _get_player_payload.
  destruct (negb (truthy_arg allycode) && Py.truthy_str player_id); [left|right];
    reflexivity.
Qed.

(** An ally code alone gives [allyCode] alone. *)
Lemma get_player_payload_only_allycode allycode enums :
  inner_keys (_get_player_payload allycode None enums) = ["allyCode"].
Proof.
  unfold _get_player_payload.
  replace (negb (truthy_arg allycode) && Py.truthy_str None) with false
    by (destruct (truthy_arg allycode); reflexivity).
  reflexivity.
Qed.

(** C3 at the failing input. With both a player id and an ally code
    supplied, the builder takes the branch of the ally code: the inner
    mapping holds [allyCode] only, and no [playerId]. *)
Theorem C3_both_supplied_gives_allyCode :
  _get_player_payload (Some (AStr "123456789")) (Some "pLaYeRiD") false
  = [("payload", JDict [("allyCode", JStr "123456789")]); ("enums", JBool false)]
  /\ inner_keys (_get_player_payload (Some (AStr "123456789")) (Some "pLaYeRiD") false)
     = ["allyCode"].
Proof. split; reflexivity. Qed.

(** ** Frame of the dispatch *)

(** [_post] either fails its assertion before anything is sent, or sends
    one request with the payload it was given and returns the answer. *)
Lemma post_cases rt self ub endpoint payload w :
  _post rt self ub endpoint payload w = (Raise AssertionError, w)
  \/ exists url headers reads,
       _post rt self ub endpoint payload w
       = (rt_remote rt (length (w_sent w)) (mkRequest POST url payload headers),
          mkWorld (w_sent w ++ [mkRequest POST url payload headers]) reads
                  (w_log w) (w_files w) (w_is_ready w) (w_unit_name_map w)).
Proof.
  unfold _post.
  destruct (hmac self);
    [destruct (nonempty (SECRET_KEY (config self))
               && nonempty (ACCESS_KEY (config self)))|].
  - right. eexists _, _, _. reflexivity.
  - left. destruct w; reflexivity.
  - right. eexists _, _, _. reflexivity.
Qed.

(** [_post] sends at most one request, whose envelope is the payload it was
    given, and touches nothing but the outbox and the clock. *)
Lemma post_frame rt self ub endpoint payload w :
  let w' := snd (_post rt self ub endpoint payload w) in
  w_log w' = w_log w /\ w_files w' = w_files w
  /\ w_is_ready w' = w_is_ready w /\ w_unit_name_map w' = w_unit_name_map w
  /\ ((w_sent w' = w_sent w /\ fst (_post rt self ub endpoint payload w) = Raise AssertionError)
      \/ exists r, w_sent w' = w_sent w ++ [r] /\ rq_method r = POST
                   /\ rq_json r = payload
                   /\ fst (_post rt self ub endpoint payload w)
                      = rt_remote rt (length (w_sent w)) r).
Proof.
  destruct (post_cases rt self ub endpoint payload w) as [E|(url & headers & reads & E)];
    rewrite E; cbn [fst snd w_log w_files w_is_ready w_unit_name_map w_sent].
  - repeat split. left. split; reflexivity.
  - repeat split. right. eexists. repeat split.
Qed.

Lemma post_new_requests rt self ub endpoint payload w :
  new_requests (_post rt self ub endpoint payload) w = []
  \/ exists r, new_requests (_post rt self ub endpoint payload) w = [r]
               /\ rq_method r = POST /\ rq_json r = payload.
Proof.
  unfold new_requests.
  destruct (post_frame rt self ub endpoint payload w)
    as (_ & _ & _ & _ & [[-> _]|(r & -> & Hm & Hj & _)]).
  - left. apply drop_all.
  - right. exists r. rewrite drop_app_length. auto.
Qed.

(** A client built by the constructor always gets its request out. *)
Lemma post_init_sends rt cfg ub endpoint payload w :
  exists r,
    new_requests (_post rt (SwgohComlink_init cfg) ub endpoint payload) w = [r]
    /\ rq_method r = POST /\ rq_json r = payload
    /\ fst (_post rt (SwgohComlink_init cfg) ub endpoint payload w)
       = rt_remote rt (length (w_sent w)) r.
Proof.
  unfold new_requests.
  destruct (hmac (SwgohComlink_init cfg)) eqn:Hh.
  - rewrite (post_signed rt cfg ub endpoint payload w Hh). cbn [fst snd w_sent].
    rewrite drop_app_length. eexists; repeat split.
  - rewrite (post_unsigned rt _ ub endpoint payload w Hh). cbn [fst snd w_sent].
    rewrite drop_app_length. eexists; repeat split.
Qed.

(** ** The leaderboard request *)

(** The one-digit integers, case by case. *)
Lemma one_digit (P : Z -> Prop) :
  Forall P (Z.of_nat <$> seq 0 10) -> forall n, 0 <= n <= 9 -> P n.
Proof.
  intros F n H. rewrite Forall_forall in F. apply F.
  replace n with (Z.of_nat (Z.to_nat n)) by lia.
  apply list_elem_of_fmap_2, elem_of_seq. lia.
Qed.

Lemma get_leaderboard_translated rt self ty league division league1 division1
    ev grp enums w :
  translate_league league = Ok league1 ->
  translate_division division = Ok division1 ->
  get_leaderboard rt self ty league division ev grp enums w
  = _post rt self None (Some "getLeaderboard")
      (Some (leaderboard_payload ty league1 division1 ev grp enums)) w.
Proof.
  intros Hl Hd. unfold get_leaderboard, bind, lift. rewrite Hl, Hd.
  destruct (_post _ _ _ _ _ w) as [[a|e] w']; reflexivity.
Qed.

Lemma get_leaderboard_league_error rt self ty league division ev grp enums w e :
  translate_league league = Raise e ->
  get_leaderboard rt self ty league division ev grp enums w = (Raise e, w).
Proof. intros Hl. unfold get_leaderboard, bind, lift. rewrite Hl. reflexivity. Qed.

(** C4 (as stated) fails: a type-4 request with neither id is not rejected;
    it reaches the transport with both ids [null] and the remote's answer is
    returned. *)
Lemma C4_counterexample :
  fst (get_leaderboard (Demo.runtime (Ok (JDict []))) Demo.client 4 None None None None
         false Demo.world0) = Ok (JDict [])
  /\ map rq_json
       (new_requests
          (get_leaderboard (Demo.runtime (Ok (JDict []))) Demo.client 4 None None None
             None false) Demo.world0)
     = [Some [("payload", JDict [("leaderboardType", JInt 4);
                                 ("eventInstanceId", JNull); ("groupId", JNull)]);
              ("enums", JBool false)]].
Proof. split; vm_compute; reflexivity. Qed.

(** C4 (amended). A type-4 request in which [event_instance_id] or
    [group_id] is absent is not checked: once league and division are
    translated, the request is dispatched like any other, the absent ids
    being [null] in the envelope. *)
Theorem C4_type4_dispatched_unchecked :
  forall (rt : Runtime) (cfg : Env) (league division league1 division1 : option StrOrInt)
         (event_instance_id group_id : option string) (enums : bool) (w : World),
    event_instance_id = None \/ group_id = None ->
    translate_league league = Ok league1 ->
    translate_division division = Ok division1 ->
    let envelope :=
      [("payload", JDict [("leaderboardType", JInt 4);
                          ("eventInstanceId", json_of_opt event_instance_id);
                          ("groupId", json_of_opt group_id)]);
       ("enums", JBool enums)] in
    exists r,
      new_requests
        (get_leaderboard rt (SwgohComlink_init cfg) 4 league division
           event_instance_id group_id enums) w = [r]
      /\ rq_method r = POST
      /\ rq_json r = Some envelope
      /\ fst (get_leaderboard rt (SwgohComlink_init cfg) 4 league division
                event_instance_id group_id enums w)
         = rt_remote rt (length (w_sent w)) r.
Proof.
  intros rt cfg league division league1 division1 ev grp enums w _ Hl Hd envelope.
  unfold new_requests.
  rewrite (get_leaderboard_translated _ _ _ _ _ _ _ _ _ _ _ Hl Hd).
  apply (post_init_sends rt cfg None (Some "getLeaderboard") (Some envelope) w).
Qed.

Lemma C4_type4_dispatched_unchecked_witness :
  exists r,
    new_requests
      (get_leaderboard (Demo.runtime (Ok (JDict []))) (SwgohComlink_init Demo.cfg) 4
         (Some (AStr "Kyber")) (Some (AInt 1)) (Some "EVENT:O1") None true)
      Demo.world0 = [r]
    /\ rq_json r
       = Some [("payload", JDict [("leaderboardType", JInt 4);
                                  ("eventInstanceId", JStr "EVENT:O1");
                                  ("groupId", JNull)]);
               ("enums", JBool true)].
Proof.
  destruct (C4_type4_dispatched_unchecked (Demo.runtime (Ok (JDict []))) Demo.cfg
              (Some (AStr "Kyber")) (Some (AInt 1)) (Some (AInt 100)) (Some (AInt 25))
              (Some "EVENT:O1") None true Demo.world0
              (or_intror eq_refl) eq_refl eq_refl) as (r & Hr & _ & Hj & _).
  exists r. split; [exact Hr|exact Hj].
Defined.

Lemma translate_league_known s code :
  Dict.get leagues (Py.lower s) = Some code ->
  translate_league (Some (AStr s)) = Ok (Some (AInt code)).
Proof. intros H. unfold translate_league, table_lookup. rewrite H. reflexivity. Qed.

Lemma translate_league_unknown s :
  Dict.get leagues (Py.lower s) = None ->
  translate_league (Some (AStr s)) = Raise (KeyError (Py.lower s)).
Proof. intros H. unfold translate_league, table_lookup. rewrite H. reflexivity. Qed.

(** The division table, for the one-digit integers and for strings. *)
Lemma translate_division_digits :
  translate_division (Some (AInt 1)) = Ok (Some (AInt 25))
  /\ translate_division (Some (AInt 2)) = Ok (Some (AInt 20))
  /\ translate_division (Some (AInt 3)) = Ok (Some (AInt 15))
  /\ translate_division (Some (AInt 4)) = Ok (Some (AInt 10))
  /\ translate_division (Some (AInt 5)) = Ok (Some (AInt 5))
  /\ translate_division (Some (AStr "2")) = Ok (Some (AInt 20))
  /\ translate_division (Some (AInt 7)) = Raise (KeyError "7")
  /\ translate_division (Some (AInt 25)) = Ok (Some (AInt 25))
  /\ translate_division None = Ok None.
Proof. repeat split; vm_compute; reflexivity. Qed.

(** C5 (as stated) fails: the error of a league name that is not in the table
    is the KeyError of the table lookup, carrying the lower-cased name; it is
    no ValidationError, a class the code does not have. *)
Lemma C5_counterexample :
  get_leaderboard (Demo.runtime (Ok (JDict []))) Demo.client 6 (Some (AStr "Platinum"))
    (Some (AInt 2)) None None false Demo.world0
  = (Raise (KeyError "platinum"), Demo.world0)
  /\ class_name (KeyError "platinum") = "KeyError"
  /\ String.eqb (class_name (KeyError "platinum")) "ValidationError" = false.
Proof. repeat split. Qed.

(** C5 (amended). League names are looked up in lower case in the fixed table
    (kyber 100, aurodium 80, chromium 60, bronzium 40, carbonite 20), so any
    spelling of kyber gives 100 and any spelling of chromium gives 60. A
    one-digit integer division is looked up through its decimal text in the
    division table (1 to 5 give 25, 20, 15, 10 and 5; the other digits raise
    a KeyError), and a string division is looked up in lower case. A type-6
    request carries the translated codes. A league name that is not in the
    table makes the call raise a KeyError of the lower-cased name, with
    nothing sent and nothing else changed. *)
Theorem C5_league_division_normalisation :
  forall (rt : Runtime) (self : SwgohComlink) (s : string) (ty : Z)
         (league division : option StrOrInt) (ev grp : option string) (enums : bool)
         (w : World),
    (Dict.get leagues "kyber" = Some 100 /\ Dict.get leagues "aurodium" = Some 80
     /\ Dict.get leagues "chromium" = Some 60 /\ Dict.get leagues "bronzium" = Some 40
     /\ Dict.get leagues "carbonite" = Some 20)
    /\ (Py.lower s = "kyber" -> translate_league (Some (AStr s)) = Ok (Some (AInt 100)))
    /\ (Py.lower s = "chromium" -> translate_league (Some (AStr s)) = Ok (Some (AInt 60)))
    /\ (forall code,
           Dict.get leagues (Py.lower s) = Some code ->
           translate_league (Some (AStr s)) = Ok (Some (AInt code)))
    /\ translate_division (Some (AInt 2)) = Ok (Some (AInt 20))
    /\ (forall n, 1 <= n <= 5 ->
                  translate_division (Some (AInt n)) = Ok (Some (AInt (30 - 5 * n))))
    /\ (forall n, 0 <= n <= 9 ->
                  translate_division (Some (AInt n))
                  = match Dict.get divisions (Py.str_of_int n) with
                    | Some code => Ok (Some (AInt code))
                    | None => Raise (KeyError (Py.str_of_int n))
                    end)
    /\ translate_division (Some (AStr s))
       = match Dict.get divisions (Py.lower s) with
         | Some code => Ok (Some (AInt code))
         | None => Raise (KeyError (Py.lower s))
         end
    /\ (forall league1 division1,
           translate_league league = Ok league1 ->
           translate_division division = Ok division1 ->
           get_leaderboard rt self 6 league division ev grp enums w
           = _post rt self None (Some "getLeaderboard")
               (Some [("payload", JDict [("leaderboardType", JInt 6);
                                         ("league", json_of_arg league1);
                                         ("division", json_of_arg division1)]);
                      ("enums", JBool enums)]) w)
    /\ (Dict.get leagues (Py.lower s) = None ->
        get_leaderboard rt self ty (Some (AStr s)) division ev grp enums w
        = (Raise (KeyError (Py.lower s)), w)
        /\ class_name (KeyError (Py.lower s)) = "KeyError"
        /\ new_requests
             (get_leaderboard rt self ty (Some (AStr s)) division ev grp enums) w = []).
Proof.
  intros rt self s ty league division ev grp enums w.
  split; [repeat split; reflexivity|].
  split; [intros H; apply translate_league_known; rewrite H; reflexivity|].
  split; [intros H; apply translate_league_known; rewrite H; reflexivity|].
  split; [intros code H; apply translate_league_known, H|].
  split; [reflexivity|].
  split.
  { intros n Hn. assert (H9 : 0 <= n <= 9) by lia. revert n H9 Hn.
    apply (one_digit (fun n => 1 <= n <= 5 ->
                               translate_division (Some (AInt n))
                               = Ok (Some (AInt (30 - 5 * n))))).
    repeat constructor; intros Hn; solve [reflexivity | lia]. }
  split.
  { apply (one_digit (fun n => translate_division (Some (AInt n))
                               = match Dict.get divisions (Py.str_of_int n) with
                                 | Some code => Ok (Some (AInt code))
                                 | None => Raise (KeyError (Py.str_of_int n))
                                 end)).
    repeat constructor. }
  split.
  { unfold translate_division, table_lookup.
    destruct (Dict.get divisions (Py.lower s)); reflexivity. }
  split.
  - intros league1 division1 Hl Hd.
    apply (get_leaderboard_translated rt self 6 _ _ league1 division1 ev grp enums w Hl Hd).
  - intros H.
    assert (E : get_leaderboard rt self ty (Some (AStr s)) division ev grp enums w
                = (Raise (KeyError (Py.lower s)), w))
      by (apply get_leaderboard_league_error, translate_league_unknown, H).
    split; [exact E|]. split; [reflexivity|]. unfold new_requests. rewrite E. apply drop_all.
Qed.

Lemma C5_league_division_normalisation_witness :
  translate_league (Some (AStr "KyBeR")) = Ok (Some (AInt 100))
  /\ translate_league (Some (AStr "CHROMIUM")) = Ok (Some (AInt 60))
  /\ translate_division (Some (AInt 4)) = Ok (Some (AInt (30 - 5 * 4)))
  /\ fst (get_leaderboard (Demo.runtime (Ok (JDict []))) Demo.client 6
            (Some (AStr "platinum")) (Some (AInt 2)) None None false Demo.world0)
     = Raise (KeyError "platinum").
Proof.
  split; [|split; [|split]].
  - apply (C5_league_division_normalisation (Demo.runtime (Ok (JDict []))) Demo.client
             "KyBeR" 6 None None None None false Demo.world0). reflexivity.
  - apply (C5_league_division_normalisation (Demo.runtime (Ok (JDict []))) Demo.client
             "CHROMIUM" 6 None None None None false Demo.world0). reflexivity.
  - apply (C5_league_division_normalisation (Demo.runtime (Ok (JDict []))) Demo.client
             "kyber" 6 None None None None false Demo.world0). lia.
  - destruct (C5_league_division_normalisation (Demo.runtime (Ok (JDict [])))
                Demo.client "platinum" 6 None (Some (AInt 2)) None None false Demo.world0)
      as (_ & _ & _ & _ & _ & _ & _ & _ & _ & H).
    destruct (H eq_refl) as [E _]. rewrite E. reflexivity.
Defined.

(** ** The localisation parser *)

(** The lines of the specification's examples. *)
Lemma parse_line_examples (m : gmap string string) :
  parse_line m "UNIT_REYNOLDS_NAME|Rey" = Ok (<["UNIT_REYNOLDS_NAME" := "Rey"]> m)
  /\ parse_line m "#comment" = Ok m
  /\ parse_line m "UNIT_REYNOLDS_NAME" = Ok m
  /\ parse_line m "UNIT_FOO_TITLE|Bar" = Ok m
  /\ parse_line m "#UNIT_X_NAME|hidden" = Ok m
  /\ parse_line m "ABILITY_X_NAME|Strike" = Ok m.
Proof. repeat split; reflexivity. Qed.

Lemma parse_locale_example :
  parse_locale
    ("# names" +:+ String Py.newline
       ("UNIT_REYNOLDS_NAME|Rey" +:+ String Py.newline
          ("UNIT_FOO_TITLE|Bar" +:+ String Py.newline
             ("no separator" +:+ String Py.newline "UNIT_BB8_NAME|BB-8"))))
  = Ok (<["UNIT_BB8_NAME" := "BB-8"]> (<["UNIT_REYNOLDS_NAME" := "Rey"]> ∅)).
Proof. vm_compute. reflexivity. Qed.

Lemma rstrip_id c s : Py.contains c s = false -> Py.rstrip c s = s.
Proof.
  induction s as [|a s IH]; [reflexivity|].
  cbn [Py.contains Py.rstrip]. intros H. apply orb_false_elim in H as [Ha Hs].
  rewrite (IH Hs), Ha. destruct s; reflexivity.
Qed.

Lemma split_no_separator c s : Py.contains c s = false -> Py.split c s = [s].
Proof.
  induction s as [|a s IH]; [reflexivity|].
  cbn [Py.contains Py.split]. intros H. apply orb_false_elim in H as [Ha Hs].
  rewrite Ha, (IH Hs). reflexivity.
Qed.

Lemma split_partition c s :
  Py.contains c s = true ->
  Py.split c s = fst (Py.partition c s) :: Py.split c (snd (Py.partition c s)).
Proof.
  induction s as [|a s IH]; [discriminate|].
  cbn [Py.contains Py.split Py.partition]. destruct (Ascii.eqb a c); [reflexivity|].
  cbn [orb fst snd]. intros H. rewrite (IH H). reflexivity.
Qed.

(** The lines cut out of a text hold no line feed, so that stripping line
    feeds from their end changes nothing. *)
Lemma split_pieces_clean c s : Forall (fun l => Py.contains c l = false) (Py.split c s).
Proof.
  induction s as [|a s IH]; [repeat constructor|].
  cbn [Py.split]. destruct (Ascii.eqb a c) eqn:E.
  - constructor; [reflexivity|exact IH].
  - destruct (Py.split c s) as [|h t]; [repeat constructor; cbn; rewrite E; reflexivity|].
    inversion IH as [|? ? Hh Ht]; subst. constructor; [|exact Ht].
    cbn [Py.contains]. rewrite E, Hh. reflexivity.
Qed.

(** A prefix without the separator is a prefix of the line exactly when it
    is a prefix of the key. *)
Lemma startswith_key c p s :
  Py.contains c p = false -> Py.contains c s = true ->
  Py.startswith s p = Py.startswith (fst (Py.partition c s)) p.
Proof.
  revert s. induction p as [|a p IH]; intros s Hp Hs.
  - destruct s, (fst (Py.partition c _)); reflexivity.
  - destruct s as [|b s]; [discriminate|].
    cbn [Py.contains] in Hp. apply orb_false_elim in Hp as [Ha Hp].
    cbn [Py.partition Py.contains] in *. destruct (Ascii.eqb b c) eqn:E.
    + cbn [fst Py.startswith]. apply Ascii.eqb_eq in E. subst b.
      rewrite Ha. reflexivity.
    + cbn [fst Py.startswith orb] in *. rewrite (IH s Hp Hs). reflexivity.
Qed.

Lemma comment_is_no_unit line :
  Py.startswith line "#" = true -> Py.startswith line "UNIT_" = false.
Proof.
  destruct line as [|a l]; [discriminate|]. cbn [Py.startswith].
  intros H. apply andb_prop in H as [H _]. apply Ascii.eqb_eq in H. subst a.
  reflexivity.
Qed.

(** The code against the parser of the specification, on every line cut out
    of the text: they agree, except on the lines that begin with UNIT_ and
    hold more than one separator, where the code raises. *)
Lemma parse_line_against_spec (m : gmap string string) (line : string) :
  Py.contains Py.newline line = false ->
  parse_line m line
  = if Py.startswith line "UNIT_" && Py.contains "|" (snd (Py.partition "|" line))
    then Raise (ValueError "too many values to unpack (expected 2)")
    else Ok (spec_parse_line m line).
Proof.
  intros Hn. unfold parse_line, spec_parse_line. rewrite (rstrip_id _ _ Hn).
  destruct (Py.startswith line "#") eqn:Hc.
  { rewrite (comment_is_no_unit line Hc). reflexivity. }
  destruct (Py.contains "|" line) eqn:Hs; cbn [negb].
  2:{ destruct line as [|a l]; [reflexivity|].
      destruct (Py.startswith (String a l) "UNIT_") eqn:Hu; [|reflexivity].
      assert (Hp : Py.partition "|" (String a l) = (String a l, EmptyString)).
      { clear -Hs. induction (String a l) as [|b s IH]; [reflexivity|].
        cbn [Py.contains Py.partition] in *. apply orb_false_elim in Hs as [Hb Hs].
        rewrite Hb, (IH Hs). reflexivity. }
      rewrite Hp. reflexivity. }
  rewrite <- (startswith_key "|" "UNIT_" line eq_refl Hs).
  destruct (Py.startswith line "UNIT_") eqn:Hu; [|reflexivity].
  rewrite (split_partition _ _ Hs). cbn [andb].
  destruct (Py.contains "|" (snd (Py.partition "|" line))) eqn:H2.
  - rewrite (split_partition _ _ H2).
    destruct (Py.split "|" (snd (Py.partition "|" (snd (Py.partition "|" line)))))
      as [|x xs] eqn:E; [|reflexivity].
    exfalso. clear -E.
    induction (snd (Py.partition "|" (snd (Py.partition "|" line)))) as [|b s IH];
      [discriminate|].
    cbn [Py.split] in E. destruct (Ascii.eqb b "|"); [discriminate|].
    destruct (Py.split "|" s); discriminate.
  - rewrite (split_no_separator _ _ H2).
    destruct (Py.endswith (fst (Py.partition "|" line)) "_NAME"); reflexivity.
Qed.

(** On a line with at most one separator the code is the parser of the
    specification. *)
Lemma parse_line_single_separator (m : gmap string string) (line : string) :
  Py.contains Py.newline line = false ->
  Py.contains "|" (snd (Py.partition "|" line)) = false ->
  parse_line m line = Ok (spec_parse_line m line).
Proof.
  intros Hn H1. rewrite (parse_line_against_spec m line Hn), H1, andb_false_r.
  reflexivity.
Qed.

Lemma parse_lines_single_separator (m : gmap string string) (lines : list string) :
  Forall (fun l => Py.contains Py.newline l = false) lines ->
  Forall (fun l => Py.contains "|" (snd (Py.partition "|" l)) = false) lines ->
  parse_lines m lines = Ok (fold_left spec_parse_line lines m).
Proof.
  revert m. induction lines as [|l lines IH]; intros m Hn H1; [reflexivity|].
  inversion Hn as [|? ? Hn1 Hn2]; inversion H1 as [|? ? H11 H12]; subst.
  cbn [parse_lines fold_left]. rewrite (parse_line_single_separator m l Hn1 H11).
  apply IH; assumption.
Qed.

(** A text in which no line has a second separator is parsed as the
    specification says. *)
Lemma parse_locale_single_separator (locale : string) :
  Forall (fun l => Py.contains "|" (snd (Py.partition "|" l)) = false)
         (Py.split Py.newline locale) ->
  parse_locale locale = Ok (fold_left spec_parse_line (Py.split Py.newline locale) ∅).
Proof.
  intros H. unfold parse_locale.
  apply parse_lines_single_separator; [apply split_pieces_clean|exact H].
Qed.

(** C6 at the failing input. A line whose key begins with UNIT_ and ends
    with _NAME and whose description contains a second separator is not
    split at the first separator, which would give the entry of the key with
    the rest of the line: unpacking the three pieces into (key, description)
    raises, and the whole parse ends with that error, entries of earlier
    lines included. *)
Theorem C6_second_separator_raises :
  spec_parse_line ∅ "UNIT_REYNOLDS_NAME|Rey|Skywalker"
  = <["UNIT_REYNOLDS_NAME" := "Rey|Skywalker"]> ∅
  /\ parse_line ∅ "UNIT_REYNOLDS_NAME|Rey|Skywalker"
     = Raise (ValueError "too many values to unpack (expected 2)")
  /\ parse_locale
       ("UNIT_BB8_NAME|BB-8" +:+ String Py.newline "UNIT_REYNOLDS_NAME|Rey|Skywalker")
     = Raise (ValueError "too many values to unpack (expected 2)").
Proof. repeat split; vm_compute; reflexivity. Qed.

(** ** The player profile *)

Lemma bind_lift_run {A B} (m : M A) (f : A -> Result B) (w : World) :
  bind m (fun a => lift (f a)) w
  = (match fst (m w) with Ok a => f a | Raise e => Raise e end, snd (m w)).
Proof. unfold bind, lift. destruct (m w) as [[a|e] w']; reflexivity. Qed.

Lemma get_player_run rt self allycode player_id enums w :
  get_player rt self allycode player_id enums w
  = (match fst (_post rt self None (Some "player")
                  (Some (_get_player_payload allycode player_id enums)) w) with
     | Ok data => Player data
     | Raise e => Raise e
     end,
     snd (_post rt self None (Some "player")
            (Some (_get_player_payload allycode player_id enums)) w)).
Proof. unfold get_player. apply bind_lift_run. Qed.

(** C7 (as stated) fails: the answer [{}] has none of the keys of the Player
    record, and [get_player] returns it as it is. *)
Lemma C7_counterexample :
  Forall (fun k => Dict.mem ([] : pydict) k = false) Player_keys
  /\ fst (get_player (Demo.runtime (Ok (JDict []))) Demo.client
            (Some (AInt 123456789)) None false Demo.world0) = Ok [].
Proof. split; [repeat constructor|vm_compute; reflexivity]. Qed.

(** C7 (amended). Whenever the decoded answer to the player request is a
    JSON object, [get_player] returns that mapping unchanged, whichever keys
    it has: nothing is checked. It raises only what the dispatch raised, or a
    TypeError when the answer is not an object. *)
Theorem C7_get_player_returns_the_mapping :
  forall (rt : Runtime) (self : SwgohComlink) (allycode : option StrOrInt)
         (player_id : option string) (enums : bool) (w : World) (answer : Result json),
    fst (_post rt self None (Some "player")
           (Some (_get_player_payload allycode player_id enums)) w) = answer ->
    fst (get_player rt self allycode player_id enums w)
    = match answer with
      | Ok (JDict d) => Ok d
      | Ok _ => Raise (TypeError "argument after ** must be a mapping")
      | Raise e => Raise e
      end.
Proof.
  intros rt self allycode player_id enums w answer H.
  rewrite get_player_run. cbn [fst]. rewrite H.
  destruct answer as [[| | | | |]|]; reflexivity.
Qed.

Lemma C7_get_player_returns_the_mapping_witness :
  fst (get_player (Demo.runtime (Ok (JDict [("name", JStr "Thrawn")]))) Demo.client
         None (Some "pLaYeRiD") false Demo.world0)
  = Ok [("name", JStr "Thrawn")].
Proof.
  apply (C7_get_player_returns_the_mapping
           (Demo.runtime (Ok (JDict [("name", JStr "Thrawn")]))) Demo.client
           None (Some "pLaYeRiD") false Demo.world0
           (Ok (JDict [("name", JStr "Thrawn")]))).
  vm_compute. reflexivity.
Defined.

(** ** The guild lookup *)

Lemma existsb_guild_mem (d : pydict) :
  existsb (String.eqb "guild") (Dict.keys d) = Dict.mem d "guild".
Proof.
  unfold Dict.mem, Dict.keys.
  induction d as [|[k v] d IH]; [reflexivity|].
  cbn [map fst existsb Dict.get]. rewrite (String.eqb_sym "guild" k).
  destruct (String.eqb k "guild"); [reflexivity|exact IH].
Qed.

(** C10. When the decoded answer to the guild request is a mapping,
    [get_guild] returns the value under its key [guild] if it has one, and
    the whole mapping unchanged otherwise. ([includeRecent] is the alias of
    the second parameter; a call that passes it as false does not reach the
    function.) *)
Theorem C10_get_guild_unwraps :
  forall (rt : Runtime) (self : SwgohComlink) (guild_id : string)
         (include_recent : bool) (includeRecent : option bool) (enums : bool)
         (w : World) (d : pydict),
    includeRecent <> Some false ->
    fst (_post rt self None (Some "guild")
           (Some [("payload", JDict [("guildId", JStr guild_id);
                                     ("includeRecentGuildActivityInfo",
                                      JBool (default include_recent includeRecent))]);
                  ("enums", JBool enums)]) w) = Ok (JDict d) ->
    fst (get_guild rt self guild_id include_recent includeRecent enums w)
    = Ok (match Dict.get d "guild" with
          | Some g => g
          | None => JDict d
          end).
Proof.
  intros rt self guild_id include_recent includeRecent enums w d Ha H.
  assert (E : get_guild rt self guild_id include_recent includeRecent enums w
              = get_guild rt self guild_id (default include_recent includeRecent) None
                  enums w).
  { destruct includeRecent as [[]|]; [reflexivity|congruence|reflexivity]. }
  rewrite E. clear E Ha.
  unfold get_guild, param_alias, bind. cbn [Dict.literal fold_left fst snd Dict.set].
  destruct (_post rt self None (Some "guild") _ w) as [[a|e] w'] eqn:E.
  - cbn [fst] in H. injection H as ->.
    cbn [lift keys_of]. rewrite existsb_guild_mem. unfold Dict.mem.
    cbn [subscript]. destruct (Dict.get d "guild"); reflexivity.
  - discriminate H.
Qed.

Lemma C10_get_guild_unwraps_witness :
  fst (get_guild (Demo.runtime (Ok (JDict [("guild", JDict [("name", JStr "LCWA")])])))
         Demo.client "gUiLdId" false None false Demo.world0)
  = Ok (JDict [("name", JStr "LCWA")])
  /\ fst (get_guild (Demo.runtime (Ok (JDict [("name", JStr "LCWA")])))
            Demo.client "gUiLdId" false (Some true) false Demo.world0)
     = Ok (JDict [("name", JStr "LCWA")]).
Proof.
  split.
  - apply (C10_get_guild_unwraps
             (Demo.runtime (Ok (JDict [("guild", JDict [("name", JStr "LCWA")])])))
             Demo.client "gUiLdId" false None false Demo.world0
             [("guild", JDict [("name", JStr "LCWA")])]).
    + discriminate.
    + vm_compute. reflexivity.
  - apply (C10_get_guild_unwraps
             (Demo.runtime (Ok (JDict [("name", JStr "LCWA")])))
             Demo.client "gUiLdId" false (Some true) false Demo.world0
             [("name", JStr "LCWA")]).
    + discriminate.
    + vm_compute. reflexivity.
Defined.

(** A guild answer that is no mapping has no [keys]. *)
Lemma get_guild_not_a_mapping :
  fst (get_guild (Demo.runtime (Ok (JList []))) Demo.client "gUiLdId" false None false
         Demo.world0)
  = Raise (AttributeError "object has no attribute 'keys'").
Proof. vm_compute. reflexivity. Qed.

(** ** The localisation pipeline and [on_ready] *)

Lemma quiet_refl w : quiet w w.
Proof.
  repeat split. exists []. rewrite app_nil_r. split; [reflexivity|constructor].
Qed.

Lemma quiet_trans w1 w2 w3 : quiet w1 w2 -> quiet w2 w3 -> quiet w1 w3.
Proof.
  intros (Hf1 & Hm1 & l1 & Hl1 & Hw1) (Hf2 & Hm2 & l2 & Hl2 & Hw2).
  split; [congruence|]. split; [congruence|].
  exists (l1 ++ l2). split.
  - rewrite Hl2, Hl1, app_assoc. reflexivity.
  - apply Forall_app. split; assumption.
Qed.

Lemma Quiet_ret {A} (a : A) : Quiet (ret a).
Proof. intros w. apply quiet_refl. Qed.

Lemma Quiet_lift {A} (r : Result A) : Quiet (lift r).
Proof. intros w. apply quiet_refl. Qed.

Lemma Quiet_log name lvl msg : lvl <> LWarning -> Quiet (log name lvl msg).
Proof.
  intros Hl w. repeat split. exists [(name, lvl, msg)].
  split; [reflexivity|]. repeat constructor. exact Hl.
Qed.

Lemma Quiet_bind {A B} (m : M A) (k : A -> M B) :
  Quiet m -> (forall a, Quiet (k a)) -> Quiet (bind m k).
Proof.
  intros Hm Hk w. unfold bind. specialize (Hm w).
  destruct (m w) as [[a|e] w1]; cbn [snd] in *.
  - eapply quiet_trans; [exact Hm|apply Hk].
  - exact Hm.
Qed.

Lemma Quiet_post rt self ub endpoint payload :
  Quiet (_post rt self ub endpoint payload).
Proof.
  intros w. destruct (post_frame rt self ub endpoint payload w) as (Hl & Hf & _ & Hm & _).
  split; [exact Hf|]. split; [exact Hm|].
  exists []. rewrite app_nil_r. split; [exact Hl|constructor].
Qed.

Lemma Quiet_get_game_metadata rt self client_specs enums :
  Quiet (get_game_metadata rt self client_specs enums).
Proof. unfold get_game_metadata. cbv zeta. apply Quiet_post. Qed.

Lemma Quiet_get_latest rt self : Quiet (get_latest_game_data_version rt self).
Proof.
  unfold get_latest_game_data_version.
  apply Quiet_bind; [apply Quiet_get_game_metadata|intros ?].
  apply Quiet_bind; [apply Quiet_lift|intros ?].
  apply Quiet_bind; [apply Quiet_lift|intros ?].
  apply Quiet_ret.
Qed.

Lemma Quiet_get_localization rt self id unzip enums :
  Quiet (get_localization rt self id unzip enums).
Proof.
  unfold get_localization.
  apply Quiet_bind; [|intros ?; apply Quiet_post].
  destruct (negb (Json.truthy id)); [|apply Quiet_ret].
  apply Quiet_bind; [apply Quiet_get_latest|intros ?; apply Quiet_lift].
Qed.

Create HintDb quiet.
#[local] Hint Resolve Quiet_ret Quiet_lift Quiet_log Quiet_post
  Quiet_get_game_metadata Quiet_get_latest Quiet_get_localization : quiet.
#[local] Hint Extern 1 (_ <> LWarning) => discriminate : quiet.






(** On the first call, [on_ready] is the pipeline run in the world where the
    bot is marked ready and has announced itself. *)
Lemma on_ready_first rt bot w :
  w_is_ready w = false ->
  on_ready rt bot w
  = create_localised_unit_name_dictionary rt (comlink bot)
      (mkWorld (w_sent w) (w_clock_reads w)
               (w_log w ++ [("bot", LInfo, user bot +:+ " is now online!")])
               (w_files w) true (w_unit_name_map w)).
Proof.
  intros H. unfold on_ready, bind, get_is_ready, set_is_ready, log.
  rewrite H. reflexivity.
Qed.




(** ** The envelopes of the operations *)

Lemma Sends_new_requests {A} P (m : M A) w : Sends P m -> Forall P (new_requests m w).
Proof.
  intros H. destruct (H w) as (l & Hl & HP).
  unfold new_requests. rewrite Hl, drop_app_length. exact HP.
Qed.

Lemma Sends_ret {A} P (a : A) : Sends P (ret a).
Proof. intros w. exists []. rewrite app_nil_r. split; [reflexivity|constructor]. Qed.

Lemma Sends_lift {A} P (r : Result A) : Sends P (lift r).
Proof. intros w. exists []. rewrite app_nil_r. split; [reflexivity|constructor]. Qed.

Lemma Sends_raise {A} P e : Sends P (raise (A := A) e).
Proof. intros w. exists []. rewrite app_nil_r. split; [reflexivity|constructor]. Qed.

Lemma Sends_bind {A B} P (m : M A) (k : A -> M B) :
  Sends P m -> (forall a, Sends P (k a)) -> Sends P (bind m k).
Proof.
  intros Hm Hk w. unfold bind. destruct (Hm w) as (l1 & Hl1 & HP1).
  destruct (m w) as [[a|e] w1]; cbn [snd] in *.
  - destruct (Hk a w1) as (l2 & Hl2 & HP2). exists (l1 ++ l2). split.
    + rewrite Hl2, Hl1, app_assoc. reflexivity.
    + apply Forall_app. split; assumption.
  - exists l1. split; assumption.
Qed.

Lemma Sends_post (P : Request -> Prop) rt self ub endpoint payload :
  (forall r, rq_method r = POST -> rq_json r = payload -> P r) ->
  Sends P (_post rt self ub endpoint payload).
Proof.
  intros HP w.
  destruct (post_frame rt self ub endpoint payload w)
    as (_ & _ & _ & _ & [[Hs _]|(r & Hs & Hm & Hj & _)]).
  - exists []. rewrite app_nil_r. split; [exact Hs|constructor].
  - exists [r]. split; [exact Hs|]. repeat constructor. apply HP; assumption.
Qed.

Lemma Sends_param_alias {A} P alias v a (func : bool -> M A) :
  (forall b, Sends P (func b)) -> Sends P (param_alias alias v a func).
Proof.
  intros H. unfold param_alias. destruct a as [[]|]; [apply H|apply Sends_raise|apply H].
Qed.

(** A key of a mapping shows, in quotes, in its serialisation. *)
Lemma key_in_join (d : pydict) (k : string) :
  Dict.mem d k = true ->
  occurs_in (Json.encode_basestring_ascii k)
    (Py.join ", "
       (map (fun kv => Json.encode_basestring_ascii (fst kv) +:+ ": "
                       +:+ Json.dumps_with ", " ": " (snd kv)) d)).
Proof.
  unfold Dict.mem. induction d as [|[k' v] d IH]; [discriminate|].
  cbn [Dict.get map fst snd]. destruct (String.eqb k' k) eqn:E.
  - intros _. apply String.eqb_eq in E. subst k'.
    destruct (join_cons_head ", "
                (Json.encode_basestring_ascii k +:+ ": " +:+ Json.dumps_with ", " ": " v)
                (map (fun kv => Json.encode_basestring_ascii (fst kv) +:+ ": "
                                +:+ Json.dumps_with ", " ": " (snd kv)) d)) as [t ->].
    exists EmptyString, (": " +:+ Json.dumps_with ", " ": " v +:+ t).
    rewrite str_app_nil_l, !str_app_assoc. reflexivity.
  - intros H. destruct (IH H) as (pre & post & Hj).
    destruct d as [|kv d']; [discriminate H|].
    change (Py.join ", " (?x :: map ?f (kv :: d')))
      with (x +:+ ", " +:+ Py.join ", " (map f (kv :: d'))).
    rewrite Hj.
    exists (Json.encode_basestring_ascii k' +:+ ": " +:+ Json.dumps_with ", " ": " v
            +:+ ", " +:+ pre), post.
    rewrite !str_app_assoc. reflexivity.
Qed.

Lemma key_in_dumps (d : pydict) (k : string) :
  Dict.mem d k = true ->
  occurs_in (Json.encode_basestring_ascii k) (Json.dumps (JDict d)).
Proof.
  intros H. destruct (key_in_join d k H) as (pre & post & Hj).
  unfold Json.dumps. cbn [Json.dumps_with]. rewrite Hj.
  exists ("{" +:+ pre), (post +:+ "}"). rewrite !str_app_assoc. reflexivity.
Qed.

Lemma carries_payload_key_intro (d : pydict) (r : Request) :
  Dict.mem d "payload" = true -> rq_json r = Some d -> carries_payload_key r.
Proof.
  intros Hm Hj. unfold carries_payload_key, envelope_has_key, transmitted_body.
  rewrite Hj. split; [exact Hm|].
  exists (Json.dumps (JDict d)). split; [reflexivity|]. apply key_in_dumps, Hm.
Qed.

Lemma Sends_post_envelope rt self ub endpoint (d : pydict) :
  Dict.mem d "payload" = true ->
  Sends carries_payload_key (_post rt self ub endpoint (Some d)).
Proof.
  intros Hm. apply Sends_post. intros r _ Hj.
  apply (carries_payload_key_intro d r Hm Hj).
Qed.

Lemma get_player_payload_mem allycode player_id enums :
  Dict.mem (_get_player_payload allycode player_id enums) "payload" = true.
Proof.
  unfold _get_player_payload.
  destruct (negb (truthy_arg allycode) && Py.truthy_str player_id); reflexivity.
Qed.

Lemma leaderboard_payload_mem ty league division ev grp enums :
  Dict.mem (leaderboard_payload ty league division ev grp enums) "payload" = true.
Proof.
  unfold leaderboard_payload.
  destruct (ty =? 4); [reflexivity|]. destruct (ty =? 6); reflexivity.
Qed.

(** C9 (as stated) fails: the game-metadata fetch without a client-spec
    filter sends the empty envelope, whose body on the wire is the two
    characters of an empty object: no [payload] key. *)
Lemma C9_counterexample :
  exists r,
    new_requests (get_game_metadata (Demo.runtime (Ok Demo.metadata)) Demo.client [] false)
      Demo.world0 = [r]
    /\ rq_json r = Some []
    /\ envelope_has_key "payload" r = false
    /\ transmitted_body r = Some (Py.encode "{}").
Proof. eexists. repeat split; vm_compute; reflexivity. Qed.

(** C9 (amended). Every envelope sent by the operations that build one
    around a payload mapping has the [payload] key, on the wire too, also
    when that mapping is empty (as for [get_events]): the events, game-data,
    filtered metadata, localisation (with an id given), player, player-arena,
    guild, guild-search, leaderboard and guild-leaderboard requests. The
    metadata fetch without a filter sends the empty envelope, and
    [get_unit_stats] sends the caller's mapping as it is. *)
Theorem C9_envelopes_carry_payload_key :
  forall (rt : Runtime) (self : SwgohComlink) (w : World) (enums : bool),
    Forall carries_payload_key (new_requests (get_events rt self enums) w)
    /\ (forall version include_pve_units request_segment,
           Forall carries_payload_key
             (new_requests
                (get_game_data rt self version include_pve_units request_segment enums) w))
    /\ (forall client_specs,
           client_specs <> [] ->
           Forall carries_payload_key
             (new_requests (get_game_metadata rt self client_specs enums) w))
    /\ (forall id unzip,
           Json.truthy id = true ->
           Forall carries_payload_key
             (new_requests (get_localization rt self id unzip enums) w))
    /\ (forall allycode player_id,
           Forall carries_payload_key
             (new_requests (get_player rt self allycode player_id enums) w))
    /\ (forall allycode player_id player_details_only playerDetailsOnly,
           Forall carries_payload_key
             (new_requests
                (get_player_arena rt self allycode player_id player_details_only
                   playerDetailsOnly enums) w))
    /\ (forall guild_id include_recent includeRecent,
           Forall carries_payload_key
             (new_requests (get_guild rt self guild_id include_recent includeRecent enums) w))
    /\ (forall name start_index count,
           Forall carries_payload_key
             (new_requests (get_guilds_by_name rt self name start_index count enums) w))
    /\ (forall search_criteria start_index count,
           Forall carries_payload_key
             (new_requests
                (get_guilds_by_criteria rt self search_criteria start_index count enums) w))
    /\ (forall leaderboard_type league division event_instance_id group_id,
           Forall carries_payload_key
             (new_requests
                (get_leaderboard rt self leaderboard_type league division
                   event_instance_id group_id enums) w))
    /\ (forall leaderboard_id count,
           Forall carries_payload_key
             (new_requests (get_guild_leaderboard rt self leaderboard_id count enums) w))
    /\ Forall (fun r => rq_json r = Some [])
         (new_requests (get_game_metadata rt self [] enums) w)
    /\ (forall request_payload flags language,
           Forall (fun r => rq_json r = Some request_payload)
             (new_requests (get_unit_stats rt self request_payload flags language) w)).
Proof.
  intros rt self w enums.
  repeat match goal with |- _ /\ _ => split end; intros; apply Sends_new_requests.
  - apply Sends_post_envelope. reflexivity.
  - apply Sends_post_envelope. reflexivity.
  - destruct client_specs as [|c cs]; [congruence|].
    apply Sends_post_envelope. reflexivity.
  - unfold get_localization.
    match goal with H : Json.truthy id = true |- _ => rewrite H end. cbn [negb].
    apply Sends_bind; [apply Sends_ret|intros ?].
    apply Sends_post_envelope. reflexivity.
  - unfold get_player. apply Sends_bind; [|intros ?; apply Sends_lift].
    apply Sends_post_envelope, get_player_payload_mem.
  - apply Sends_param_alias. intros b. apply Sends_post_envelope.
    unfold _get_player_payload.
    destruct (negb (truthy_arg allycode) && Py.truthy_str player_id); reflexivity.
  - apply Sends_param_alias. intros b.
    apply Sends_bind; [apply Sends_post_envelope; reflexivity|intros guild].
    apply Sends_bind; [apply Sends_lift|intros ks].
    destruct (existsb (String.eqb "guild") ks); [apply Sends_lift|apply Sends_ret].
  - apply Sends_post_envelope. reflexivity.
  - apply Sends_post_envelope. reflexivity.
  - unfold get_leaderboard.
    apply Sends_bind; [apply Sends_lift|intros league1].
    apply Sends_bind; [apply Sends_lift|intros division1]. cbv zeta.
    apply Sends_bind; [|intros ?; apply Sends_ret].
    apply Sends_post_envelope, leaderboard_payload_mem.
  - apply Sends_post_envelope. reflexivity.
  - unfold get_game_metadata. cbv zeta. apply Sends_post. auto.
  - unfold get_unit_stats. cbv zeta. apply Sends_post. auto.
Qed.

Lemma C9_envelopes_carry_payload_key_witness :
  Forall carries_payload_key
    (new_requests
       (get_game_metadata (Demo.runtime (Ok Demo.metadata)) Demo.client
          [("platform", JStr "Android")] false) Demo.world0)
  /\ map transmitted_body
       (new_requests
          (get_game_metadata (Demo.runtime (Ok Demo.metadata)) Demo.client
             [("platform", JStr "Android")] false) Demo.world0)
     = [Some (Py.encode
                (Py.quoted
                   "{'payload': {'client_specs': {'platform': 'Android'}}, 'enums': false}"))].
Proof.
  split.
  - destruct (C9_envelopes_carry_payload_key (Demo.runtime (Ok Demo.metadata))
                Demo.client Demo.world0 false) as (_ & _ & H & _).
    apply (H [("platform", JStr "Android")]). discriminate.
  - vm_compute. reflexivity.
Defined.

(** ** A run that goes through *)

(** With surroundings that answer as expected, the first [on_ready] asks for
    the metadata, then for the bundle of the language version it names,
    builds the map of the two unit names and writes it out sorted. *)
Example on_ready_success :
  let run := on_ready Demo.runtime_ok (mkBot "Thrawn#0001" Demo.client) Demo.world0 in
  fst run = Ok tt
  /\ map rq_json (w_sent (snd run))
     = [Some [];
        Some [("unzip", JBool false); ("enums", JBool false);
              ("payload", JDict [("id", JStr "en_v9")])]]
  /\ w_unit_name_map (snd run)
     = Some (<["UNIT_BB8_NAME" := "BB-8"]> (<["UNIT_REYNOLDS_NAME" := "Rey"]> ∅))
  /\ w_files (snd run) !! asset_path
     = Some (Py.quoted "{" +:+ String Py.newline
               (Py.quoted "    'UNIT_BB8_NAME': 'BB-8'," +:+ String Py.newline
                  (Py.quoted "    'UNIT_REYNOLDS_NAME': 'Rey'" +:+ String Py.newline "}")))
  /\ map (fun entry => snd (fst entry)) (w_log (snd run))
     = [LInfo; LDebug; LDebug; LDebug; LDebug; LDebug; LDebug; LDebug; LInfo].
Proof. repeat split; vm_compute; reflexivity. Qed.

(** * Further properties of the code *)

(** ** Credentials, the environment and signing *)

Lemma init_hmac_off cfg :
  ACCESS_KEY cfg = EmptyString \/ SECRET_KEY cfg = EmptyString ->
  hmac (SwgohComlink_init cfg) = false.
Proof.
  unfold SwgohComlink_init; cbn [hmac]. intros [H|H]; rewrite H.
  - reflexivity.
  - destruct (nonempty (ACCESS_KEY cfg)); reflexivity.
Qed.

(** X1. A client constructed with an empty access key or an empty secret key
    does not sign: every request it dispatches goes out, with the payload it
    was given and without any header, the clock is not read, and the answer
    of the remote is returned. *)
Theorem X1_no_credentials_no_headers :
  forall (rt : Runtime) (cfg : Env) (ub endpoint : option string)
         (payload : option pydict) (w : World),
    ACCESS_KEY cfg = EmptyString \/ SECRET_KEY cfg = EmptyString ->
    exists r,
      new_requests (_post rt (SwgohComlink_init cfg) ub endpoint payload) w = [r]
      /\ rq_method r = POST
      /\ rq_headers r = []
      /\ rq_json r = payload
      /\ w_clock_reads (snd (_post rt (SwgohComlink_init cfg) ub endpoint payload w))
         = w_clock_reads w
      /\ fst (_post rt (SwgohComlink_init cfg) ub endpoint payload w)
         = rt_remote rt (length (w_sent w)) r.
Proof.
  intros rt cfg ub endpoint payload w H.
  pose proof (post_unsigned rt (SwgohComlink_init cfg) ub endpoint payload w
                (init_hmac_off cfg H)) as E. cbv zeta in E.
  unfold new_requests. rewrite E. cbn [fst snd w_sent w_clock_reads].
  rewrite drop_app_length. eexists. repeat split.
Qed.

Lemma X1_no_credentials_no_headers_witness :
  map rq_headers
    (new_requests
       (_post (Demo.runtime (Ok JNull))
          (SwgohComlink_init (mkEnv "access" "" "http://localhost:3000" "" "DEV"))
          None (Some "getEvents") (Some [("payload", JDict []); ("enums", JBool false)]))
       Demo.world0)
  = [[]].
Proof.
  destruct (X1_no_credentials_no_headers (Demo.runtime (Ok JNull))
              (mkEnv "access" "" "http://localhost:3000" "" "DEV")
              None (Some "getEvents") (Some [("payload", JDict []); ("enums", JBool false)])
              Demo.world0 (or_intror eq_refl)) as (r & Hr & _ & Hh & _).
  rewrite Hr. cbn [map]. rewrite Hh. reflexivity.
Defined.

(** The loop of the verification, on any list of names. *)
Lemma verify_env_ok getenv vars attrs attrs' :
  _verify_env_variables getenv vars attrs = Ok attrs' ->
  Forall (fun v => Py.truthy_str (getenv v) = true) vars.
Proof.
  revert attrs. induction vars as [|v vars IH]; intros attrs H; [constructor|].
  cbn [_verify_env_variables] in H.
  destruct (Py.truthy_str (getenv v)) eqn:E; cbn [negb] in H; [|discriminate].
  constructor; [exact E|]. eapply IH, H.
Qed.

Lemma verify_env_first_unset getenv pre var post attrs :
  Forall (fun v => Py.truthy_str (getenv v) = true) pre ->
  Py.truthy_str (getenv var) = false ->
  _verify_env_variables getenv (pre ++ var :: post) attrs
  = Raise (ValueError ("Environment variable " +:+ var +:+ " is not set.")).
Proof.
  intros Hpre Hvar. revert attrs.
  induction Hpre as [|v pre Hv _ IH]; intros attrs; cbn [app _verify_env_variables].
  - rewrite Hvar. reflexivity.
  - rewrite Hv. cbn [negb]. apply IH.
Qed.

(** X2. An environment that passes [Env()] has every annotated variable set
    to a non-empty value, the two keys among them; so the client built from
    it always has signing enabled, and every request it dispatches through
    [_post] carries the two headers [X-Date] and [Authorization]. The one
    operation that does not go through [_post], [get_enums], sends its GET
    without any header even from such a client. *)
Theorem X2_verified_environment_signs_every_post :
  forall (getenv : string -> option string) (env : Env),
    Env_init getenv = Ok env ->
    Forall (fun v => Py.truthy_str (getenv v) = true) Env_annotations
    /\ Some (ACCESS_KEY env) = getenv "ACCESS_KEY"
    /\ Some (SECRET_KEY env) = getenv "SECRET_KEY"
    /\ Some (COMLINK_URL env) = getenv "COMLINK_URL"
    /\ Some (STATS_URL env) = getenv "STATS_URL"
    /\ hmac (SwgohComlink_init env) = true
    /\ (forall (rt : Runtime) (ub endpoint : option string) (payload : option pydict)
               (w : World),
          exists r,
            new_requests (_post rt (SwgohComlink_init env) ub endpoint payload) w = [r]
            /\ map fst (rq_headers r) = ["X-Date"; "Authorization"])
    /\ (forall (rt : Runtime) (w : World),
          new_requests (get_enums rt (SwgohComlink_init env)) w
          = [mkRequest GET (COMLINK_URL env +:+ "/enums") None []]).
Proof.
  intros getenv env H. unfold Env_init in H.
  destruct (_verify_env_variables getenv Env_annotations []) as [attrs|e] eqn:E;
    [|discriminate].
  pose proof (verify_env_ok _ _ _ _ E) as Hall.
  injection H as <-. split; [exact Hall|].
  assert (Hin : forall v, v ∈ Env_annotations -> Py.truthy_str (getenv v) = true)
    by (apply Forall_forall, Hall).
  unfold Env_annotations in E, Hin. cbn [_verify_env_variables] in E.
  repeat rewrite Hin in E by (repeat constructor).
  cbn [negb] in E. injection E as <-.
  assert (G : forall v, Py.truthy_str (getenv v) = true ->
                        Some (default EmptyString (getenv v)) = getenv v
                        /\ nonempty (default EmptyString (getenv v)) = true).
  { intros v Hv. destruct (getenv v) as [[|c s]|]; try discriminate. split; reflexivity. }
  unfold attribute.
  change (mkEnv _ _ _ _ _)
    with (mkEnv (default EmptyString (getenv "ACCESS_KEY"))
                (default EmptyString (getenv "SECRET_KEY"))
                (default EmptyString (getenv "COMLINK_URL"))
                (default EmptyString (getenv "STATS_URL"))
                (default EmptyString (getenv "ENVIRONMENT_MODE"))).
  cbn [ACCESS_KEY SECRET_KEY COMLINK_URL STATS_URL].
  assert (Hh : hmac (SwgohComlink_init
                       (mkEnv (default EmptyString (getenv "ACCESS_KEY"))
                              (default EmptyString (getenv "SECRET_KEY"))
                              (default EmptyString (getenv "COMLINK_URL"))
                              (default EmptyString (getenv "STATS_URL"))
                              (default EmptyString (getenv "ENVIRONMENT_MODE")))) = true).
  { unfold SwgohComlink_init. cbn [hmac ACCESS_KEY SECRET_KEY].
    rewrite (proj2 (G "ACCESS_KEY" (Hin "ACCESS_KEY" ltac:(repeat constructor)))),
      (proj2 (G "SECRET_KEY" (Hin "SECRET_KEY" ltac:(repeat constructor)))).
    reflexivity. }
  repeat split; try (apply G, Hin; repeat constructor); [exact Hh| |].
  - intros rt ub endpoint payload w. unfold new_requests.
    rewrite (post_signed rt _ ub endpoint payload w Hh). cbn [snd w_sent].
    rewrite drop_app_length. eexists. split; reflexivity.
  - intros rt w. unfold new_requests, get_enums, session_send. cbn [snd w_sent].
    rewrite drop_app_length. reflexivity.
Qed.

Lemma X2_verified_environment_signs_every_post_witness :
  hmac (SwgohComlink_init
          (mkEnv "v-ACCESS_KEY" "v-SECRET_KEY" "v-COMLINK_URL" "v-STATS_URL"
                 "v-ENVIRONMENT_MODE")) = true
  /\ new_requests
       (get_enums (Demo.runtime (Ok JNull))
          (SwgohComlink_init
             (mkEnv "v-ACCESS_KEY" "v-SECRET_KEY" "v-COMLINK_URL" "v-STATS_URL"
                    "v-ENVIRONMENT_MODE")))
       Demo.world0
     = [mkRequest GET "v-COMLINK_URL/enums" None []].
Proof.
  destruct (X2_verified_environment_signs_every_post (fun v => Some ("v-" +:+ v))
              (mkEnv "v-ACCESS_KEY" "v-SECRET_KEY" "v-COMLINK_URL" "v-STATS_URL"
                     "v-ENVIRONMENT_MODE") eq_refl) as (_ & _ & _ & _ & _ & H & _ & He).
  split; [exact H|]. apply (He (Demo.runtime (Ok JNull)) Demo.world0).
Defined.

(** X3. [Env()] fails on the first annotated variable, in the order of the
    class body, that is unset or empty, and its error names that variable;
    variables further down are not looked at. *)
Theorem X3_environment_error_names_first_unset :
  forall (getenv : string -> option string) (pre : list string) (var : string)
         (post : list string),
    Env_annotations = pre ++ var :: post ->
    Forall (fun v => Py.truthy_str (getenv v) = true) pre ->
    Py.truthy_str (getenv var) = false ->
    Env_init getenv
    = Raise (ValueError ("Environment variable " +:+ var +:+ " is not set.")).
Proof.
  intros getenv pre var post Hs Hpre Hvar. unfold Env_init.
  rewrite Hs, (verify_env_first_unset getenv pre var post [] Hpre Hvar). reflexivity.
Qed.

Lemma X3_environment_error_names_first_unset_witness :
  Env_init (fun v => if String.eqb v "BOT_TOKEN" then Some ""
                     else if String.eqb v "STATS_URL" then None
                     else Some "set")
  = Raise (ValueError "Environment variable BOT_TOKEN is not set.").
Proof.
  apply (X3_environment_error_names_first_unset _ ["ACCESS_KEY"] "BOT_TOKEN"
           ["COMLINK_URL"; "ENVIRONMENT_MODE"; "JISHAKU_HIDE"; "JISHAKU_NO_DM_TRACEBACK";
            "JISHAKU_NO_UNDERSCORE"; "SECRET_KEY"; "STATS_URL"]).
  - reflexivity.
  - repeat constructor.
  - reflexivity.
Defined.

(** ** Where the requests go *)

(** The request of a client built by the constructor, spelled out. *)
Lemma post_init_request rt cfg ub endpoint payload w :
  exists headers,
    new_requests (_post rt (SwgohComlink_init cfg) ub endpoint payload) w
    = [mkRequest POST
         ((match ub with Some (String c s) => String c s | _ => COMLINK_URL cfg end)
          +:+ "/" +:+ format_opt endpoint)
         payload headers]
    /\ (hmac (SwgohComlink_init cfg) = true ->
        Dict.get headers "Authorization"
        = Some ("HMAC-SHA256 Credential=" +:+ ACCESS_KEY cfg +:+ ",Signature="
                +:+ hmac_digest (SECRET_KEY cfg)
                      (Py.str_of_int (rt_time_ms rt (w_clock_reads w))) endpoint payload)).
Proof.
  unfold new_requests. destruct (hmac (SwgohComlink_init cfg)) eqn:Hh.
  - rewrite (post_signed rt cfg ub endpoint payload w Hh). cbn [snd w_sent].
    rewrite drop_app_length. eexists. split; [reflexivity|]. intros _. reflexivity.
  - rewrite (post_unsigned rt _ ub endpoint payload w Hh). cbn [snd w_sent].
    rewrite drop_app_length. eexists. split; [reflexivity|]. discriminate.
Qed.

Lemma get_unit_stats_endpoint rt self request_payload flags language w :
  get_unit_stats rt self request_payload flags language w
  = _post rt self (Some (stats_url_base self))
      (Some (match
                (match flags with
                 | Some (f :: fs) => ["flags=" +:+ Py.join "," (f :: fs)]
                 | _ => []
                 end)
                ++ (match language with
                    | Some (String c s) => ["language=" +:+ String c s]
                    | _ => []
                    end)
              with
              | [] => "api"
              | _ =>
                  "api?" +:+ Py.join "&"
                    ((match flags with
                      | Some (f :: fs) => ["flags=" +:+ Py.join "," (f :: fs)]
                      | _ => []
                      end)
                     ++ (match language with
                         | Some (String c s) => ["language=" +:+ String c s]
                         | _ => []
                         end))
              end))
      (Some request_payload) w.
Proof.
  unfold get_unit_stats.
  destruct flags as [[|f fs]|], language as [[|c s]|]; reflexivity.
Qed.

(** X4. The stats request goes to [<stats base>/api], followed by a query
    string only when flags or a language are given: [?flags=a,b],
    [?language=xx] or [?flags=a,b&language=xx]; an empty list of flags and an
    empty language count as not given. The envelope is the caller's mapping
    as it is. With credentials the request is signed like any other, and the
    signed path is the endpoint with its query string. An empty stats base
    falls back to the Comlink base. *)
Theorem X4_unit_stats_request :
  forall (rt : Runtime) (cfg : Env) (request_payload : pydict)
         (flags : option (list string)) (language : option string) (w : World),
    let parts :=
      (match flags with
       | Some (f :: fs) => ["flags=" +:+ Py.join "," (f :: fs)]
       | _ => []
       end)
      ++ (match language with
          | Some (String c s) => ["language=" +:+ String c s]
          | _ => []
          end) in
    let endpoint :=
      match parts with
      | [] => "api"
      | _ => "api?" +:+ Py.join "&" parts
      end in
    let base :=
      match STATS_URL cfg with
      | EmptyString => COMLINK_URL cfg
      | u => u
      end in
    exists r,
      new_requests
        (get_unit_stats rt (SwgohComlink_init cfg) request_payload flags language) w = [r]
      /\ rq_method r = POST
      /\ rq_url r = base +:+ "/" +:+ endpoint
      /\ rq_json r = Some request_payload
      /\ (hmac (SwgohComlink_init cfg) = true ->
          Dict.get (rq_headers r) "Authorization"
          = Some ("HMAC-SHA256 Credential=" +:+ ACCESS_KEY cfg +:+ ",Signature="
                  +:+ hmac_digest (SECRET_KEY cfg)
                        (Py.str_of_int (rt_time_ms rt (w_clock_reads w)))
                        (Some endpoint) (Some request_payload))).
Proof.
  intros rt cfg request_payload flags language w parts endpoint base.
  subst parts endpoint base. unfold new_requests.
  rewrite (get_unit_stats_endpoint rt (SwgohComlink_init cfg) request_payload flags
             language w).
  match goal with
  | |- context [_post rt _ ?ub ?ep ?pl w] =>
      destruct (post_init_request rt cfg ub ep pl w) as (headers & Hr & Hs)
  end.
  eexists. split; [exact Hr|]. cbn [rq_method rq_url rq_json rq_headers].
  split; [reflexivity|]. split; [|split; [reflexivity|exact Hs]].
  cbn [SwgohComlink_init stats_url_base format_opt].
  destruct (STATS_URL cfg); reflexivity.
Qed.

(** X5. Called without a version, [get_game_data] does not look the latest
    version up: the coroutine that would fetch it is formatted into the
    payload without being awaited. One request goes out, to [/data] and not
    to [/metadata], and its [version] is the text of that coroutine object. *)
Theorem X5_game_data_default_version_is_not_resolved :
  forall (rt : Runtime) (cfg : Env) (include_pve_units : bool) (request_segment : Z)
         (enums : bool) (w : World),
    exists r,
      new_requests
        (get_game_data rt (SwgohComlink_init cfg) EmptyString include_pve_units
           request_segment enums) w = [r]
      /\ rq_url r = COMLINK_URL cfg +:+ "/data"
      /\ rq_json r
         = Some [("payload", JDict [("version", JStr (rt_coroutine_repr rt));
                                    ("includePveUnits", JBool include_pve_units);
                                    ("requestSegment", JInt request_segment)]);
                 ("enums", JBool enums)].
Proof.
  intros rt cfg include_pve_units request_segment enums w.
  destruct (post_init_request rt cfg None (Some "data")
              (Some [("payload", JDict [("version", JStr (rt_coroutine_repr rt));
                                        ("includePveUnits", JBool include_pve_units);
                                        ("requestSegment", JInt request_segment)]);
                     ("enums", JBool enums)]) w) as (headers & Hr & _).
  eexists. split; [exact Hr|]. split; reflexivity.
Qed.

Example unit_stats_urls :
  map rq_url
    (new_requests (get_unit_stats (Demo.runtime (Ok JNull)) Demo.client []
                     (Some ["gameStyle"; "calcGP"]) (Some "eng_us")) Demo.world0
     ++ new_requests (get_unit_stats (Demo.runtime (Ok JNull)) Demo.client []
                        (Some []) (Some "")) Demo.world0)
  = ["http://localhost:3223/api?flags=gameStyle,calcGP&language=eng_us";
     "http://localhost:3223/api"].
Proof. vm_compute. reflexivity. Qed.

(** ** Resolving the latest versions *)

#[local] Arguments _post : simpl never.
#[local] Arguments get_game_metadata : simpl never.

Lemma get_latest_run rt self w :
  get_latest_game_data_version rt self w
  = (match fst (get_game_metadata rt self [] false w) with
     | Ok md =>
         match subscript md "latestGamedataVersion" with
         | Ok game =>
             match subscript md "latestLocalizationBundleVersion" with
             | Ok language => Ok [("game", game); ("language", language)]
             | Raise e => Raise e
             end
         | Raise e => Raise e
         end
     | Raise e => Raise e
     end,
     snd (get_game_metadata rt self [] false w)).
Proof.
  unfold get_latest_game_data_version, bind, lift, ret.
  destruct (get_game_metadata rt self [] false w) as [[md|e] w1]; cbn [fst snd];
    [|reflexivity].
  destruct (subscript md "latestGamedataVersion"); [|reflexivity].
  destruct (subscript md "latestLocalizationBundleVersion"); reflexivity.
Qed.

(** X6. Asked for a bundle without an id, [get_localization] first fetches
    the metadata; when the answer is a mapping with both version keys, the
    localisation request that follows carries the bundle version of the
    metadata as its id. When the answer lacks the game-data version (which
    the bundle request does not need), the call ends with a KeyError of that
    key and no localisation request is made. *)
Theorem X6_localization_resolves_the_bundle_version :
  forall (rt : Runtime) (self : SwgohComlink) (id : json) (unzip enums : bool)
         (w : World) (md : pydict),
    Json.truthy id = false ->
    fst (get_game_metadata rt self [] false w) = Ok (JDict md) ->
    (forall game language,
        Dict.get md "latestGamedataVersion" = Some game ->
        Dict.get md "latestLocalizationBundleVersion" = Some language ->
        get_localization rt self id unzip enums w
        = _post rt self None (Some "localization")
            (Some [("unzip", JBool unzip); ("enums", JBool enums);
                   ("payload", JDict [("id", language)])])
            (snd (get_game_metadata rt self [] false w)))
    /\ (Dict.get md "latestGamedataVersion" = None ->
        get_localization rt self id unzip enums w
        = (Raise (KeyError "latestGamedataVersion"),
           snd (get_game_metadata rt self [] false w))).
Proof.
  intros rt self id unzip enums w md Hid Hmd.
  unfold get_localization. rewrite Hid. cbn [negb].
  split.
  - intros game language Hg Hl.
    unfold bind at 1 2. rewrite get_latest_run, Hmd. cbn [subscript].
    rewrite Hg. cbv beta iota. rewrite Hl. reflexivity.
  - intros Hg.
    unfold bind at 1 2. rewrite get_latest_run, Hmd. cbn [subscript].
    rewrite Hg. reflexivity.
Qed.

Lemma X6_localization_resolves_the_bundle_version_witness :
  map rq_json
    (new_requests (get_localization (Demo.runtime (Ok Demo.metadata)) Demo.client JNull
                     true false) Demo.world0)
  = [Some [];
     Some [("unzip", JBool true); ("enums", JBool false);
           ("payload", JDict [("id", JStr "en_v9")])]].
Proof.
  destruct (X6_localization_resolves_the_bundle_version (Demo.runtime (Ok Demo.metadata))
              Demo.client JNull true false Demo.world0
              [("latestGamedataVersion", JStr "1.2.3");
               ("latestLocalizationBundleVersion", JStr "en_v9")]
              eq_refl) as [H _].
  - vm_compute. reflexivity.
  - unfold new_requests.
    rewrite (H (JStr "1.2.3") (JStr "en_v9") eq_refl eq_refl).
    vm_compute. reflexivity.
Defined.

(** ** The pipeline when it goes through, and the second [on_ready] *)

Lemma pipeline_done_after_quiet w1 w2 w3 :
  quiet w1 w2 -> pipeline_done w2 w3 -> pipeline_done w1 w3.
Proof.
  intros (Hf1 & Hm1 & l1 & Hl1 & Hw1) (locale & m & l2 & Hp & Hm & Hf & Hl & Hw).
  exists locale, m, (l1 ++ l2). split; [exact Hp|]. split; [exact Hm|].
  split; [rewrite Hf, Hf1; reflexivity|]. split.
  - rewrite Hl, Hl1, <- !app_assoc. reflexivity.
  - apply Forall_app. split; assumption.
Qed.

Lemma pipeline_done_step {A} (m : M A) (k : A -> M unit) :
  Quiet m ->
  (forall a w1, fst (k a w1) = Ok tt -> pipeline_done w1 (snd (k a w1))) ->
  forall w, fst (bind m k w) = Ok tt -> pipeline_done w (snd (bind m k w)).
Proof.
  intros Hm Hk w. unfold bind. specialize (Hm w).
  destruct (m w) as [[a|e] w1]; cbn [fst snd] in *.
  - intros H. eapply pipeline_done_after_quiet; [exact Hm|apply Hk, H].
  - discriminate.
Qed.

(** X7. When the pipeline returns, the localisation map of the client is the
    parse of a text, the asset file holds the sorted, indented document of
    that same map (and no other file changed), and the log ends with the
    closing information entry, no warning having been logged on the way. *)
Theorem X7_pipeline_success_sets_map_and_file :
  forall (rt : Runtime) (self : SwgohComlink) (w : World),
    fst (create_localised_unit_name_dictionary rt self w) = Ok tt ->
    exists (locale : string) (m : gmap string string) l,
      parse_locale locale = Ok m
      /\ w_unit_name_map (snd (create_localised_unit_name_dictionary rt self w)) = Some m
      /\ w_files (snd (create_localised_unit_name_dictionary rt self w))
         = <[asset_path := Json.dumps_sorted_indent4 m]> (w_files w)
      /\ w_log (snd (create_localised_unit_name_dictionary rt self w))
         = w_log w ++ l
           ++ [("Comlink", LInfo, "Localisation dictionary created and saved to file.")]
      /\ Forall not_warning l.
Proof.
  intros rt self w. change (fst (create_localised_unit_name_dictionary rt self w) = Ok tt ->
                            pipeline_done w
                              (snd (create_localised_unit_name_dictionary rt self w))).
  unfold create_localised_unit_name_dictionary. revert w.
  do 14 (apply pipeline_done_step; [solve [auto with quiet]|intros ? ?]).
  unfold bind at 1. unfold lift at 1.
  match goal with
  | |- context [parse_locale ?t] =>
      rename t into locale; destruct (parse_locale locale) as [m|e] eqn:Hp
  end; [|discriminate].
  unfold bind, log, set_unit_name_map, write_file.
  destruct (rt_open_w rt asset_path) as [[]|e]; cbn; [|discriminate].
  intros _. exists locale, m, [("Comlink", LDebug, "Localisation dictionary created.")].
  split; [exact Hp|]. split; [reflexivity|]. split; [reflexivity|].
  split; [rewrite <- app_assoc; reflexivity|]. repeat constructor. discriminate.
Qed.

Lemma X7_pipeline_success_sets_map_and_file_witness :
  exists m,
    w_unit_name_map
      (snd (create_localised_unit_name_dictionary Demo.runtime_ok Demo.client Demo.world0))
    = Some m
    /\ w_files
         (snd (create_localised_unit_name_dictionary Demo.runtime_ok Demo.client
                 Demo.world0)) !! asset_path
       = Some (Json.dumps_sorted_indent4 m).
Proof.
  destruct (X7_pipeline_success_sets_map_and_file Demo.runtime_ok Demo.client Demo.world0)
    as (locale & m & l & _ & Hm & Hf & _).
  - vm_compute. reflexivity.
  - exists m. split; [exact Hm|]. rewrite Hf. apply lookup_insert_eq.
Defined.

Lemma KeepsReady_ret {A} (a : A) : KeepsReady (ret a).
Proof. intros w. reflexivity. Qed.

Lemma KeepsReady_lift {A} (r : Result A) : KeepsReady (lift r).
Proof. intros w. reflexivity. Qed.

Lemma KeepsReady_log name lvl msg : KeepsReady (log name lvl msg).
Proof. intros w. reflexivity. Qed.

Lemma KeepsReady_set_map m : KeepsReady (set_unit_name_map m).
Proof. intros w. reflexivity. Qed.

Lemma KeepsReady_write_file rt path content : KeepsReady (write_file rt path content).
Proof. intros w. unfold write_file. destruct (rt_open_w rt path); reflexivity. Qed.

Lemma KeepsReady_bind {A B} (m : M A) (k : A -> M B) :
  KeepsReady m -> (forall a, KeepsReady (k a)) -> KeepsReady (bind m k).
Proof.
  intros Hm Hk w. unfold bind. specialize (Hm w).
  destruct (m w) as [[a|e] w1]; cbn [snd] in *; [|exact Hm].
  rewrite (Hk a w1). exact Hm.
Qed.

Lemma KeepsReady_post rt self ub endpoint payload :
  KeepsReady (_post rt self ub endpoint payload).
Proof.
  intros w. destruct (post_frame rt self ub endpoint payload w) as (_ & _ & H & _).
  exact H.
Qed.

Lemma KeepsReady_get_latest rt self : KeepsReady (get_latest_game_data_version rt self).
Proof.
  unfold get_latest_game_data_version.
  apply KeepsReady_bind;
    [unfold get_game_metadata; cbv zeta; apply KeepsReady_post|intros ?].
  apply KeepsReady_bind; [apply KeepsReady_lift|intros ?].
  apply KeepsReady_bind; [apply KeepsReady_lift|intros ?].
  apply KeepsReady_ret.
Qed.

Lemma KeepsReady_get_localization rt self id unzip enums :
  KeepsReady (get_localization rt self id unzip enums).
Proof.
  unfold get_localization.
  apply KeepsReady_bind; [|intros ?; apply KeepsReady_post].
  destruct (negb (Json.truthy id)); [|apply KeepsReady_ret].
  apply KeepsReady_bind; [apply KeepsReady_get_latest|intros ?; apply KeepsReady_lift].
Qed.

Create HintDb ready.
#[local] Hint Resolve KeepsReady_ret KeepsReady_lift KeepsReady_log KeepsReady_set_map
  KeepsReady_write_file KeepsReady_post KeepsReady_get_latest
  KeepsReady_get_localization : ready.

Lemma KeepsReady_pipeline rt self :
  KeepsReady (create_localised_unit_name_dictionary rt self).
Proof.
  unfold create_localised_unit_name_dictionary.
  repeat (apply KeepsReady_bind; [solve [auto with ready]|intros ?]).
  auto with ready.
Qed.

(** X8. Whatever the outcome of [on_ready], the bot is marked ready after it;
    a later [on_ready] therefore only logs the reconnection, at the level
    critical: it sends nothing, reads no clock, writes no file and leaves the
    localisation map as the first call left it. A pipeline that failed on
    the first connection is not run again. *)
Theorem X8_second_on_ready_only_logs :
  forall (rt : Runtime) (bot : ThrawnsGambit) (w : World),
    let w1 := snd (on_ready rt bot w) in
    w_is_ready w1 = true
    /\ on_ready rt bot w1
       = (Ok tt,
          mkWorld (w_sent w1) (w_clock_reads w1)
                  (w_log w1 ++ [("bot", LCritical, "Bot reconnected to discord gateway")])
                  (w_files w1) true (w_unit_name_map w1)).
Proof.
  intros rt bot w w1.
  assert (Hr : w_is_ready w1 = true).
  { subst w1. destruct (w_is_ready w) eqn:E.
    - unfold on_ready, bind, get_is_ready, log. rewrite E. exact E.
    - rewrite (on_ready_first rt bot w E), KeepsReady_pipeline. reflexivity. }
  split; [exact Hr|].
  unfold on_ready, bind, get_is_ready, log. cbv beta iota.
  rewrite Hr. cbv beta iota. rewrite Hr. reflexivity.
Qed.

Example on_ready_twice_after_failure :
  let rt := Demo.runtime (Raise (External "aiohttp.ClientConnectorError")) in
  let bot := mkBot "Thrawn#0001" Demo.client in
  let w1 := snd (on_ready rt bot Demo.world0) in
  fst (on_ready rt bot w1) = Ok tt
  /\ length (w_sent w1) = 1%nat
  /\ new_requests (on_ready rt bot) w1 = []
  /\ w_unit_name_map (snd (on_ready rt bot w1)) = None.
Proof. vm_compute. auto. Qed.

(** ** What the parser keeps *)

Lemma split_nonempty c s : Py.split c s <> [].
Proof.
  destruct s as [|a s]; [discriminate|]. cbn [Py.split].
  destruct (Ascii.eqb a c); [discriminate|]. destruct (Py.split c s); discriminate.
Qed.

Lemma split_one c s b : Py.split c s = [b] -> s = b /\ Py.contains c s = false.
Proof.
  revert b. induction s as [|x s IH]; intros b H.
  - injection H as <-. split; reflexivity.
  - cbn [Py.split Py.contains] in *. destruct (Ascii.eqb x c).
    + injection H as _ H. destruct (split_nonempty c s H).
    + destruct (Py.split c s) as [|h t] eqn:E; [destruct (split_nonempty c s E)|].
      injection H as <- ->. destruct (IH h eq_refl) as [-> Hc].
      split; [reflexivity|exact Hc].
Qed.

Lemma split_two c s a b :
  Py.split c s = [a; b] ->
  s = a +:+ String c b /\ Py.contains c a = false /\ Py.contains c b = false.
Proof.
  revert a. induction s as [|x s IH]; intros a H; [discriminate|].
  cbn [Py.split] in H. destruct (Ascii.eqb x c) eqn:E.
  - injection H as <- H. apply Ascii.eqb_eq in E. subst x.
    destruct (split_one c s b H) as [-> Hc]. repeat split; assumption.
  - destruct (Py.split c s) as [|h t] eqn:Es; [destruct (split_nonempty c s Es)|].
    injection H as <- ->. destruct (IH h eq_refl) as (-> & Ha & Hb).
    repeat split; [|exact Hb]. cbn [Py.contains]. rewrite E. exact Ha.
Qed.

Lemma partition_app c a b :
  Py.contains c a = false -> Py.partition c (a +:+ String c b) = (a, b).
Proof.
  induction a as [|x a IH]; intros H.
  - cbn [Py.partition String.append]. rewrite str_app_nil_l. cbn [Py.partition].
    rewrite Ascii.eqb_refl. reflexivity.
  - cbn [Py.contains] in H. apply orb_false_elim in H as [Hx Ha].
    rewrite str_app_cons. cbn [Py.partition]. rewrite Hx, (IH Ha). reflexivity.
Qed.

Lemma contains_app c a b : Py.contains c (a +:+ String c b) = true.
Proof.
  induction a as [|x a IH].
  - rewrite str_app_nil_l. cbn [Py.contains]. rewrite Ascii.eqb_refl. reflexivity.
  - rewrite str_app_cons. cbn [Py.contains]. rewrite IH. apply orb_true_r.
Qed.

Lemma startswith_app p s : Py.startswith (p +:+ s) p = true.
Proof.
  induction p as [|x p IH]; [destruct s; reflexivity|].
  rewrite str_app_cons. cbn [Py.startswith]. rewrite Ascii.eqb_refl. exact IH.
Qed.

(** One turn of the loop that does not raise either leaves the map as it is
    or inserts the key and the description of a line of the kept form. *)
Lemma parse_line_inv (m m' : gmap string string) (line : string) :
  Py.contains Py.newline line = false ->
  parse_line m line = Ok m' ->
  m' = m
  \/ exists k d,
       line = k +:+ String "|" d /\ m' = <[k := d]> m
       /\ Py.startswith k "UNIT_" = true /\ Py.endswith k "_NAME" = true
       /\ Py.contains "|" k = false /\ Py.contains "|" d = false.
Proof.
  intros Hn. unfold parse_line. rewrite (rstrip_id _ _ Hn).
  destruct (Py.startswith line "#"); [intros [= <-]; left; reflexivity|].
  destruct (Py.contains "|" line) eqn:Hs; cbn [negb];
    [|intros [= <-]; left; reflexivity].
  destruct (Py.startswith line "UNIT_") eqn:Hu; [|intros [= <-]; left; reflexivity].
  destruct (Py.split "|" line) as [|a [|b [|c rest]]] eqn:E; try discriminate.
  destruct (Py.endswith a "_NAME") eqn:He; intros [= <-]; [|left; reflexivity].
  right. destruct (split_two _ _ _ _ E) as (Hl & Ha & Hb).
  exists a, b. repeat split; try assumption.
  rewrite (startswith_key "|" "UNIT_" line eq_refl Hs) in Hu.
  rewrite Hl, (partition_app _ _ _ Ha) in Hu. exact Hu.
Qed.

Lemma parse_lines_sound (m0 m : gmap string string) (lines : list string) :
  Forall (fun l => Py.contains Py.newline l = false) lines ->
  parse_lines m0 lines = Ok m ->
  forall k d,
    m !! k = Some d ->
    m0 !! k = Some d
    \/ (In (k +:+ String "|" d) lines
        /\ Py.startswith k "UNIT_" = true /\ Py.endswith k "_NAME" = true
        /\ Py.contains "|" k = false /\ Py.contains "|" d = false).
Proof.
  revert m0. induction lines as [|l lines IH]; intros m0 Hn H k d Hk.
  - injection H as <-. left. exact Hk.
  - inversion Hn as [|? ? Hn1 Hn2]; subst. cbn [parse_lines] in H.
    destruct (parse_line m0 l) as [m1|e] eqn:E; [|discriminate].
    destruct (IH m1 Hn2 H k d Hk) as [H1|(Hin & Hrest)].
    + destruct (parse_line_inv m0 m1 l Hn1 E) as [->|(k' & d' & Hl & -> & Hp)];
        [left; exact H1|].
      destruct (decide (k' = k)) as [->|Hne].
      * rewrite lookup_insert_eq in H1. injection H1 as ->.
        right. split; [left; exact Hl|exact Hp].
      * rewrite lookup_insert_ne in H1 by exact Hne. left. exact H1.
    + right. split; [right; exact Hin|exact Hrest].
Qed.

(** X9. Every entry of the map the parser returns comes from a line of the
    text: the line is the key, one separator and the description; the key
    begins with UNIT_ and ends with _NAME; and neither the key nor the
    description holds a separator. *)
Theorem X9_parsed_entries_come_from_lines :
  forall (locale : string) (m : gmap string string) (k d : string),
    parse_locale locale = Ok m ->
    m !! k = Some d ->
    In (k +:+ String "|" d) (Py.split Py.newline locale)
    /\ Py.startswith k "UNIT_" = true /\ Py.endswith k "_NAME" = true
    /\ Py.contains "|" k = false /\ Py.contains "|" d = false.
Proof.
  intros locale m k d Hp Hk.
  destruct (parse_lines_sound ∅ m (Py.split Py.newline locale)
              (split_pieces_clean _ _) Hp k d Hk) as [H|H]; [|exact H].
  rewrite lookup_empty in H. discriminate.
Qed.

Lemma X9_parsed_entries_come_from_lines_witness :
  In "UNIT_BB8_NAME|BB-8" (Py.split Py.newline Demo.locale_text).
Proof.
  apply (X9_parsed_entries_come_from_lines Demo.locale_text
           (<["UNIT_BB8_NAME" := "BB-8"]> (<["UNIT_REYNOLDS_NAME" := "Rey"]> ∅))
           "UNIT_BB8_NAME" "BB-8").
  - vm_compute. reflexivity.
  - vm_compute. reflexivity.
Defined.

Lemma parse_lines_app (m : gmap string string) (l1 l2 : list string) :
  parse_lines m (l1 ++ l2)
  = match parse_lines m l1 with
    | Ok m1 => parse_lines m1 l2
    | Raise e => Raise e
    end.
Proof.
  revert m. induction l1 as [|l l1 IH]; intros m; [reflexivity|].
  cbn [app parse_lines]. destruct (parse_line m l); [apply IH|reflexivity].
Qed.

Lemma parse_lines_keeps (m0 m : gmap string string) (lines : list string) (k : string) :
  Forall (fun l => Py.contains Py.newline l = false) lines ->
  Forall (fun l => Py.startswith l (k +:+ "|") = false) lines ->
  parse_lines m0 lines = Ok m ->
  m !! k = m0 !! k.
Proof.
  revert m0. induction lines as [|l lines IH]; intros m0 Hn Hk H.
  - injection H as <-. reflexivity.
  - inversion Hn as [|? ? Hn1 Hn2]; inversion Hk as [|? ? Hk1 Hk2]; subst.
    cbn [parse_lines] in H.
    destruct (parse_line m0 l) as [m1|e] eqn:E; [|discriminate].
    rewrite (IH m1 Hn2 Hk2 H).
    destruct (parse_line_inv m0 m1 l Hn1 E) as [->|(k' & d' & Hl & -> & _)];
      [reflexivity|].
    destruct (decide (k' = k)) as [->|Hne].
    + exfalso. rewrite Hl in Hk1.
      change (k +:+ String "|" d') with (k +:+ ("|" +:+ d')) in Hk1.
      rewrite <- str_app_assoc, startswith_app in Hk1. discriminate.
    + apply lookup_insert_ne. exact Hne.
Qed.

(** X10. The last line of a key decides: when the parse goes through, a line
    of the kept form (key beginning with UNIT_ and ending with _NAME, one
    separator) that no later line of the same key follows gives the entry of
    the map for its key, whatever earlier lines said. *)
Theorem X10_last_line_of_a_key_wins :
  forall (locale : string) (m : gmap string string) (pre post : list string)
         (k d : string),
    parse_locale locale = Ok m ->
    Py.split Py.newline locale = pre ++ (k +:+ String "|" d) :: post ->
    Py.startswith k "UNIT_" = true -> Py.endswith k "_NAME" = true ->
    Py.contains "|" k = false -> Py.contains "|" d = false ->
    Forall (fun l => Py.startswith l (k +:+ "|") = false) post ->
    m !! k = Some d.
Proof.
  intros locale m pre post k d Hp Hs Hu He Hk Hd Hpost.
  pose proof (split_pieces_clean Py.newline locale) as Hn. rewrite Hs in Hn.
  apply Forall_app in Hn as [_ Hn]. inversion Hn as [|? ? Hn1 Hn2]; subst.
  unfold parse_locale in Hp. rewrite Hs, parse_lines_app in Hp.
  destruct (parse_lines ∅ pre) as [m1|e]; [|discriminate].
  cbn [parse_lines] in Hp.
  assert (Hu' : Py.startswith (k +:+ String "|" d) "UNIT_" = true).
  { rewrite (startswith_key "|" "UNIT_" _ eq_refl (contains_app _ _ _)),
      (partition_app _ _ _ Hk). exact Hu. }
  assert (E : parse_line m1 (k +:+ String "|" d) = Ok (<[k := d]> m1)).
  { rewrite (parse_line_single_separator m1 _ Hn1)
      by (rewrite (partition_app _ _ _ Hk); exact Hd).
    unfold spec_parse_line.
    destruct (Py.startswith (k +:+ String "|" d) "#") eqn:Hc;
      [rewrite (comment_is_no_unit _ Hc) in Hu'; discriminate|].
    rewrite contains_app, (partition_app _ _ _ Hk). cbn [negb fst snd].
    rewrite Hu, He. reflexivity. }
  rewrite E in Hp. rewrite (parse_lines_keeps _ _ _ k Hn2 Hpost Hp).
  apply lookup_insert_eq.
Qed.

Lemma X10_last_line_of_a_key_wins_witness :
  exists m,
    parse_locale ("UNIT_BB8_NAME|Beebee" +:+ String Py.newline
                    ("UNIT_BB8_NAME|BB-8" +:+ String Py.newline "UNIT_BB8_TITLE|Droid"))
    = Ok m
    /\ m !! "UNIT_BB8_NAME" = Some "BB-8".
Proof.
  destruct (parse_locale
              ("UNIT_BB8_NAME|Beebee" +:+ String Py.newline
                 ("UNIT_BB8_NAME|BB-8" +:+ String Py.newline "UNIT_BB8_TITLE|Droid")))
    as [m|e] eqn:H; [|vm_compute in H; discriminate H].
  exists m. split; [reflexivity|].
  apply (X10_last_line_of_a_key_wins _ m ["UNIT_BB8_NAME|Beebee"] ["UNIT_BB8_TITLE|Droid"]
           "UNIT_BB8_NAME" "BB-8" H); try reflexivity.
  repeat constructor.
Defined.

(** ** Divisions, leagues and the leaderboard request *)

Lemma str_of_int_length_one (n : Z) :
  String.length (Py.str_of_int n) = 1%nat <-> 0 <= n <= 9.
Proof.
  split.
  - unfold Py.str_of_int. intros H. pose proof (DecimalZ.of_to n) as E.
    destruct (Z.to_int n) as [u|u].
    + destruct u as [|u|u|u|u|u|u|u|u|u|u];
        try (destruct u; cbn in H; try discriminate H; cbn in E; lia).
      cbn in E. lia.
    + cbn in H. destruct u; cbn in H; discriminate H.
  - revert n. apply one_digit. repeat constructor.
Qed.

Lemma integer_division_translation (n : Z) :
  translate_division (Some (AInt n))
  = if (1 <=? n) && (n <=? 5) then Ok (Some (AInt (30 - 5 * n)))
    else if (0 <=? n) && (n <=? 9) then Raise (KeyError (Py.str_of_int n))
    else Ok (Some (AInt n)).
Proof.
  destruct (decide (0 <= n <= 9)) as [H|H].
  - revert n H. apply one_digit. repeat constructor.
  - unfold translate_division.
    assert (L : (String.length (Py.str_of_int n) =? 1)%nat = false).
    { apply Nat.eqb_neq. intros E. apply H, str_of_int_length_one, E. }
    rewrite L.
    replace ((1 <=? n) && (n <=? 5)) with false by lia.
    replace ((0 <=? n) && (n <=? 9)) with false by lia.
    reflexivity.
Qed.

(** X11. What [get_leaderboard] makes of an integer division: the ordinals 1
    to 5 become the codes 25, 20, 15, 10 and 5; the other one-digit integers
    (0 and 6 to 9) raise a KeyError of their digit; every other integer,
    negative ones and the two-digit codes included, is passed on unchanged. *)
Theorem X11_integer_division_translation :
  forall n : Z,
    translate_division (Some (AInt n))
    = if (1 <=? n) && (n <=? 5) then Ok (Some (AInt (30 - 5 * n)))
      else if (0 <=? n) && (n <=? 9) then Raise (KeyError (Py.str_of_int n))
      else Ok (Some (AInt n)).
Proof. exact integer_division_translation. Qed.

Lemma division_codes k c :
  Dict.get divisions k = Some c -> c = 25 \/ c = 20 \/ c = 15 \/ c = 10 \/ c = 5.
Proof.
  unfold divisions. cbn [Dict.literal fold_left Dict.set fst snd String.eqb Ascii.eqb
                         Bool.eqb Dict.get].
  repeat match goal with
         | |- context [if ?b then _ else _] => destruct b
         end; intros [= <-] || discriminate; auto 10.
Qed.

(** X12. The translations are idempotent: what they return, they accept and
    return unchanged. A caller may therefore pass the numeric codes of the
    docstring (leagues 20 to 100, divisions 5 to 25) as well as names and
    ordinals. *)
Theorem X12_translations_are_idempotent :
  forall (league division league1 division1 : option StrOrInt),
    (translate_league league = Ok league1 -> translate_league league1 = Ok league1)
    /\ (translate_division division = Ok division1 ->
        translate_division division1 = Ok division1).
Proof.
  intros league division league1 division1. split.
  - destruct league as [[s|n]|]; cbn [translate_league]; try (intros [= <-]; reflexivity).
    destruct (table_lookup leagues (Py.lower s)); intros [= <-]. reflexivity.
  - assert (Codes : forall c, c = 25 \/ c = 20 \/ c = 15 \/ c = 10 \/ c = 5 ->
                              translate_division (Some (AInt c)) = Ok (Some (AInt c))).
    { intros c C. repeat (destruct C as [->|C]; [reflexivity|]). subst c. reflexivity. }
    destruct division as [[s|n]|].
    + unfold translate_division, table_lookup.
      destruct (Dict.get divisions (Py.lower s)) as [c|] eqn:E; intros [= <-].
      apply Codes, (division_codes _ _ E).
    + rewrite integer_division_translation.
      destruct ((1 <=? n) && (n <=? 5)) eqn:E1.
      * intros [= <-]. apply Codes. lia.
      * destruct ((0 <=? n) && (n <=? 9)) eqn:E2; intros [= <-].
        rewrite integer_division_translation, E1, E2. reflexivity.
    + intros [= <-]. reflexivity.
Qed.

Lemma get_leaderboard_division_error rt self ty league league1 division ev grp enums w e :
  translate_league league = Ok league1 ->
  translate_division division = Raise e ->
  get_leaderboard rt self ty league division ev grp enums w = (Raise e, w).
Proof.
  intros Hl Hd. unfold get_leaderboard, bind, lift. rewrite Hl, Hd. reflexivity.
Qed.

(** X13. Whatever the leaderboard type, also for the types that use neither
    value, [get_leaderboard] translates league and division before anything
    else: a client built by the constructor sends its request exactly when
    both translations succeed; otherwise the call ends with the error of the
    league, or else of the division, and the world is as before. *)
Theorem X13_leaderboard_request_iff_translations_succeed :
  forall (rt : Runtime) (cfg : Env) (ty : Z) (league division : option StrOrInt)
         (ev grp : option string) (enums : bool) (w : World),
    (new_requests (get_leaderboard rt (SwgohComlink_init cfg) ty league division ev grp
                     enums) w = []
     <-> (exists e, translate_league league = Raise e)
         \/ (exists e, translate_division division = Raise e))
    /\ (forall e, translate_league league = Raise e ->
                  get_leaderboard rt (SwgohComlink_init cfg) ty league division ev grp
                    enums w = (Raise e, w))
    /\ (forall league1 e,
           translate_league league = Ok league1 ->
           translate_division division = Raise e ->
           get_leaderboard rt (SwgohComlink_init cfg) ty league division ev grp enums w
           = (Raise e, w)).
Proof.
  intros rt cfg ty league division ev grp enums w.
  split; [|split].
  - destruct (translate_league league) as [l1|e1] eqn:Hl.
    + destruct (translate_division division) as [d1|e2] eqn:Hd.
      * split.
        -- intros H. unfold new_requests in H.
           rewrite (get_leaderboard_translated _ _ _ _ _ _ _ _ _ _ _ Hl Hd) in H.
           destruct (post_init_sends rt cfg None (Some "getLeaderboard")
                       (Some (leaderboard_payload ty l1 d1 ev grp enums)) w)
             as (r & Hr & _).
           unfold new_requests in Hr. rewrite Hr in H. discriminate H.
        -- intros [[e H]|[e H]]; discriminate H.
      * split; [intros _; right; eauto|]. intros _. unfold new_requests.
        rewrite (get_leaderboard_division_error _ _ _ _ _ _ _ _ _ _ _ Hl Hd).
        apply drop_all.
    + split; [intros _; left; eauto|]. intros _. unfold new_requests.
      rewrite (get_leaderboard_league_error _ _ _ _ _ _ _ _ _ _ Hl). apply drop_all.
  - intros e Hl. apply get_leaderboard_league_error, Hl.
  - intros league1 e Hl Hd. eapply get_leaderboard_division_error; eassumption.
Qed.

Example leaderboard_type4_bad_league :
  get_leaderboard (Demo.runtime (Ok JNull)) Demo.client 4 (Some (AStr "Kyber1"))
    (Some (AInt 7)) (Some "EVENT:O1") (Some "EVENT:O1:KYBER:0") false Demo.world0
  = (Raise (KeyError "kyber1"), Demo.world0).
Proof. reflexivity. Qed.

(** ** Keyword arguments under [param_alias] *)

Lemma dict_get_set_eq {A} (d : list (string * A)) k v : Dict.get (Dict.set d k v) k = Some v.
Proof.
  induction d as [|[k' v'] d IH]; cbn [Dict.set Dict.get].
  - rewrite String.eqb_refl. reflexivity.
  - destruct (String.eqb k' k) eqn:E; cbn [Dict.get]; rewrite E; [reflexivity|exact IH].
Qed.

Lemma dict_get_set_ne {A} (d : list (string * A)) k k' v :
  k <> k' -> Dict.get (Dict.set d k v) k' = Dict.get d k'.
Proof.
  intros Hne. induction d as [|[k0 v0] d IH]; cbn [Dict.set Dict.get].
  - destruct (String.eqb k k') eqn:E; [apply String.eqb_eq in E; contradiction|reflexivity].
  - destruct (String.eqb k0 k) eqn:E; cbn [Dict.get].
    + apply String.eqb_eq in E. subst k0.
      destruct (String.eqb k k') eqn:E'; [apply String.eqb_eq in E'; contradiction|].
      reflexivity.
    + destruct (String.eqb k0 k'); [reflexivity|exact IH].
Qed.

Lemma dict_get_del_eq {A} (d : list (string * A)) k : Dict.get (dict_del d k) k = None.
Proof.
  induction d as [|[k' v'] d IH]; [reflexivity|]. cbn [dict_del].
  destruct (String.eqb k' k) eqn:E; [exact IH|]. cbn [Dict.get]. rewrite E. exact IH.
Qed.

Lemma dict_get_del_ne {A} (d : list (string * A)) k k' :
  k <> k' -> Dict.get (dict_del d k) k' = Dict.get d k'.
Proof.
  intros Hne. induction d as [|[k0 v0] d IH]; [reflexivity|]. cbn [dict_del Dict.get].
  destruct (String.eqb k0 k) eqn:E.
  - apply String.eqb_eq in E. subst k0.
    destruct (String.eqb k k') eqn:E'; [apply String.eqb_eq in E'; contradiction|exact IH].
  - cbn [Dict.get]. destruct (String.eqb k0 k'); [reflexivity|exact IH].
Qed.

(** X14. Under [param_alias(param, alias)], keyword arguments with a true
    value under the alias reach the function with that value under the
    parameter (replacing a value passed under the parameter itself), without
    the alias, and with every other argument as it was. Keyword arguments
    without the alias, or with a false value under it, reach the function
    unchanged: an alias passed as false is handed on under its own name. *)
Theorem X14_alias_replaces_the_parameter :
  forall (param alias : string) (kwargs : pydict),
    param <> alias ->
    (forall v, Dict.get kwargs alias = Some v -> Json.truthy v = true ->
               Dict.get (wrapper param alias kwargs) param = Some v
               /\ Dict.get (wrapper param alias kwargs) alias = None
               /\ forall k, k <> param -> k <> alias ->
                            Dict.get (wrapper param alias kwargs) k = Dict.get kwargs k)
    /\ (Dict.get kwargs alias = None -> wrapper param alias kwargs = kwargs)
    /\ (forall v, Dict.get kwargs alias = Some v -> Json.truthy v = false ->
                  wrapper param alias kwargs = kwargs
                  /\ Dict.get (wrapper param alias kwargs) alias = Some v).
Proof.
  intros param alias kwargs Hne. unfold wrapper. split; [|split].
  - intros v Hv Ht. rewrite Hv, Ht. split; [|split].
    + rewrite dict_get_del_ne by congruence. apply dict_get_set_eq.
    + apply dict_get_del_eq.
    + intros k Hp Ha. rewrite dict_get_del_ne by congruence.
      apply dict_get_set_ne. congruence.
  - intros Hv. rewrite Hv. reflexivity.
  - intros v Hv Ht. rewrite Hv, Ht. split; [reflexivity|exact Hv].
Qed.

Lemma X14_alias_replaces_the_parameter_witness :
  wrapper "include_recent_guild_activity_info" "includeRecent"
    [("guild_id", JStr "gUiLdId"); ("include_recent_guild_activity_info", JBool false);
     ("includeRecent", JBool true)]
  = [("guild_id", JStr "gUiLdId"); ("include_recent_guild_activity_info", JBool true)]
  /\ Dict.get
       (wrapper "include_recent_guild_activity_info" "includeRecent"
          [("guild_id", JStr "gUiLdId"); ("includeRecent", JBool false)])
       "includeRecent" = Some (JBool false).
Proof.
  split; [reflexivity|].
  destruct (X14_alias_replaces_the_parameter "include_recent_guild_activity_info"
              "includeRecent"
              [("guild_id", JStr "gUiLdId"); ("includeRecent", JBool false)])
    as (_ & _ & H).
  - discriminate.
  - apply (H (JBool false)); reflexivity.
Defined.

(** ** Ally codes and profile links *)

Lemma str_length_app (a b : string) :
  String.length (a +:+ b) = (String.length a + String.length b)%nat.
Proof. induction a as [|c a IH]; [reflexivity|]. rewrite str_app_cons. cbn [String.length]. rewrite IH. reflexivity. Qed.

Lemma consumed_app a b : Re.consumed (a +:+ b) b = a.
Proof.
  unfold Re.consumed. rewrite str_length_app.
  replace (String.length a + String.length b - String.length b)%nat with (String.length a) by lia.
  induction a as [|c a IH]; [destruct b; reflexivity|].
  rewrite str_app_cons. cbn [String.length String.substring]. rewrite IH. reflexivity.
Qed.

Lemma match_at_start r s :
  Re.re_match (Re.Seq Re.Start r) s = Re.run s r s [] (fun _ caps => Some caps).
Proof. unfold Re.re_match. cbn [Re.run]. rewrite Nat.eqb_refl. reflexivity. Qed.

Lemma run_digits_read {A} n whole ds rest caps (k : string -> list (nat * string) -> option A) :
  length ds = n -> forallb Re.is_digit ds = true ->
  Re.run whole (Re.times n Re.Digit) (text ds +:+ rest) caps k = k rest caps.
Proof.
  revert ds. induction n as [|n IH]; intros [|d ds] Hl Hd; try discriminate Hl.
  - reflexivity.
  - cbn [forallb] in Hd. apply andb_prop in Hd as [Hd1 Hd2].
    cbn [Re.times Re.run text]. rewrite str_app_cons, Hd1. apply IH; [|exact Hd2].
    now injection Hl.
Qed.

Lemma run_digits_inv {A} n whole s caps (k : string -> list (nat * string) -> option A) x :
  Re.run whole (Re.times n Re.Digit) s caps k = Some x ->
  exists ds rest, length ds = n /\ forallb Re.is_digit ds = true
                  /\ s = text ds +:+ rest /\ k rest caps = Some x.
Proof.
  revert s. induction n as [|n IH]; intros s H.
  - exists [], s. repeat split; assumption.
  - cbn [Re.times Re.run] in H. destruct s as [|a s]; [discriminate H|].
    destruct (Re.is_digit a) eqn:Ha; [|discriminate H].
    apply IH in H as (ds & rest & Hl & Hd & Hs & Hk).
    exists (a :: ds), rest. cbn [length forallb text]. rewrite Ha, Hl, Hs, Hd, str_app_cons.
    repeat split. exact Hk.
Qed.

Lemma run_lit_read {A} p whole rest caps (k : string -> list (nat * string) -> option A) :
  Re.run whole (Re.lit p) (p +:+ rest) caps k = k rest caps.
Proof.
  induction p as [|c p IH]; [reflexivity|].
  cbn [Re.lit Re.run]. rewrite str_app_cons, Ascii.eqb_refl. exact IH.
Qed.

Lemma run_lit_inv {A} p whole s caps (k : string -> list (nat * string) -> option A) x :
  Re.run whole (Re.lit p) s caps k = Some x ->
  exists rest, s = p +:+ rest /\ k rest caps = Some x.
Proof.
  revert s. induction p as [|c p IH]; intros s H.
  - exists s. split; [reflexivity|exact H].
  - cbn [Re.lit Re.run] in H. destruct s as [|a s]; [discriminate H|].
    destruct (Ascii.eqb a c) eqn:E; [|discriminate H]. apply Ascii.eqb_eq in E. subst a.
    apply IH in H as (rest & Hs & Hk). exists rest. rewrite Hs, str_app_cons. split; [reflexivity|exact Hk].
Qed.

Lemma run_end_inv {A} (s : string) (v : option A) x :
  match s with
  | EmptyString => v
  | String a EmptyString => if Ascii.eqb a Py.newline then v else None
  | _ => None
  end = Some x ->
  (s = EmptyString \/ s = String Py.newline EmptyString) /\ v = Some x.
Proof.
  destruct s as [|a [|b s]]; intros H; try discriminate H.
  - split; [left; reflexivity|exact H].
  - destruct (Ascii.eqb a Py.newline) eqn:E; [|discriminate H].
    apply Ascii.eqb_eq in E. subst a. split; [right; reflexivity|exact H].
Qed.

Lemma three l : length l = 3%nat -> exists a b c : ascii, l = [a; b; c].
Proof. destruct l as [|a [|b [|c [|d l]]]]; try discriminate. eauto. Qed.

Lemma nine_digits_stop_at_dash {A} whole a1 a2 a3 rest caps
    (k : string -> list (nat * string) -> option A) :
  Re.run whole (Re.times 9 Re.Digit) (String a1 (String a2 (String a3 (String "-" rest))))
    caps k = None.
Proof.
  cbn [Re.times Re.run].
  destruct (Re.is_digit a1), (Re.is_digit a2), (Re.is_digit a3); reflexivity.
Qed.

Lemma ally_code_spec :
  forall s : string,
    is_valid_ally_code s = true
    <-> exists (ds : list ascii) (nl : string),
          nine_digits ds
          /\ (nl = EmptyString \/ nl = String Py.newline EmptyString)
          /\ (s = text ds +:+ nl \/ s = dashed ds +:+ nl).
Proof.
  intros s. unfold is_valid_ally_code, ally_code_regex. rewrite match_at_start.
  generalize s at 1. intros whole.
  change (Re.times 2 ?r) with (Re.Seq r (Re.Seq r Re.Eps)).
  cbn [Re.run]. split.
  - destruct (Re.run whole (Re.times 9 Re.Digit) s [] _) as [x|] eqn:E9.
    + intros _. apply run_digits_inv in E9 as (ds & rest & Hl & Hd & Hs & Hk).
      apply run_end_inv in Hk as (Hnl & _).
      exists ds, rest. repeat split; auto.
    + clear E9. destruct (Re.run whole (Re.times 3 Re.Digit) s [] _) as [x|] eqn:E3; [|discriminate].
      intros _. apply run_digits_inv in E3 as (d1 & r1 & Hl1 & Hd1 & Hs1 & Hk).
      destruct r1 as [|a r1]; [discriminate Hk|].
      destruct (Ascii.eqb a "-") eqn:Ea; [|discriminate Hk]. apply Ascii.eqb_eq in Ea. subst a.
      apply run_digits_inv in Hk as (d2 & r2 & Hl2 & Hd2 & Hs2 & Hk).
      destruct r2 as [|a r2]; [discriminate Hk|].
      destruct (Ascii.eqb a "-") eqn:Ea; [|discriminate Hk]. apply Ascii.eqb_eq in Ea. subst a.
      apply run_digits_inv in Hk as (d3 & r3 & Hl3 & Hd3 & Hs3 & Hk).
      apply run_end_inv in Hk as (Hnl & _).
      exists (d1 ++ d2 ++ d3), r3. split; [|split; [exact Hnl|right]].
      * split; [rewrite !length_app; lia|]. rewrite !forallb_app, Hd1, Hd2, Hd3. reflexivity.
      * subst s r1 r2.
        apply three in Hl1 as (a1 & a2 & a3 & ->).
        apply three in Hl2 as (b1 & b2 & b3 & ->).
        apply three in Hl3 as (c1 & c2 & c3 & ->). reflexivity.
  - intros (ds & nl & [Hl Hd] & Hnl & [-> | ->]).
    + rewrite (run_digits_read 9 whole ds nl) by assumption.
      destruct Hnl as [-> | ->]; reflexivity.
    + destruct ds as [|a1 [|a2 [|a3 [|b1 [|b2 [|b3 [|c1 [|c2 [|c3 [|? ?]]]]]]]]]];
        try discriminate Hl. clear Hl.
      cbn [forallb] in Hd. repeat (apply andb_prop in Hd as [? Hd]). clear Hd.
      change (dashed [a1; a2; a3; b1; b2; b3; c1; c2; c3] +:+ nl)
        with (String a1 (String a2 (String a3 (String "-" (text [b1; b2; b3] +:+ String "-" (text [c1; c2; c3] +:+ nl)))))) at 1.
      rewrite nine_digits_stop_at_dash.
      change (dashed [a1; a2; a3; b1; b2; b3; c1; c2; c3] +:+ nl)
        with (text [a1; a2; a3] +:+ String "-" (text [b1; b2; b3] +:+ String "-" (text [c1; c2; c3] +:+ nl))).
      rewrite (run_digits_read 3 whole [a1; a2; a3]) by (cbn [forallb]; rewrite ?H, ?H0, ?H1; reflexivity).
      rewrite Ascii.eqb_refl.
      rewrite (run_digits_read 3 whole [b1; b2; b3]) by (cbn [forallb]; rewrite ?H2, ?H3, ?H4; reflexivity).
      rewrite Ascii.eqb_refl.
      rewrite (run_digits_read 3 whole [c1; c2; c3]) by (cbn [forallb]; rewrite ?H5, ?H6, ?H7; reflexivity).
      destruct Hnl as [-> | ->]; reflexivity.
Qed.

(** X15. Among the texts of code points below 256, [is_valid_ally_code]
    accepts exactly nine decimal digits, written in a row or in three groups
    of three joined by dashes, and the same followed by one line end, which
    the dollar of the pattern lets through. *)
Theorem X15_valid_ally_codes :
  forall s : string,
    is_valid_ally_code s = true
    <-> exists (ds : list ascii) (nl : string),
          nine_digits ds
          /\ (nl = EmptyString \/ nl = String Py.newline EmptyString)
          /\ (s = text ds +:+ nl \/ s = dashed ds +:+ nl).
Proof. exact ally_code_spec. Qed.

Example ally_code_examples :
  is_valid_ally_code "123456789" = true
  /\ is_valid_ally_code "123-456-789" = true
  /\ is_valid_ally_code ("123456789" +:+ String Py.newline EmptyString) = true
  /\ is_valid_ally_code "123-456789" = false
  /\ is_valid_ally_code "123456789 " = false
  /\ is_valid_ally_code "1234567890" = false.
Proof. repeat split; reflexivity. Qed.

Lemma str_app_nil_r (s : string) : s +:+ EmptyString = s.
Proof. induction s as [|c s IH]; [reflexivity|]. rewrite str_app_cons, IH. reflexivity. Qed.

Lemma swgoh_gg_link_spec url :
  is_swgoh_gg_link url = true
  <-> exists (ds : list ascii) (tail : string),
        nine_digits ds /\ url = "https://swgoh.gg/p/" +:+ text ds +:+ tail.
Proof.
  unfold is_swgoh_gg_link, swgoh_gg_regex, Re.re_match. cbn [Re.run]. split.
  - destruct (Re.run url _ url [] _) as [x|] eqn:E; [|discriminate]. intros _.
    apply run_lit_inv in E as (r1 & -> & E).
    apply run_digits_inv in E as (ds & tail & Hl & Hd & -> & _).
    exists ds, tail. repeat split; assumption.
  - intros (ds & tail & [Hl Hd] & Hu). rewrite Hu at 2.
    rewrite run_lit_read, (run_digits_read 9) by assumption.
    destruct tail as [|a tail]; [reflexivity|]. destruct (Ascii.eqb a "/"); reflexivity.
Qed.

Lemma url_code_read whole ds after :
  nine_digits ds ->
  Re.run whole ally_code_in_url_regex ("/p/" +:+ text ds +:+ after) []
    (fun _ caps => Some caps) = Some [(1%nat, text ds)].
Proof.
  intros [Hl Hd]. unfold ally_code_in_url_regex. cbn [Re.run].
  rewrite run_lit_read, (run_digits_read 9) by assumption. rewrite consumed_app.
  destruct after as [|a after]; [reflexivity|]. destruct (Ascii.eqb a "/"); reflexivity.
Qed.

Lemma url_code_inv whole s caps :
  Re.run whole ally_code_in_url_regex s [] (fun _ caps => Some caps) = Some caps ->
  exists ds after, nine_digits ds /\ s = "/p/" +:+ text ds +:+ after
                   /\ caps = [(1%nat, text ds)].
Proof.
  unfold ally_code_in_url_regex. cbn [Re.run]. intros H.
  apply run_lit_inv in H as (r1 & -> & H).
  apply run_digits_inv in H as (ds & after & Hl & Hd & -> & H).
  rewrite consumed_app in H. exists ds, after. split; [split; assumption|]. split; [reflexivity|].
  destruct after as [|a after]; [congruence|]. destruct (Ascii.eqb a "/"); congruence.
Qed.

Lemma search_from_hit whole r s caps :
  Re.run whole r s [] (fun _ caps => Some caps) = Some caps ->
  Re.search_from whole r s = Some caps.
Proof. intros H. destruct s; cbn [Re.search_from]; rewrite H; reflexivity. Qed.

Lemma search_from_sound whole r s caps :
  Re.search_from whole r s = Some caps ->
  exists before s', s = before +:+ s'
                    /\ Re.run whole r s' [] (fun _ caps => Some caps) = Some caps.
Proof.
  induction s as [|a s IH]; cbn [Re.search_from].
  - destruct (Re.run whole r "" [] _) as [x|] eqn:E; [|discriminate].
    intros [= ->]. exists EmptyString, EmptyString. split; [reflexivity|exact E].
  - destruct (Re.run whole r (String a s) [] _) as [x|] eqn:E.
    + intros [= ->]. exists EmptyString, (String a s). split; [reflexivity|exact E].
    + intros H. apply IH in H as (before & s' & -> & H).
      exists (String a before), s'. split; [reflexivity|exact H].
Qed.

Lemma search_from_none whole r before s' :
  Re.search_from whole r (before +:+ s') = None ->
  Re.run whole r s' [] (fun _ caps => Some caps) = None.
Proof.
  induction before as [|a before IH].
  - rewrite str_app_nil_l. destruct s'; cbn [Re.search_from];
      destruct (Re.run whole r _ [] _); congruence.
  - rewrite str_app_cons. cbn [Re.search_from].
    destruct (Re.run whole r (String a _) [] _); [discriminate|]. exact IH.
Qed.

(** X16. [is_swgoh_gg_link] matches at the start of the text only: it accepts
    exactly the texts that begin with the profile address and nine decimal
    digits, whatever follows them. *)
Theorem X16_profile_link_is_a_prefix_test :
  forall url : string,
    is_swgoh_gg_link url = true
    <-> exists (ds : list ascii) (tail : string),
          nine_digits ds /\ url = "https://swgoh.gg/p/" +:+ text ds +:+ tail.
Proof. exact swgoh_gg_link_spec. Qed.

Example profile_link_examples :
  is_swgoh_gg_link "https://swgoh.gg/p/123456789/" = true
  /\ is_swgoh_gg_link "https://swgoh.gg/p/123456789" = true
  /\ is_swgoh_gg_link "https://swgoh.gg/p/1234567890/characters" = true
  /\ is_swgoh_gg_link " https://swgoh.gg/p/123456789/" = false
  /\ is_swgoh_gg_link "http://swgoh.gg/p/123456789/" = false.
Proof. repeat split; reflexivity. Qed.

(** X17. [get_ally_code_from_url] returns nine decimal digits that stand in
    the text right after an occurrence of [/p/], and it raises its ValueError
    only for a text with no such occurrence. *)
Theorem X17_ally_code_from_url :
  forall url : string,
    match get_ally_code_from_url url with
    | Ok code =>
        exists (ds : list ascii) (before after : string),
          nine_digits ds /\ code = text ds
          /\ url = before +:+ "/p/" +:+ code +:+ after
    | Raise e =>
        e = ValueError "The provided URL does not contain a valid ally code."
        /\ forall (ds : list ascii) (before after : string),
             nine_digits ds -> url <> before +:+ "/p/" +:+ text ds +:+ after
    end.
Proof.
  intros url. unfold get_ally_code_from_url, Re.search.
  generalize url at 1. intros whole.
  destruct (Re.search_from whole ally_code_in_url_regex url) as [caps|] eqn:E.
  - apply search_from_sound in E as (before & s' & -> & E).
    apply url_code_inv in E as (ds & after & Hd & -> & ->).
    exists ds, before, after. split; [exact Hd|]. split; reflexivity.
  - split; [reflexivity|]. intros ds before after Hd ->.
    apply search_from_none in E. rewrite (url_code_read whole ds after Hd) in E. discriminate E.
Qed.

Example ally_code_from_url_examples :
  get_ally_code_from_url "see /p/12345/ and /p/987654321000" = Ok "987654321"
  /\ get_ally_code_from_url "https://swgoh.gg/p/12345678/"
     = Raise (ValueError "The provided URL does not contain a valid ally code.").
Proof. split; reflexivity. Qed.

Lemma search_link whole rest :
  Re.search_from whole ally_code_in_url_regex ("https://swgoh.gg" +:+ rest)
  = Re.search_from whole ally_code_in_url_regex rest.
Proof. reflexivity. Qed.

Lemma digit_not_dash a : Re.is_digit a = true -> Ascii.eqb a "-" = false.
Proof.
  intros H. destruct (Ascii.eqb a "-") eqn:E; [|reflexivity].
  apply Ascii.eqb_eq in E. subst a. discriminate H.
Qed.

Lemma replace_digits ds rest :
  forallb Re.is_digit ds = true ->
  replace_char (text ds +:+ rest) "-" EmptyString
  = text ds +:+ replace_char rest "-" EmptyString.
Proof.
  induction ds as [|d ds IH]; intros H; [reflexivity|].
  cbn [forallb] in H. apply andb_prop in H as [Hd H].
  cbn [text]. rewrite !str_app_cons. cbn [replace_char].
  rewrite (digit_not_dash d Hd), (IH H). reflexivity.
Qed.

Lemma replace_line_end nl :
  nl = EmptyString \/ nl = String Py.newline EmptyString ->
  replace_char nl "-" EmptyString = nl.
Proof. intros [-> | ->]; reflexivity. Qed.

Lemma replace_plain ds nl :
  nine_digits ds -> nl = EmptyString \/ nl = String Py.newline EmptyString ->
  replace_char (text ds +:+ nl) "-" EmptyString = text ds +:+ nl.
Proof. intros [_ Hd] Hnl. rewrite (replace_digits ds nl Hd), replace_line_end; auto. Qed.

Lemma replace_dashed ds nl :
  nine_digits ds -> nl = EmptyString \/ nl = String Py.newline EmptyString ->
  replace_char (dashed ds +:+ nl) "-" EmptyString = text ds +:+ nl.
Proof.
  intros [Hl Hd] Hnl.
  destruct ds as [|a1 [|a2 [|a3 [|b1 [|b2 [|b3 [|c1 [|c2 [|c3 [|? ?]]]]]]]]]];
    try discriminate Hl. clear Hl.
  cbn [forallb] in Hd. repeat (apply andb_prop in Hd as [? Hd]). clear Hd.
  change (dashed [a1; a2; a3; b1; b2; b3; c1; c2; c3] +:+ nl)
    with (text [a1; a2; a3]
            +:+ String "-" (text [b1; b2; b3] +:+ String "-" (text [c1; c2; c3] +:+ nl))).
  rewrite (replace_digits [a1; a2; a3]) by (cbn [forallb]; rewrite ?H, ?H0, ?H1; reflexivity).
  cbn [replace_char Ascii.eqb Bool.eqb]. rewrite str_app_nil_l.
  rewrite (replace_digits [b1; b2; b3]) by (cbn [forallb]; rewrite ?H2, ?H3, ?H4; reflexivity).
  cbn [replace_char Ascii.eqb Bool.eqb]. rewrite str_app_nil_l.
  rewrite (replace_digits [c1; c2; c3]) by (cbn [forallb]; rewrite ?H5, ?H6, ?H7; reflexivity).
  rewrite replace_line_end by assumption. reflexivity.
Qed.

Lemma link_code_read ds tail :
  nine_digits ds ->
  get_ally_code_from_url ("https://swgoh.gg/p/" +:+ text ds +:+ tail) = Ok (text ds).
Proof.
  intros Hd. unfold get_ally_code_from_url, Re.search.
  change ("https://swgoh.gg/p/" +:+ text ds +:+ tail)
    with ("https://swgoh.gg" +:+ "/p/" +:+ text ds +:+ tail) at 2.
  rewrite search_link.
  rewrite (search_from_hit _ _ _ _ (url_code_read _ ds tail Hd)). reflexivity.
Qed.

Lemma link_is_no_ally_code ds tail :
  is_valid_ally_code ("https://swgoh.gg/p/" +:+ text ds +:+ tail) = false.
Proof.
  destruct (is_valid_ally_code _) eqn:E; [|reflexivity].
  apply ally_code_spec in E as (ds' & nl & [Hl Hd] & _ & [E | E]);
    destruct ds' as [|a ds']; try discriminate Hl;
    cbn [forallb] in Hd; apply andb_prop in Hd as [Ha _].
  - cbn [text] in E. rewrite str_app_cons in E. injection E as <- _. discriminate Ha.
  - destruct ds' as [|b [|c ds']]; try discriminate Hl.
    injection E as <- _. discriminate Ha.
Qed.

(** X18. The two steps of the modal on a link fit together: for a text that
    [is_swgoh_gg_link] accepts, [get_ally_code_from_url] does not raise; it
    returns the nine digits that follow the profile address, and they are an
    ally code for [is_valid_ally_code]. *)
Theorem X18_accepted_link_yields_its_ally_code :
  forall url : string,
    is_swgoh_gg_link url = true ->
    exists code : string,
      get_ally_code_from_url url = Ok code
      /\ is_valid_ally_code code = true
      /\ exists tail : string, url = "https://swgoh.gg/p/" +:+ code +:+ tail.
Proof.
  intros url H. apply swgoh_gg_link_spec in H as (ds & tail & Hd & ->).
  exists (text ds). split; [|split].
  - apply link_code_read, Hd.
  - apply ally_code_spec. exists ds, EmptyString. split; [exact Hd|]. split; [left; reflexivity|].
    left. symmetry. apply str_app_nil_r.
  - exists tail. reflexivity.
Qed.

Lemma X18_accepted_link_yields_its_ally_code_witness :
  exists code : string,
    get_ally_code_from_url "https://swgoh.gg/p/123456789/characters" = Ok code
    /\ is_valid_ally_code code = true
    /\ exists tail : string,
         "https://swgoh.gg/p/123456789/characters" = "https://swgoh.gg/p/" +:+ code +:+ tail.
Proof.
  apply (X18_accepted_link_yields_its_ally_code "https://swgoh.gg/p/123456789/characters").
  reflexivity.
Defined.

(** ** Submitting an ally code *)

Lemma read_digits_text ds nl n seen :
  forallb Re.is_digit ds = true ->
  nl = EmptyString \/ nl = String Py.newline EmptyString ->
  (ds <> [] \/ seen = true) ->
  read_digits (text ds +:+ nl) n seen
  = Some (fold_left (fun n c => 10 * n + digit_value c) ds n).
Proof.
  revert n seen. induction ds as [|d ds IH]; intros n seen Hd Hnl Hs.
  - destruct Hs as [Hs | ->]; [contradiction|]. destruct Hnl as [-> | ->]; reflexivity.
  - cbn [forallb] in Hd. apply andb_prop in Hd as [Hd1 Hd2].
    cbn [text fold_left]. rewrite str_app_cons. cbn [read_digits]. rewrite Hd1.
    apply IH; auto.
Qed.

Lemma read_int_reads_nine_digits : reads_nine_digits read_int.
Proof.
  intros ds nl [Hl Hd] Hnl. unfold read_int, decimal.
  rewrite (read_digits_text ds nl 0 false Hd Hnl); [reflexivity|].
  left. intros ->. discriminate Hl.
Qed.

Lemma on_submit_converted int_ session_get value ds :
  reads_nine_digits int_ -> holds_digits value ds ->
  on_submit int_ session_get value = answer session_get (decimal ds).
Proof.
  intros Hint [Hd [(nl & Hnl & Hv)|(tail & ->)]]; unfold on_submit.
  - assert (is_valid_ally_code value = true) as -> by (apply ally_code_spec; eauto).
    assert (Hr : replace_char value "-" EmptyString = text ds +:+ nl).
    { destruct Hv as [-> | ->]; [apply replace_plain|apply replace_dashed]; assumption. }
    rewrite Hr, (Hint ds nl Hd Hnl). reflexivity.
  - rewrite link_is_no_ally_code.
    assert (is_swgoh_gg_link ("https://swgoh.gg/p/" +:+ text ds +:+ tail) = true) as ->
      by (apply swgoh_gg_link_spec; eauto).
    rewrite (link_code_read ds tail Hd).
    rewrite <- (str_app_nil_r (text ds)) at 1.
    rewrite (Hint ds EmptyString Hd (or_introl eq_refl)). reflexivity.
Qed.

Lemma accepted_holds_digits value :
  is_valid_ally_code value = true \/ is_swgoh_gg_link value = true ->
  exists ds, holds_digits value ds.
Proof.
  intros [H | H].
  - apply ally_code_spec in H as (ds & nl & Hd & Hnl & Hv). exists ds.
    split; [exact Hd|left; exists nl; auto].
  - apply swgoh_gg_link_spec in H as (ds & tail & Hd & ->). exists ds.
    split; [exact Hd|right; exists tail; reflexivity].
Qed.

Lemma on_submit_rejected int_ session_get value :
  (forall ds, ~ holds_digits value ds) ->
  on_submit int_ session_get value = ([], Ok (invalid_response, true)).
Proof.
  intros Hn. unfold on_submit.
  destruct (is_valid_ally_code value) eqn:Ev.
  - destruct (accepted_holds_digits value (or_introl Ev)) as [ds H]. destruct (Hn ds H).
  - destruct (is_swgoh_gg_link value) eqn:El; [|reflexivity].
    destruct (accepted_holds_digits value (or_intror El)) as [ds H]. destruct (Hn ds H).
Qed.

(** X19. No input makes [on_submit] fail: given that [int] reads nine digits
    (also before a line end) as their number, the conversions of an accepted
    input never raise, and an error leaves [on_submit] only when the session
    raised it on the one link that was fetched. *)
Theorem X19_on_submit_fails_only_with_the_session :
  forall (int_ session_get : string -> Result Z) (value : string)
         (fetched : list string) (e : exn),
    reads_nine_digits int_ ->
    on_submit int_ session_get value = (fetched, Raise e) ->
    exists link : string, fetched = [link] /\ session_get link = Raise e.
Proof.
  intros int_ session_get value fetched e Hint H.
  destruct (is_valid_ally_code value) eqn:Ev; [|destruct (is_swgoh_gg_link value) eqn:El].
  1, 2: (destruct (accepted_holds_digits value) as [ds Hds]; [auto|];
         rewrite (on_submit_converted _ _ _ _ Hint Hds) in H; unfold answer in H;
         destruct (decimal ds =? 0); [discriminate H|];
         destruct (session_get _) as [status|e'] eqn:Eg; [discriminate H|];
         injection H as <- <-; eauto).
  unfold on_submit in H. rewrite Ev, El in H. discriminate H.
Qed.

Lemma X19_on_submit_fails_only_with_the_session_witness :
  exists link : string,
    ["https://swgoh.gg/p/123456789/"] = [link]
    /\ (fun _ : string => @Raise Z (External "aiohttp.ClientConnectorError")) link
       = Raise (External "aiohttp.ClientConnectorError").
Proof.
  apply (X19_on_submit_fails_only_with_the_session read_int
           (fun _ => Raise (External "aiohttp.ClientConnectorError")) "123-456-789").
  - exact read_int_reads_nine_digits.
  - reflexivity.
Defined.

(** X20. [on_submit] goes on with the number, not with the digits typed: an
    accepted input whose nine digits are all zero is answered as invalid and
    nothing is fetched; for any other accepted input the one link fetched is
    built from the decimal text of the number, so without its leading zeros;
    and an input that neither pattern accepts is answered as invalid. *)
Theorem X20_on_submit_uses_the_number :
  forall (int_ session_get : string -> Result Z) (value : string),
    reads_nine_digits int_ ->
    (forall ds, holds_digits value ds -> decimal ds = 0 ->
                on_submit int_ session_get value = ([], Ok (invalid_response, true)))
    /\ (forall ds, holds_digits value ds -> decimal ds <> 0 ->
                   fst (on_submit int_ session_get value)
                   = [build_swgoh_gg_link (Py.str_of_int (decimal ds))])
    /\ ((forall ds, ~ holds_digits value ds) ->
        on_submit int_ session_get value = ([], Ok (invalid_response, true))).
Proof.
  intros int_ session_get value Hint. split; [|split].
  - intros ds Hds Hz. rewrite (on_submit_converted _ _ _ _ Hint Hds). unfold answer.
    rewrite Hz. reflexivity.
  - intros ds Hds Hz. rewrite (on_submit_converted _ _ _ _ Hint Hds). unfold answer.
    destruct (decimal ds =? 0) eqn:E; [apply Z.eqb_eq in E; contradiction|].
    destruct (session_get _); reflexivity.
  - apply on_submit_rejected.
Qed.

Lemma X20_on_submit_uses_the_number_witness :
  fst (on_submit read_int (fun _ => Ok 200) "012-345-678") = ["https://swgoh.gg/p/12345678/"].
Proof.
  destruct (X20_on_submit_uses_the_number read_int (fun _ => Ok 200) "012-345-678"
              read_int_reads_nine_digits) as (_ & H & _).
  apply (H ["0"; "1"; "2"; "3"; "4"; "5"; "6"; "7"; "8"]%char).
  - split; [split; reflexivity|]. left. exists EmptyString. split; [left|right]; reflexivity.
  - discriminate.
Defined.

Example on_submit_examples :
  on_submit read_int (fun _ => Ok 404) "012-345-678"
  = (["https://swgoh.gg/p/12345678/"],
     Ok ("- Ally Code: `12345678`" +:+ String Py.newline
           "- SWGOH.GG Profile: ``No Profile Found``", true))
  /\ is_swgoh_gg_link "https://swgoh.gg/p/12345678/" = false
  /\ on_submit read_int (fun _ => Ok 200) "https://swgoh.gg/p/000000000/"
     = ([], Ok (invalid_response, true)).
Proof. repeat split; reflexivity. Qed.
